(** * Movie review collection: matching, resolution, deduplication, ratings

    A shallow embedding of the reconciliation core of the movie review
    collector: the fuzzy title matcher and the search cascade of
    [scrapers/rotten_tomatoes_selenium.py], the fuzzy candidate selection and
    the review parser of [scrapers/imdb_scraper.py], and the rating
    selection of [database/models.py].

    Conventions of the embedding.
    - A Python [str] is a [string]; the text functions below follow Python on
      ASCII text (code points below 128), where a character is a byte.  On
      other text Python counts code points, lower-cases beyond ASCII (the
      Kelvin sign becomes "k") and has more blanks (the no-break space):
      a theorem that holds of ASCII text only carries the hypothesis
      [Py.is_ascii].
    - A Python [float] is an exact rational ([Q]) in the title matcher and
      in [Models], where only comparisons and bounds are stated: comparisons
      are made on the rational value, and [round(x, 2)] rounds the exact
      value to the nearest hundredth, ties to the even hundredth.  Where the
      value itself is stated, in [Models64], a [float] is an IEEE 754
      binary64 number and every operation rounds as the interpreter's does.
    - A Python [int] is a [Z]; [None] is [None]; a value is "truthy" as in
      Python ([0], [0.0], [""] and [None] are not).
    - A naive [datetime] is the number of microseconds since the epoch.
    - What the code reads from the outside world (the clock, the pages the
      browser returns, the interpreter's string-hash secret) is an explicit
      argument of the function that reads it. *)

From Stdlib Require Import ZArith QArith Qround Qabs Qminmax List String Ascii Bool Lia Lqa.
From Stdlib Require Import Numbers.DecimalString.
From Stdlib Require Import Floats.SpecFloat.
Import ListNotations.

Open Scope string_scope.
Open Scope Z_scope.

(** ** Exceptions and outcomes *)

Inductive exn : Type :=
| TimeoutException
| NoSuchElementException
| WebDriverException
| RuntimeError
| ValueError
| AttributeError
| ZeroDivisionError
| OverflowError.

(** The outcome of running a piece of Python: a value or a raised exception. *)
Inductive outcome (A : Type) : Type :=
| Return (a : A)
| Raise (e : exn).

Arguments Return {A} a.
Arguments Raise {A} e.

Definition bind {A B : Type} (m : outcome A) (k : A -> outcome B) : outcome B :=
  match m with
  | Return a => k a
  | Raise e => Raise e
  end.

(** [try: body  except Exception: handler]. *)
Definition try_except {A : Type} (body : outcome A) (handler : exn -> outcome A)
  : outcome A :=
  match body with
  | Return a => Return a
  | Raise e => handler e
  end.

Notation "x <- m ;; k" := (bind m (fun x => k))
  (at level 61, m at next level, right associativity).

(** ** Python built-ins used by the scrapers *)

Module Py.

Definition datetime := Z.

Definition microseconds_per_day : Z := 86400 * 1000000.

(** [(a - b).days]: [timedelta] normalises so that the day count is the
    floor of the difference. *)
Definition timedelta_days (a b : datetime) : Z :=
  (a - b) / microseconds_per_day.

(** [str.isspace] on one ASCII character, which is also what [\s] matches
    and what [str.split()] and [str.strip()] treat as blank. *)
Definition is_space (c : ascii) : bool :=
  let n := nat_of_ascii c in
  ((9 <=? n) && (n <=? 13) || (28 <=? n) && (n <=? 32))%nat.

Definition is_digit (c : ascii) : bool :=
  let n := nat_of_ascii c in ((48 <=? n) && (n <=? 57))%nat.

Definition is_lower_alpha (c : ascii) : bool :=
  let n := nat_of_ascii c in ((97 <=? n) && (n <=? 122))%nat.

Definition is_upper_alpha (c : ascii) : bool :=
  let n := nat_of_ascii c in ((65 <=? n) && (n <=? 90))%nat.

Definition lower_char (c : ascii) : ascii :=
  if is_upper_alpha c then ascii_of_nat (nat_of_ascii c + 32) else c.

Fixpoint map_chars (f : ascii -> ascii) (s : string) : string :=
  match s with
  | EmptyString => EmptyString
  | String c s' => String (f c) (map_chars f s')
  end.

Fixpoint filter_chars (p : ascii -> bool) (s : string) : string :=
  match s with
  | EmptyString => EmptyString
  | String c s' => if p c then String c (filter_chars p s') else filter_chars p s'
  end.

(** [s.lower()], on ASCII text. *)
Definition lower (s : string) : string := map_chars lower_char s.

(** [s.startswith(p)] *)
Definition startswith (s p : string) : bool := prefix p s.

(** [s[n:]] *)
Fixpoint drop (n : nat) (s : string) : string :=
  match n, s with
  | O, _ => s
  | S _, EmptyString => EmptyString
  | S k, String _ s' => drop k s'
  end.

Definition is_empty (s : string) : bool :=
  match s with EmptyString => true | _ => false end.

(** Truthiness of a [str] and of an optional [str]. *)
Definition truthy_str (s : string) : bool := negb (is_empty s).

Definition truthy_opt_str (o : option string) : bool :=
  match o with Some s => truthy_str s | None => false end.

(** Truthiness of an optional [int]. *)
Definition truthy_opt_int (o : option Z) : bool :=
  match o with Some n => negb (n =? 0) | None => false end.

Fixpoint lstrip_with (p : ascii -> bool) (s : string) : string :=
  match s with
  | EmptyString => EmptyString
  | String c s' => if p c then lstrip_with p s' else s
  end.

Fixpoint rstrip_with (p : ascii -> bool) (s : string) : string :=
  match s with
  | EmptyString => EmptyString
  | String c s' =>
      let r := rstrip_with p s' in
      if p c && is_empty r then EmptyString else String c r
  end.

(** [s.strip()] *)
Definition strip (s : string) : string :=
  rstrip_with is_space (lstrip_with is_space s).

(** [s.rstrip(ch)] for a one-character argument. *)
Definition rstrip_char (ch : ascii) (s : string) : string :=
  rstrip_with (Ascii.eqb ch) s.

Fixpoint split_go (cur : string) (s : string) : list string :=
  match s with
  | EmptyString => if is_empty cur then [] else [cur]
  | String c s' =>
      if is_space c
      then (if is_empty cur then split_go EmptyString s'
            else cur :: split_go EmptyString s')
      else split_go (cur ++ String c EmptyString) s'
  end.

(** [s.split()]: the maximal runs of non-blank characters. *)
Definition split (s : string) : list string := split_go EmptyString s.

(** [sep.join(parts)] *)
Fixpoint join (sep : string) (parts : list string) : string :=
  match parts with
  | [] => EmptyString
  | [p] => p
  | p :: rest => p ++ sep ++ join sep rest
  end.

(** [sub in s] *)
Fixpoint contains (sub s : string) : bool :=
  prefix sub s ||
  match s with
  | EmptyString => false
  | String _ s' => contains sub s'
  end.

Fixpoint interleave (new s : string) : string :=
  match s with
  | EmptyString => new
  | String c s' => new ++ String c (interleave new s')
  end.

Fixpoint replace_go (old new : string) (skip : nat) (s : string) : string :=
  match s with
  | EmptyString => EmptyString
  | String c s' =>
      match skip with
      | S k => replace_go old new k s'
      | O =>
          if prefix old s
          then new ++ replace_go old new (String.length old - 1) s'
          else String c (replace_go old new 0 s')
      end
  end.

(** [s.replace(old, new)]: every occurrence, left to right, without
    overlap. *)
Definition replace (old new s : string) : string :=
  if is_empty old then interleave new s else replace_go old new 0 s.

(** [str(n)] for an [int]. *)
Definition str_of_int (n : Z) : string :=
  NilEmpty.string_of_int (Z.to_int n).

Definition digit_value (c : ascii) : Z := Z.of_nat (nat_of_ascii c - 48).

(** The digits of an integer literal read by [int()]: digits, with single
    underscores allowed between them. *)
Fixpoint read_digits (acc : Z) (after_digit : bool) (s : string) : option Z :=
  match s with
  | EmptyString => if after_digit then Some acc else None
  | String c s' =>
      if is_digit c then read_digits (10 * acc + digit_value c) true s'
      else if Ascii.eqb c "_" && after_digit
           then match s' with
                | EmptyString => None
                | String d _ => if is_digit d then read_digits acc false s' else None
                end
           else None
  end.

(** The blanks [int()] skips around the literal: for ASCII text the C
    locale's [isspace], that is the characters 9 to 13 and the space.  The
    separators 28 to 31, which [str.strip()] removes, are not among them. *)
Definition is_c_space (c : ascii) : bool :=
  let n := nat_of_ascii c in ((9 <=? n) && (n <=? 13) || (n =? 32))%nat.

Fixpoint count_digits (s : string) : nat :=
  match s with
  | EmptyString => O
  | String c s' => if is_digit c then S (count_digits s') else count_digits s'
  end.

(** [sys.int_info.default_max_str_digits]: [int()] refuses a literal with
    more digits, and [str()] an integer with more digits, with a
    [ValueError]. *)
Definition int_max_str_digits : nat := 4300.

Definition max_str_value : Z := 10 ^ 4300.

(** [int(s)] for a [str]: blanks around, an optional sign, decimal digits.
    [None] stands for the [ValueError] it raises otherwise. *)
Definition int_of_str (s : string) : option Z :=
  let literal := rstrip_with is_c_space (lstrip_with is_c_space s) in
  if (int_max_str_digits <? count_digits literal)%nat then None
  else
    match literal with
    | String "-" rest => option_map Z.opp (read_digits 0 false rest)
    | String "+" rest => read_digits 0 false rest
    | t => read_digits 0 false t
    end.

(** [f"{n}"] for an [int]: the decimal digits, or the [ValueError] raised
    for an integer of more than [int_max_str_digits] digits; and for an
    optional [int]. *)
Definition format_int (n : Z) : outcome string :=
  if max_str_value <=? Z.abs n then Raise ValueError
  else Return (str_of_int n).

Definition format_opt_int (o : option Z) : outcome string :=
  match o with
  | Some n => format_int n
  | None => Return "None"
  end.

(** The text holds ASCII characters only. *)
Fixpoint is_ascii (s : string) : bool :=
  match s with
  | EmptyString => true
  | String c s' => (nat_of_ascii c <? 128)%nat && is_ascii s'
  end.

(** Half-to-even rounding of a rational to an integer. *)
Definition round_half_even (q : Q) : Z :=
  let f := Qfloor q in
  match Qcompare (q - inject_Z f)%Q (1 # 2) with
  | Lt => f
  | Gt => f + 1
  | Eq => if Z.even f then f else f + 1
  end.

(** [round(x, 2)] *)
Definition round2 (q : Q) : Q :=
  (inject_Z (round_half_even (q * inject_Z 100)) / inject_Z 100)%Q.

(** Truthiness of an optional [float]. *)
Definition truthy_opt_float (o : option Q) : bool :=
  match o with Some q => negb (Qeq_bool q 0%Q) | None => false end.

(** [a or b] on optional floats. *)
Definition or_float (a b : option Q) : option Q :=
  if truthy_opt_float a then a else b.

(** [n or d] where [n] is an optional [int]. *)
Definition or_int (n : option Z) (d : Z) : Z :=
  match n with
  | Some v => if v =? 0 then d else v
  | None => d
  end.

End Py.

(** ** Binary64 arithmetic

    A [float] of the interpreter is an IEEE 754 binary64 number.  The
    operations are those of the Standard Library's specification of
    floating-point arithmetic at precision 53 and maximal exponent 1024:
    each result is the exact result rounded to the nearest float, ties to
    the float with an even mantissa. *)

Module Float64.

Definition prec : Z := 53.
Definition emax : Z := 1024.

Definition float : Type := spec_float.

Definition mul (x y : float) : float := SFmul prec emax x y.
Definition add (x y : float) : float := SFadd prec emax x y.
Definition sub (x y : float) : float := SFsub prec emax x y.
Definition div (x y : float) : float := SFdiv prec emax x y.
Definition abs (x : float) : float := SFabs x.

(** [x < y] *)
Definition ltb (x y : float) : bool := SFltb x y.

Definition is_zero (x : float) : bool :=
  match x with S754_zero _ => true | _ => false end.

(** Truthiness of a [float]: [x != 0.0], so a NaN is truthy. *)
Definition truthy (x : float) : bool := negb (is_zero x).

Definition truthy_opt (o : option float) : bool :=
  match o with Some x => truthy x | None => false end.

(** [a or b] on optional floats. *)
Definition or_float (a b : option float) : option float :=
  if truthy_opt a then a else b.

(** The float nearest to the integer [n]; an infinity when [n] is beyond
    the range. *)
Definition nearest (n : Z) : float := binary_normalize prec emax n 0 false.

(** The conversion of an [int] operand of a float operation: the nearest
    float, or [OverflowError] ("int too large to convert to float"). *)
Definition of_int (n : Z) : outcome float :=
  match nearest n with
  | S754_infinity _ => Raise OverflowError
  | x => Return x
  end.

(** [x / y]: [ZeroDivisionError] for a zero divisor. *)
Definition truediv (x y : float) : outcome float :=
  if is_zero y then Raise ZeroDivisionError else Return (div x y).

(** The float nearest to the ratio [n / d] of two positive integers, with
    the sign [s]. *)
Definition of_ratio (s : bool) (n d : positive) : float :=
  SFdiv prec emax (S754_finite s n 0) (S754_finite false d 0).

(** The float a decimal literal denotes: the nearest to [n / 10 ^ k]. *)
Definition of_decimal (n : Z) (k : nat) : float :=
  match n with
  | Z0 => S754_zero false
  | Zpos p => of_ratio false p (Z.to_pos (10 ^ Z.of_nat k))
  | Zneg p => of_ratio true p (Z.to_pos (10 ^ Z.of_nat k))
  end.

(** The absolute value of a finite float, as a rational. *)
Definition magnitude (x : float) : Q :=
  match x with
  | S754_finite _ m e =>
      if 0 <=? e then inject_Z (Zpos m * 2 ^ e)
      else (Zpos m # Z.to_pos (2 ^ (- e)))
  | _ => 0%Q
  end.

(** [round(x, 2)]: the value of [x] is written with two decimals, the
    binary value rounded to the nearest hundredth and a tie to the even one,
    and the decimal is read back as the nearest float.  Infinities and NaN
    round to themselves; the sign of a zero is kept. *)
Definition round2 (x : float) : float :=
  match x with
  | S754_finite s _ _ =>
      match Py.round_half_even (magnitude x * inject_Z 100)%Q with
      | Zpos n => of_ratio s n 100
      | _ => S754_zero s
      end
  | _ => x
  end.

(** The float [1.0]. *)
Definition one : float := nearest 1.

End Float64.

(** ** The interpreter's string hash

    [hash(s)] on a [str] is CPython's keyed SipHash-1-3 of the string's
    bytes (one byte per character for ASCII text) under a 128-bit secret
    that the interpreter draws when the process starts (a fresh random
    secret on every run unless [PYTHONHASHSEED] pins it).  The secret is
    therefore an explicit argument here. *)

Module PyHash.

Record HashSecret : Type := { k0 : Z; k1 : Z }.

Definition w64 (x : Z) : Z := x mod 2 ^ 64.

Definition rotl (x b : Z) : Z :=
  w64 (Z.lor (Z.shiftl x b) (Z.shiftr x (64 - b))).

Record SipState : Type := { v0 : Z; v1 : Z; v2 : Z; v3 : Z }.

(** [HALF_ROUND(a, b, c, d, s, t)] returns the new [(a, b, c, d)]. *)
Definition half_round (a b c d s t : Z) : Z * Z * Z * Z :=
  let a := w64 (a + b) in
  let c := w64 (c + d) in
  let b := Z.lxor (rotl b s) a in
  let d := Z.lxor (rotl d t) c in
  let a := rotl a 32 in
  (a, b, c, d).

Definition single_round (st : SipState) : SipState :=
  let '(a0, b1, c2, d3) := half_round (v0 st) (v1 st) (v2 st) (v3 st) 13 16 in
  let '(c2, b1, a0, d3) := half_round c2 b1 a0 d3 17 21 in
  {| v0 := a0; v1 := b1; v2 := c2; v3 := d3 |}.

(** Little-endian value of a list of bytes. *)
Fixpoint le_bytes (bs : list Z) : Z :=
  match bs with
  | [] => 0
  | b :: rest => b + 256 * le_bytes rest
  end.

Definition absorb (st : SipState) (m : Z) : SipState :=
  let st := {| v0 := v0 st; v1 := v1 st; v2 := v2 st; v3 := Z.lxor (v3 st) m |} in
  let st := single_round st in
  {| v0 := Z.lxor (v0 st) m; v1 := v1 st; v2 := v2 st; v3 := v3 st |}.

(** The loop over whole 8-byte words, then the tail word that carries the
    remaining bytes and the length in its top byte. *)
Fixpoint absorb_all (fuel : nat) (len : Z) (st : SipState) (bs : list Z) : SipState :=
  match fuel with
  | O => st
  | S fuel' =>
      if (8 <=? List.length bs)%nat
      then absorb_all fuel' len (absorb st (le_bytes (firstn 8 bs))) (skipn 8 bs)
      else absorb st (Z.lor (w64 (Z.shiftl len 56)) (le_bytes bs))
  end.

Definition siphash13 (key : HashSecret) (bs : list Z) : Z :=
  let st := {| v0 := Z.lxor (k0 key) 8317987319222330741;
               v1 := Z.lxor (k1 key) 7237128888997146477;
               v2 := Z.lxor (k0 key) 7816392313619706465;
               v3 := Z.lxor (k1 key) 8387220255154660723 |} in
  let st := absorb_all (S (List.length bs)) (Z.of_nat (List.length bs)) st bs in
  let st := {| v0 := v0 st; v1 := v1 st; v2 := Z.lxor (v2 st) 255; v3 := v3 st |} in
  let st := single_round (single_round (single_round st)) in
  Z.lxor (Z.lxor (v0 st) (v1 st)) (Z.lxor (v2 st) (v3 st)).

Definition bytes_of (s : string) : list Z :=
  map (fun c => Z.of_nat (nat_of_ascii c)) (list_ascii_of_string s).

(** [hash(s)]: the empty string hashes to [0]; the 64-bit result is read
    as a signed integer, and [-1] (the error value of the C interface) is
    replaced by [-2]. *)
Definition hash (key : HashSecret) (s : string) : Z :=
  match s with
  | EmptyString => 0
  | _ =>
      let u := siphash13 key (bytes_of s) in
      let x := if u <? 2 ^ 63 then u else u - 2 ^ 64 in
      if x =? -1 then -2 else x
  end.

End PyHash.

(** ** [difflib.SequenceMatcher(None, a, b).ratio()]

    The standard library's Ratcliff/Obershelp matcher: the longest matching
    block is found first (earliest in [a], then earliest in [b], among the
    longest), then the pieces to its left and to its right are matched
    in the same way; the ratio is twice the number of matched characters over
    the total length.  With the default [autojunk], a character that fills
    more than 1% (plus one) of a [b] of 200 characters or more is left out
    of the index used to seed blocks, though blocks still extend over it. *)

Module Difflib.

Definition triple : Type := (nat * nat * nat)%type.

Definition popular (b : list ascii) (c : ascii) : bool :=
  let n := List.length b in
  ((200 <=? n) && (n / 100 + 1 <? count_occ ascii_dec b c))%nat.

Section Matcher.
Variables a b : list ascii.

Definition char_at (l : list ascii) (i : nat) : option ascii := nth_error l i.

Definition same_at (i j : nat) : bool :=
  match char_at a i, char_at b j with
  | Some x, Some y => Ascii.eqb x y
  | _, _ => false
  end.

(** One pass of the inner loop for the element [ai] at index [i] of [a]:
    [prev] holds, for each [j], the length of the block ending at
    [(i-1, j-1)]; the result holds the lengths of the blocks ending at
    [(i, j)]. *)
Fixpoint scan_row (ai : ascii) (i blo bhi j : nat) (bs : list ascii)
         (prev : list nat) (best : triple) : list nat * triple :=
  match bs with
  | [] => ([], best)
  | bj :: bs' =>
      let k :=
        if ((blo <=? j) && (j <? bhi))%nat && Ascii.eqb ai bj && negb (popular b bj)
        then S (hd O prev) else O in
      let best' :=
        let '(_, _, bestsize) := best in
        if (bestsize <? k)%nat then ((i + 1 - k)%nat, (j + 1 - k)%nat, k) else best in
      let '(rest, best'') := scan_row ai i blo bhi (S j) bs' (tl prev) best' in
      (k :: rest, best'')
  end.

Fixpoint scan_rows (i blo bhi : nat) (rows : list ascii) (prev : list nat)
         (best : triple) : triple :=
  match rows with
  | [] => best
  | ai :: rows' =>
      let '(cur, best') := scan_row ai i blo bhi O b (O :: prev) best in
      scan_rows (S i) blo bhi rows' cur best'
  end.

Fixpoint extend_left (fuel alo blo : nat) (best : triple) : triple :=
  match fuel with
  | O => best
  | S fuel' =>
      let '(besti, bestj, bestsize) := best in
      if ((alo <? besti) && (blo <? bestj))%nat && same_at (besti - 1) (bestj - 1)
      then extend_left fuel' alo blo ((besti - 1)%nat, (bestj - 1)%nat, S bestsize)
      else best
  end.

Fixpoint extend_right (fuel ahi bhi : nat) (best : triple) : triple :=
  match fuel with
  | O => best
  | S fuel' =>
      let '(besti, bestj, bestsize) := best in
      if ((besti + bestsize <? ahi) && (bestj + bestsize <? bhi))%nat
         && same_at (besti + bestsize) (bestj + bestsize)
      then extend_right fuel' ahi bhi (besti, bestj, S bestsize)
      else best
  end.

Definition find_longest_match (alo ahi blo bhi : nat) : triple :=
  let rows := firstn (ahi - alo) (skipn alo a) in
  let best := scan_rows alo blo bhi rows [] (alo, blo, O) in
  let best := extend_left (List.length a) alo blo best in
  extend_right (List.length a) ahi bhi best.

(** The number of matched characters in [a[alo:ahi]] against
    [b[blo:bhi]]. *)
Fixpoint matched (fuel alo ahi blo bhi : nat) : nat :=
  match fuel with
  | O => O
  | S fuel' =>
      let '(i, j, k) := find_longest_match alo ahi blo bhi in
      if (k =? 0)%nat then O
      else (k
            + (if ((alo <? i) && (blo <? j))%nat then matched fuel' alo i blo j else O)
            + (if ((i + k <? ahi) && (j + k <? bhi))%nat
               then matched fuel' (i + k) ahi (j + k) bhi else O))%nat
  end.

Definition matches : nat :=
  matched (S (List.length a)) O (List.length a) O (List.length b).

End Matcher.

Definition ratio (s t : string) : Q :=
  let a := list_ascii_of_string s in
  let b := list_ascii_of_string t in
  let total := (List.length a + List.length b)%nat in
  if (total =? 0)%nat then 1%Q
  else (inject_Z (2 * Z.of_nat (matches a b)) / inject_Z (Z.of_nat total))%Q.

End Difflib.

(** ** Review records

    The dictionary both parsers return.  [review_type] is [None] when the
    key is absent (the IMDb parser does not set it). *)

Record Review : Type := {
  source_id : option string;
  text : string;
  rating : option Q;
  title : option string;
  author : option string;
  review_date : option Py.datetime;
  helpful_count : Z;
  not_helpful_count : Z;
  review_length : Z;
  word_count : Z;
  review_type : option string
}.

(** [d.get(key, default)] on a dictionary with string keys. *)
Fixpoint dict_get {V : Type} (d : list (string * V)) (key : string) (default : V) : V :=
  match d with
  | [] => default
  | (k, v) :: d' => if String.eqb k key then v else dict_get d' key default
  end.

(** [key in d] *)
Definition dict_mem {V : Type} (d : list (string * V)) (key : string) : bool :=
  existsb (fun kv => String.eqb (fst kv) key) d.

(** ** scrapers/rotten_tomatoes_selenium.py *)

Module RottenTomatoes.

Definition BASE_URL : string := "https://www.rottentomatoes.com".

Definition ENDPOINTS : list (string * string) :=
  [ ("top_critics", "/reviews/top-critics");
    ("all_critics", "/reviews/all-critics");
    ("verified_audience", "/reviews/verified-audience");
    ("all_audience", "/reviews/all-audience") ].

Definition PRIORITIES : list (string * Z) :=
  [ ("top_critic", 4); ("critic", 3); ("verified_audience", 2); ("audience", 1) ].

(** What [re.sub(r'[^a-z0-9\s]', '', s)] keeps. *)
Definition slug_char (c : ascii) : bool :=
  Py.is_lower_alpha c || Py.is_digit c || Py.is_space c.

Definition _generate_slug (title : string) (year : option Z) : string :=
  let slug := Py.lower title in
  let slug := Py.replace "&" " and " slug in
  let slug := Py.filter_chars slug_char slug in
  let slug := Py.join "_" (Py.split slug) in
  if Py.truthy_opt_int year
  then match year with
       | Some y => slug ++ "_" ++ Py.str_of_int y
       | None => slug
       end
  else slug.

(** *** The fuzzy title matcher *)

Definition strip_article (title article : string) : string :=
  if Py.startswith title article
  then Py.drop (String.length article) title
  else title.

Definition normalize (title : string) : string :=
  let title := Py.lower title in
  let title := fold_left strip_article ["the "; "a "; "an "] title in
  let title := Py.filter_chars slug_char title in
  Py.join " " (Py.split title).

(** [len(s)], on ASCII text. *)
Definition len (s : string) : Z := Z.of_nat (String.length s).

(** [set(s.split())] as a duplicate-free list. *)
Definition word_set (s : string) : list string := nodup string_dec (Py.split s).

Definition set_inter (xs ys : list string) : list string :=
  filter (fun w => existsb (String.eqb w) ys) xs.

Definition set_size (xs : list string) : Z := Z.of_nat (List.length xs).

(** [max(x, y)] on floats: the first argument unless the second is
    greater. *)
Definition float_max (x y : Q) : Q := if Qle_bool y x then x else y.

Definition len_ratio (search_norm result_norm : string) : Q :=
  (inject_Z (Z.min (len search_norm) (len result_norm))
   / inject_Z (Z.max (len search_norm) (len result_norm)))%Q.

Definition word_overlap (search_norm result_norm : string) : Q :=
  let search_words := word_set search_norm in
  let result_words := word_set result_norm in
  match search_words, result_words with
  | _ :: _, _ :: _ =>
      (inject_Z (set_size (set_inter search_words result_words))
       / inject_Z (Z.max (set_size search_words) (set_size result_words)))%Q
  | _, _ => 0%Q
  end.

Definition _calculate_match_score (search_title result_title : string) : Q :=
  let search_norm := normalize search_title in
  let result_norm := normalize result_title in
  (* Strategy 1: exact match *)
  if String.eqb search_norm result_norm then 1%Q
  (* Strategy 2: one contains the other *)
  else if Py.contains search_norm result_norm || Py.contains result_norm search_norm
  then ((9 # 10) * len_ratio search_norm result_norm)%Q
  else
    (* Strategy 3: sequence matching; Strategy 4: word overlap *)
    let seq_ratio := Difflib.ratio search_norm result_norm in
    float_max seq_ratio (word_overlap search_norm result_norm).

Definition _titles_match (search_title result_title : string) : bool :=
  Qle_bool (7 # 10) (_calculate_match_score search_title result_title).

(** *** Searching for a movie *)

(** One [search-page-media-row] element: the [a[data-qa="info-name"]]
    link below it, if there is one, with its text and its [href], and the
    row's [startyear] attribute. *)
Record MediaRow : Type := {
  info_name : option (string * option string);
  startyear : option string
}.

Definition Match : Type := (string * option string * option string * Q)%type.

(** The body of the loop over the result rows: [(best_match, best_score)]
    before and after one row.  A row without the link raises
    [NoSuchElementException], which the loop's handler skips. *)
Definition consider (title : string) (year : option Z)
           (st : option Match * Q) (result : MediaRow) : option Match * Q :=
  let '(best_match, best_score) := st in
  match info_name result with
  | None => st
  | Some (link_text, result_url) =>
      let result_title := Py.strip link_text in
      let result_year := startyear result in
      let is_tv := match result_url with
                   | Some u => Py.truthy_str u && Py.contains "/tv/" u
                   | None => false
                   end in
      if is_tv then st
      else
        let match_score := _calculate_match_score title result_title in
        let '(match_score, year_compatible) :=
          if Py.truthy_opt_int year && Py.truthy_opt_str result_year
          then match year, result_year with
               | Some y, Some ry =>
                   match Py.int_of_str ry with
                   | Some result_year_int =>
                       let year_diff := Z.abs (result_year_int - y) in
                       if year_diff <=? 2
                       then ((match_score + (1 # 10))%Q, true)
                       else (match_score, false)
                   | None => (match_score, true)
                   end
               | _, _ => (match_score, true)
               end
          else (match_score, true) in
        if year_compatible && negb (Qle_bool match_score best_score)
        then (Some (result_title, result_url, result_year, match_score), match_score)
        else st
  end.

(** The slug cut out of a result's address. *)
Definition slug_of_url (result_url : string) : string :=
  Py.rstrip_char "/" (Py.replace (BASE_URL ++ "/m/") "" result_url).

(** The part of [_search_via_selenium] inside its [try]: [page] is what
    starting the driver, loading the search page, waiting for the first
    result row and reading the rows gives: the rows, or the exception
    one of these steps raised.  (The loop that writes the first ten rows to
    the log does not touch the result and is left out, like all logging and
    sleeping.) *)
Definition _search_via_selenium_body (title : string) (year : option Z)
           (page : outcome (list MediaRow)) : outcome (option string) :=
  results <- page ;;
  match results with
  | [] => Return None
  | _ =>
      let '(best_match, best_score) :=
        fold_left (consider title year) results (None, 0%Q) in
      match best_match with
      | Some (_, result_url, _, _) =>
          if Qle_bool (7 # 10) best_score
          then match result_url with
               | Some u => Return (Some (slug_of_url u))
               | None => Raise AttributeError
               end
          else Return None
      | None => Return None
      end
  end.

Definition _search_via_selenium (title : string) (year : option Z)
           (page : outcome (list MediaRow)) : outcome (option string) :=
  try_except (_search_via_selenium_body title year page)
             (fun _ => Return None).

(** [search_movie]: [page1] and [page2] are what the first and the second
    search find.  Of the log lines only the one that formats the year can
    raise, and it is outside every handler. *)
Definition search_movie (title : string) (year : option Z)
           (page1 page2 : outcome (list MediaRow)) : outcome (option string) :=
  slug <- _search_via_selenium title None page1 ;;
  if Py.truthy_opt_str slug then Return slug
  else
    let fallback := Return (Some (_generate_slug title None)) in
    if Py.truthy_opt_int year
    then
      (* the log line of the second strategy formats the year *)
      _ <- Py.format_opt_int year ;;
      slug <- _search_via_selenium title year page2 ;;
      if Py.truthy_opt_str slug then Return slug else fallback
    else fallback.

(** *** Parsing a review card *)

(** A [review-card] element: the [drawer-more[slot="review"]] below it
    with its own text and, below that, the [span[slot="content"]] (the
    text the script reads from it, or the exception the script raised, and
    the element's text); the first [span[slot="content"]] anywhere below
    the card; the [rt-link[slot="name"]] and the [span[slot="timestamp"]]
    texts. *)
Record ContentSpan : Type := {
  script_text : outcome string;
  span_text : string
}.

Record Drawer : Type := {
  content : option ContentSpan;
  drawer_text : string
}.

Record ReviewCard : Type := {
  drawer : option Drawer;
  card_content : option string;
  name_link : option string;
  timestamp : option string
}.

Definition clean_artifacts (text : string) : string :=
  Py.strip
    (Py.replace "See More" ""
       (Py.replace "See Less" ""
          (Py.replace "Content collapsed." "" text))).

(** The text of the card: [Return None] when no element gives one.  A
    missing element raises [NoSuchElementException], which the inner handler
    answers with the fallback selector; any other exception leaves the
    function through its outer handler. *)
Definition card_text (has_driver : bool) (card : ReviewCard) : outcome (option string) :=
  let fallback :=
    match card_content card with
    | Some t => Return (Some (clean_artifacts (Py.strip t)))
    | None => Return None
    end in
  match drawer card with
  | None => fallback
  | Some drawer_element =>
      match content drawer_element with
      | None => fallback
      | Some text_element =>
          match (if has_driver then script_text text_element
                 else Return (Py.strip (span_text text_element))) with
          | Raise NoSuchElementException => fallback
          | Raise e => Raise e
          | Return text =>
              let text := if Py.truthy_str text then text
                          else Py.strip (span_text text_element) in
              if Py.truthy_str text && (10 <=? len text)
              then Return (Some (clean_artifacts text))
              else Return (Some (clean_artifacts
                                   (Py.strip (drawer_text drawer_element))))
          end
      end
  end.

Definition review_type_of (endpoint_type : string) : string :=
  let is_critic := Py.contains "critic" endpoint_type in
  let is_top := Py.contains "top" endpoint_type in
  let is_verified := Py.contains "verified" endpoint_type in
  if is_critic then (if is_top then "top_critic" else "critic")
  else (if is_verified then "verified_audience" else "audience").

Section ReviewCards.

(** The interpreter's hash secret, whether the scraper holds a driver,
    and [_parse_relative_timestamp], which reads the clock and the locale's
    month names: it returns a date or [None], or raises ([OverflowError] for
    a relative date such as "3000y", which lies before the year 1). *)
Variable secret : PyHash.HashSecret.
Variable has_driver : bool.
Variable _parse_relative_timestamp : string -> outcome (option Py.datetime).

Definition make_source_id (endpoint_type text : string) : string :=
  "rt_" ++ endpoint_type ++ "_" ++ Py.str_of_int (PyHash.hash secret text).

(** The review date of a card: [None] without a [span[slot="timestamp"]]
    or with an empty one, otherwise what [_parse_relative_timestamp] makes
    of its text. *)
Definition review_date_of (card_element : ReviewCard) : outcome (option Py.datetime) :=
  match timestamp card_element with
  | Some date_text =>
      let date_text := Py.strip date_text in
      if Py.truthy_str date_text
      then _parse_relative_timestamp date_text
      else Return None
  | None => Return None
  end.

Definition _parse_review_card_selenium_body (card_element : ReviewCard)
           (endpoint_type : string) : outcome (option Review) :=
  text <- card_text has_driver card_element ;;
  match text with
  | None => Return None
  | Some text =>
      if negb (Py.truthy_str text) || (len text <? 10) then Return None
      else
        let author := option_map Py.strip (name_link card_element) in
        review_date <- review_date_of card_element ;;
        Return (Some {|
          source_id := Some (make_source_id endpoint_type text);
          text := text;
          rating := None;
          title := None;
          author := author;
          review_date := review_date;
          helpful_count := 0;
          not_helpful_count := 0;
          review_length := len text;
          word_count := Z.of_nat (List.length (Py.split text));
          review_type := Some (review_type_of endpoint_type)
        |})
  end.

Definition _parse_review_card_selenium (card_element : ReviewCard)
           (endpoint_type : string) : option Review :=
  match _parse_review_card_selenium_body card_element endpoint_type with
  | Return r => r
  | Raise _ => None
  end.

(** *** Deduplication across endpoints *)

(** [seen_texts]: a dictionary from the text's hash to the review and its
    priority, in insertion order. *)
Definition Seen : Type := list (Z * (Review * Z)).

Fixpoint seen_get (seen : Seen) (h : Z) : option (Review * Z) :=
  match seen with
  | [] => None
  | (k, v) :: seen' => if k =? h then Some v else seen_get seen' h
  end.

(** [seen[h] = v] for a key already there: the value changes, the key
    keeps its place. *)
Fixpoint seen_set (seen : Seen) (h : Z) (v : Review * Z) : Seen :=
  match seen with
  | [] => []
  | (k, w) :: seen' =>
      if k =? h then (k, v) :: seen' else (k, w) :: seen_set seen' h v
  end.

Definition priority_of (review : Review) : Z :=
  let review_type :=
    match review_type review with Some t => t | None => "audience" end in
  dict_get PRIORITIES review_type 0.

Definition dedup_step (seen : Seen) (review : Review) : Seen :=
  let text_hash := PyHash.hash secret (text review) in
  let priority := priority_of review in
  match seen_get seen text_hash with
  | Some (_, existing_priority) =>
      if existing_priority <? priority
      then seen_set seen text_hash (review, priority)
      else seen
  | None => (seen ++ [(text_hash, (review, priority))])%list
  end.

(** [scrape_reviews]: [_scrape_endpoint key] is the list of reviews that
    scraping the endpoint [key] returns. *)
Definition scrape_reviews (_scrape_endpoint : string -> list Review)
           (endpoints : option (list string)) : list Review :=
  let endpoints :=
    match endpoints with
    | None | Some [] => map fst ENDPOINTS
    | Some keys => keys
    end in
  let seen_texts :=
    fold_left
      (fun seen endpoint_key =>
         if dict_mem ENDPOINTS endpoint_key
         then fold_left dedup_step (_scrape_endpoint endpoint_key) seen
         else seen)
      endpoints [] in
  map (fun entry => fst (snd entry)) seen_texts.

End ReviewCards.

End RottenTomatoes.

(** ** scrapers/imdb_scraper.py *)

Module IMDb.

(** *** Title normalisation *)

Definition roman_map : list (string * string) :=
  [ (" I", " 1"); (" II", " 2"); (" III", " 3"); (" IV", " 4");
    (" V", " 5"); (" VI", " 6"); (" VII", " 7"); (" VIII", " 8");
    (" IX", " 9"); (" X", " 10"); (" XI", " 11"); (" XII", " 12") ].

(** [sorted(items, key=lambda x: -len(x[0]))]: longest key first, keys of
    one length in their order in the dictionary. *)
Fixpoint insert_by_length (x : string * string) (l : list (string * string))
  : list (string * string) :=
  match l with
  | [] => [x]
  | y :: l' =>
      if (String.length (fst y) <? String.length (fst x))%nat
      then x :: l
      else y :: insert_by_length x l'
  end.

Definition sorted_by_length (l : list (string * string)) : list (string * string) :=
  fold_left (fun acc x => insert_by_length x acc) l [].

Definition prefix_ignore_case (p s : string) : bool :=
  prefix (Py.lower p) (Py.lower s).

Fixpoint take_while (p : ascii -> bool) (s : string) : string :=
  match s with
  | EmptyString => EmptyString
  | String c s' => if p c then String c (take_while p s') else EmptyString
  end.

(** A match of [roman(\s*[:-]|\s*$)] (ignoring case) at the start of [s]:
    the text of the group and the number of characters matched.  (The
    pattern's class also lists the en dash, which is not an ASCII
    character.) *)
Definition roman_match (roman s : string) : option (string * nat) :=
  if prefix_ignore_case roman s
  then
    let rest := Py.drop (String.length roman) s in
    let blanks := take_while Py.is_space rest in
    match Py.drop (String.length blanks) rest with
    | EmptyString =>
        Some (blanks, (String.length roman + String.length blanks)%nat)
    | String ch _ =>
        if Ascii.eqb ch ":" || Ascii.eqb ch "-"
        then Some (blanks ++ String ch EmptyString,
                   (String.length roman + String.length blanks + 1)%nat)
        else None
    end
  else None.

(** [re.sub(rf'{re.escape(roman)}(\s*[:–-]|\s*$)', rf'{number}\1', s,
    flags=re.IGNORECASE)] *)
Fixpoint sub_roman (roman number : string) (skip : nat) (s : string) : string :=
  match s with
  | EmptyString => EmptyString
  | String c s' =>
      match skip with
      | S k => sub_roman roman number k s'
      | O =>
          match roman_match roman s with
          | Some (group, matched) =>
              number ++ group ++ sub_roman roman number (matched - 1) s'
          | None => String c (sub_roman roman number 0 s')
          end
      end
  end.

Definition normalize_title (title : string) : string :=
  fold_left
    (fun normalized entry => sub_roman (fst entry) (snd entry) 0 normalized)
    (sorted_by_length roman_map) title.

Definition newline : ascii := ascii_of_nat 10.

(** What [.*$] leaves of the text after the year: nothing, or the final
    newline; [None] when a newline comes earlier and the pattern fails. *)
Fixpoint line_tail (s : string) : option string :=
  match s with
  | EmptyString => Some EmptyString
  | String c s' =>
      if Ascii.eqb c newline
      then (if Py.is_empty s' then Some s else None)
      else line_tail s'
  end.

(** A match of [\s*\(\d{4}\).*$] at the start of [s]: what is left of [s]
    after it. *)
Definition year_suffix_match (s : string) : option string :=
  match Py.lstrip_with Py.is_space s with
  | String "(" (String d1 (String d2 (String d3 (String d4 (String ")" rest))))) =>
      if Py.is_digit d1 && Py.is_digit d2 && Py.is_digit d3 && Py.is_digit d4
      then line_tail rest
      else None
  | _ => None
  end.

(** [re.sub(r'\s*\(\d{4}\).*$', '', s)] *)
Fixpoint strip_year_suffix (s : string) : string :=
  match year_suffix_match s with
  | Some rest => rest
  | None =>
      match s with
      | EmptyString => EmptyString
      | String c s' => String c (strip_year_suffix s')
      end
  end.

(** *** Fuzzy selection among search results *)

(** One parsed search result: the dictionary with keys [title], [imdb_id]
    and [year]. *)
Record SearchResult : Type := {
  result_title : string;
  result_imdb_id : string;
  result_year : option string
}.

Definition default_threshold : Z := 60.

Section Fuzzy.

(** [fuzz.token_sort_ratio] of the fuzzywuzzy package, a score from 0 to
    100. *)
Variable token_sort_ratio : string -> string -> Z.

Definition fuzzy_score (normalized_search_title : string) (result : SearchResult) : Z :=
  let result_title := strip_year_suffix (result_title result) in
  let normalized_result_title := normalize_title result_title in
  token_sort_ratio (Py.lower normalized_search_title)
                   (Py.lower normalized_result_title).

(** [year_match] for one result. *)
Definition year_matches (year : option Z) (result : SearchResult) : bool :=
  if Py.truthy_opt_int year && Py.truthy_opt_str (result_year result)
  then match year, result_year result with
       | Some y, Some ry =>
           match Py.int_of_str ry with
           | Some r => Z.abs (y - r) <=? 1
           | None => true
           end
       | _, _ => true
       end
  else true.

Definition consider (normalized_search_title : string) (year : option Z)
           (st : option SearchResult * Z) (result : SearchResult)
  : option SearchResult * Z :=
  let '(best_match, best_score) := st in
  let score := fuzzy_score normalized_search_title result in
  if year_matches year result && (best_score <? score)
  then (Some result, score)
  else st.

(** [search_movie_fuzzy]: [page] is what fetching and parsing the search
    page gives, the results or the exception raised on the way. *)
Definition search_movie_fuzzy (FUZZY_AVAILABLE : bool) (title : string)
           (year : option Z) (threshold : Z)
           (page : outcome (list SearchResult)) : option string :=
  if negb FUZZY_AVAILABLE then None
  else
    match page with
    | Raise _ => None
    | Return [] => None
    | Return results =>
        let normalized_search_title := normalize_title title in
        let '(best_match, best_score) :=
          fold_left (consider normalized_search_title year)
                    (firstn 10 results) (None, 0) in
        match best_match with
        | Some best =>
            if threshold <=? best_score then Some (result_imdb_id best) else None
        | None => None
        end
    end.

(** The last stage of [search_movie], reached when the three direct
    methods found nothing: the fuzzy search with its default
    threshold. *)
Definition search_movie_fallback (FUZZY_AVAILABLE : bool) (title : string)
           (year : option Z) (page : outcome (list SearchResult)) : option string :=
  let fuzzy_result :=
    search_movie_fuzzy FUZZY_AVAILABLE title year default_threshold page in
  if Py.truthy_opt_str fuzzy_result then fuzzy_result else None.

End Fuzzy.

(** *** Parsing a review container *)

Definition is_word_char (c : ascii) : bool :=
  Py.is_lower_alpha c || Py.is_upper_alpha c || Py.is_digit c || Ascii.eqb c "_".

Definition boundary_before (prev : option ascii) : bool :=
  match prev with Some c => negb (is_word_char c) | None => true end.

Definition boundary_after (s : string) : bool :=
  match s with String c _ => negb (is_word_char c) | EmptyString => true end.

(** [re.sub(r'\bSpoiler\b', '', s, flags=re.IGNORECASE)] *)
Fixpoint remove_spoiler (prev : option ascii) (skip : nat) (s : string) : string :=
  match s with
  | EmptyString => EmptyString
  | String c s' =>
      match skip with
      | S k => remove_spoiler (Some c) k s'
      | O =>
          if prefix_ignore_case "Spoiler" s && boundary_before prev
             && boundary_after (Py.drop 7 s)
          then remove_spoiler (Some c) 6 s'
          else String c (remove_spoiler (Some c) 0 s')
      end
  end.

(** [re.sub(r'\s+', ' ', s)] *)
Fixpoint collapse_blanks (in_blanks : bool) (s : string) : string :=
  match s with
  | EmptyString => EmptyString
  | String c s' =>
      if Py.is_space c
      then (if in_blanks then collapse_blanks true s'
            else String " " (collapse_blanks true s'))
      else String c (collapse_blanks false s')
  end.

(** [re.sub(r'^\d+/\d+\s*', '', s)] *)
Definition strip_rating_prefix (s : string) : string :=
  let num := take_while Py.is_digit s in
  match Py.drop (String.length num) s with
  | String "/" rest =>
      let den := take_while Py.is_digit rest in
      if Py.is_empty num || Py.is_empty den then s
      else Py.lstrip_with Py.is_space (Py.drop (String.length den) rest)
  | _ => s
  end.

(** A review container as the selectors see it: its [data-review-id] and
    [data-testid] attributes; the text of the title element and of the
    content element, when one of the selectors tried in turn finds one;
    the rating, author and date that the later selectors extract (they have
    their own handlers and defaults, and do not raise); and the helpful and
    not-helpful counts, or the exception raised while reading them: the
    counts of the old layout ("12 out of 34") are read by [int()] outside
    any inner handler, and [int()] raises [ValueError] on a count of more
    than 4300 digits. *)
Record Container : Type := {
  data_review_id : option string;
  data_testid : option string;
  title_text : option string;
  content_text : option string;
  found_rating : option Q;
  found_author : option string;
  found_date : option Py.datetime;
  found_votes : outcome (Z * Z)
}.

Definition review_id_of (container : Container) : string :=
  match data_review_id container with
  | Some r => if Py.truthy_str r then r
              else Py.replace "review-" ""
                     (match data_testid container with Some t => t | None => "" end)
  | None => Py.replace "review-" ""
              (match data_testid container with Some t => t | None => "" end)
  end.

(** The body text as extracted, before the length test (on ASCII text:
    [\s], [\b], [strip()] and the length are those of ASCII). *)
Definition extracted_text (container : Container) : option string :=
  match content_text container with
  | Some raw =>
      Some (Py.strip (collapse_blanks false (remove_spoiler None 0 raw)))
  | None => None
  end.

Definition _parse_review (container : Container) (imdb_id : string) : option Review :=
  let review_id := review_id_of container in
  let title :=
    match title_text container with
    | Some title_text =>
        let title_text := strip_rating_prefix title_text in
        if Py.truthy_str title_text then Some (Py.strip title_text) else None
    | None => None
    end in
  match extracted_text container with
  | None => None
  | Some text =>
      if negb (Py.truthy_str text) || (Z.of_nat (String.length text) <? 20)
      then None
      else
        let text := strip_rating_prefix text in
        match found_votes container with
        | Raise _ => None
        | Return (helpful_count, not_helpful_count) =>
            Some {|
              source_id := if Py.truthy_str review_id
                           then Some ("imdb_" ++ review_id) else None;
              text := text;
              rating := found_rating container;
              title := title;
              author := found_author container;
              review_date := found_date container;
              helpful_count := helpful_count;
              not_helpful_count := not_helpful_count;
              review_length := Z.of_nat (String.length text);
              word_count := Z.of_nat (List.length (Py.split text));
              review_type := None
            |}
        end
  end.

End IMDb.

(** ** database/models.py *)

Module Models.

(** The columns of [Movie] that the rating methods read. *)
Record Movie : Type := {
  tmdb_rating : option Q;
  tmdb_vote_count : option Z;
  imdb_rating : option Q;
  imdb_vote_count : option Z;
  scraped_at : option Py.datetime
}.

(** [(datetime.utcnow() - self.scraped_at).days] *)
Definition days_old (now scraped : Py.datetime) : Z :=
  Py.timedelta_days now scraped.

(** Strategy 1 applies: a truthy IMDb rating scraped fewer than seven
    whole days before [now]. *)
Definition fresh (self : Movie) (now : Py.datetime) : bool :=
  Py.truthy_opt_float (imdb_rating self) &&
  match scraped_at self with
  | Some at_ => days_old now at_ <? 7
  | None => false
  end.

Definition weighted_average (tmdb imdb : Q) (tmdb_weight imdb_weight : Z) : Q :=
  ((tmdb * inject_Z tmdb_weight + imdb * inject_Z imdb_weight)
   / inject_Z (tmdb_weight + imdb_weight))%Q.

(** [get_best_rating]: [now] is what [datetime.utcnow()] returns. *)
Definition get_best_rating (self : Movie) (now : Py.datetime) : outcome (option Q) :=
  if fresh self now then Return (imdb_rating self)
  else
    if Py.truthy_opt_float (tmdb_rating self) && Py.truthy_opt_float (imdb_rating self)
    then
      match tmdb_rating self, imdb_rating self with
      | Some tmdb, Some imdb =>
          let tmdb_weight := Py.or_int (tmdb_vote_count self) 1 in
          let imdb_weight := Py.or_int (imdb_vote_count self) 1 in
          let total_weight := tmdb_weight + imdb_weight in
          if total_weight =? 0 then Raise ZeroDivisionError
          else Return (Some (Py.round2 (weighted_average tmdb imdb tmdb_weight imdb_weight)))
      | _, _ => Return (Py.or_float (imdb_rating self) (tmdb_rating self))
      end
    else Return (Py.or_float (imdb_rating self) (tmdb_rating self)).

(** One entry of [sources]; [scraped_at_iso] is [None] when the entry has
    no such key, and holds the instant whose ISO text the code stores. *)
Record RatingSource : Type := {
  source : string;
  source_rating : Q;
  votes : option Z;
  age_days : option Z;
  scraped_at_iso : option (option Py.datetime)
}.

Record RatingMetadata : Type := {
  recommended_rating : option Q;
  sources : list RatingSource;
  difference : option Q;
  note : option string
}.

(** [get_rating_metadata]: [now1] is the clock as [get_best_rating] reads
    it, [now2] as the age computation reads it afterwards. *)
Definition get_rating_metadata (self : Movie) (now1 now2 : Py.datetime)
  : outcome RatingMetadata :=
  recommended <- get_best_rating self now1 ;;
  let tmdb_source :=
    match tmdb_rating self with
    | Some r =>
        if Py.truthy_opt_float (Some r)
        then [ {| source := "tmdb_csv"; source_rating := r;
                  votes := tmdb_vote_count self; age_days := None;
                  scraped_at_iso := None |} ]
        else []
    | None => []
    end in
  let imdb_source :=
    match imdb_rating self with
    | Some r =>
        if Py.truthy_opt_float (Some r)
        then [ {| source := "imdb_scraped"; source_rating := r;
                  votes := imdb_vote_count self;
                  age_days := option_map (days_old now2) (scraped_at self);
                  scraped_at_iso := Some (scraped_at self) |} ]
        else []
    | None => []
    end in
  let '(difference, note) :=
    match tmdb_rating self, imdb_rating self with
    | Some t, Some i =>
        if Py.truthy_opt_float (Some t) && Py.truthy_opt_float (Some i)
        then
          let d := Py.round2 (Qabs (t - i)) in
          (Some d,
           Some (if Qle_bool d 1 then "Ratings are similar"
                 else "Large difference - investigate"))
        else (None, None)
    | _, _ => (None, None)
    end in
  Return {| recommended_rating := recommended;
            sources := (tmdb_source ++ imdb_source)%list;
            difference := difference;
            note := note |}.

End Models.

(** ** database/models.py in binary64

    The rating methods as the interpreter computes them: a rating is a
    binary64 float, a vote count an integer, which a float operation
    converts to float before it computes. *)

Module Models64.

Import Float64.

Record Movie : Type := {
  tmdb_rating : option float;
  tmdb_vote_count : option Z;
  imdb_rating : option float;
  imdb_vote_count : option Z;
  scraped_at : option Py.datetime
}.

(** Strategy 1 applies: a truthy IMDb rating scraped fewer than seven
    whole days before [now]. *)
Definition fresh (self : Movie) (now : Py.datetime) : bool :=
  truthy_opt (imdb_rating self) &&
  match scraped_at self with
  | Some at_ => Models.days_old now at_ <? 7
  | None => false
  end.

(** [get_best_rating]: [now] is what [datetime.utcnow()] returns.  In
    [(tmdb * w1 + imdb * w2) / total_weight] the products convert the
    weights first, then the division converts the total and tests it. *)
Definition get_best_rating (self : Movie) (now : Py.datetime)
  : outcome (option float) :=
  if fresh self now then Return (imdb_rating self)
  else
    if truthy_opt (tmdb_rating self) && truthy_opt (imdb_rating self)
    then
      match tmdb_rating self, imdb_rating self with
      | Some tmdb, Some imdb =>
          let tmdb_weight := Py.or_int (tmdb_vote_count self) 1 in
          let imdb_weight := Py.or_int (imdb_vote_count self) 1 in
          let total_weight := tmdb_weight + imdb_weight in
          w1 <- of_int tmdb_weight ;;
          w2 <- of_int imdb_weight ;;
          total <- of_int total_weight ;;
          weighted <- truediv (add (mul tmdb w1) (mul imdb w2)) total ;;
          Return (Some (round2 weighted))
      | _, _ => Return (or_float (imdb_rating self) (tmdb_rating self))
      end
    else Return (or_float (imdb_rating self) (tmdb_rating self)).

Record RatingSource : Type := {
  source : string;
  source_rating : float;
  votes : option Z;
  age_days : option Z;
  scraped_at_iso : option (option Py.datetime)
}.

Record RatingMetadata : Type := {
  recommended_rating : option float;
  sources : list RatingSource;
  difference : option float;
  note : option string
}.

(** [get_rating_metadata]: [now1] is the clock as [get_best_rating] reads
    it, [now2] as the age computation reads it afterwards. *)
Definition get_rating_metadata (self : Movie) (now1 now2 : Py.datetime)
  : outcome RatingMetadata :=
  recommended <- get_best_rating self now1 ;;
  let tmdb_source :=
    match tmdb_rating self with
    | Some r =>
        if truthy r
        then [ {| source := "tmdb_csv"; source_rating := r;
                  votes := tmdb_vote_count self; age_days := None;
                  scraped_at_iso := None |} ]
        else []
    | None => []
    end in
  let imdb_source :=
    match imdb_rating self with
    | Some r =>
        if truthy r
        then [ {| source := "imdb_scraped"; source_rating := r;
                  votes := imdb_vote_count self;
                  age_days := option_map (Models.days_old now2) (scraped_at self);
                  scraped_at_iso := Some (scraped_at self) |} ]
        else []
    | None => []
    end in
  let '(difference, note) :=
    match tmdb_rating self, imdb_rating self with
    | Some t, Some i =>
        if truthy t && truthy i
        then
          let d := round2 (abs (sub t i)) in
          (Some d,
           Some (if ltb one d then "Large difference - investigate"
                 else "Ratings are similar"))
        else (None, None)
    | _, _ => (None, None)
    end in
  Return {| recommended_rating := recommended;
            sources := (tmdb_source ++ imdb_source)%list;
            difference := difference;
            note := note |}.

End Models64.

(** ** The claims as the specification words them

    Definitions that follow the specification's sentences, to be compared
    with the functions above. *)

Module Spec.

Import RottenTomatoes.

Definition signal_exact (s r : string) : Q :=
  if String.eqb s r then 1%Q else 0%Q.

Definition signal_containment (s r : string) : Q :=
  if Py.contains s r || Py.contains r s
  then ((9 # 10) * len_ratio s r)%Q else 0%Q.

(** "Compute four signals and return the maximum." *)
Definition four_signal_max (a b : string) : Q :=
  let s := normalize a in
  let r := normalize b in
  float_max (float_max (signal_exact s r) (signal_containment s r))
            (float_max (Difflib.ratio s r) (word_overlap s r)).

(** "weight_i = voteCount_i or 1 if voteCount is absent/zero" *)
Definition weight_of (votes : option Z) : Z :=
  match votes with
  | Some v => if v =? 0 then 1 else v
  | None => 1
  end.

(** The sum of a list of floats, added from left to right. *)
Definition sum_floats (l : list Float64.float) : Float64.float :=
  match l with
  | [] => S754_zero false
  | x :: l' => fold_left Float64.add l' x
  end.

(** "Σ(value_i * weight_i) / Σ(weight_i) ... round to 2 decimal places" for
    a list of observations (value, vote count), each operation on floats
    being that of binary64. *)
Definition weighted_recommendation64
           (observations : list (Float64.float * option Z)) : Float64.float :=
  let products :=
    map (fun o => Float64.mul (fst o) (Float64.nearest (weight_of (snd o))))
        observations in
  let total_weight := fold_left Z.add (map (fun o => weight_of (snd o)) observations) 0 in
  Float64.round2 (Float64.div (sum_floats products) (Float64.nearest total_weight)).

(** "If both search strategies fail ... it falls through to deterministic
    slug generation": a search has found a slug when it returned a string
    that is not empty, and the resolver returns the slug of the first
    search, else that of the second search (made when a year is given),
    else the generated slug. *)
Definition found (search : outcome (option string)) : option string :=
  match search with
  | Return (Some slug) => if Py.is_empty slug then None else Some slug
  | _ => None
  end.

Definition resolved (title : string) (year : option Z)
           (page1 page2 : outcome (list MediaRow)) : string :=
  match found (_search_via_selenium title None page1) with
  | Some slug => slug
  | None =>
      match (if Py.truthy_opt_int year
             then found (_search_via_selenium title year page2) else None) with
      | Some slug => slug
      | None => _generate_slug title None
      end
  end.

(** A rating written with at most two decimals. *)
Definition hundredth (q : Q) : Prop := exists n : Z, (q == inject_Z n / inject_Z 100)%Q.

(** A title with at least one ASCII letter or digit. *)
Definition is_alnum (c : ascii) : bool :=
  Py.is_lower_alpha c || Py.is_upper_alpha c || Py.is_digit c.

Fixpoint has_alnum (s : string) : bool :=
  match s with
  | EmptyString => false
  | String c s' => is_alnum c || has_alnum s'
  end.

(** The reviews in the order in which the loops of [scrape_reviews] meet
    them: the batches of the known endpoints, one after the other. *)
Definition effective_endpoints (endpoints : option (list string)) : list string :=
  match endpoints with
  | None | Some [] => map fst ENDPOINTS
  | Some keys => keys
  end.

Definition processed (_scrape_endpoint : string -> list Review)
           (endpoints : option (list string)) : list Review :=
  flat_map (fun key => if dict_mem ENDPOINTS key then _scrape_endpoint key else [])
           (effective_endpoints endpoints).

(** "If the fingerprint is unseen, insert.  If seen, replace the stored entry
    only if the new entry's priority is strictly greater; otherwise discard
    the new entry": the entry kept for the fingerprint [h] after one more
    review. *)
Definition keep_step (secret : PyHash.HashSecret) (h : Z)
           (kept : option (Review * Z)) (review : Review) : option (Review * Z) :=
  if PyHash.hash secret (text review) =? h
  then match kept with
       | None => Some (review, priority_of review)
       | Some (stored, stored_priority) =>
           if stored_priority <? priority_of review
           then Some (review, priority_of review)
           else kept
       end
  else kept.

(** The invariant of [seen_texts]: no key twice, and each key is the hash of
    the text of the review stored under it. *)
Definition well_keyed (secret : PyHash.HashSecret) (seen : Seen) : Prop :=
  NoDup (map fst seen) /\
  forall k r p, In (k, (r, p)) seen -> k = PyHash.hash secret (text r).

(** Some character of the string satisfies [p]. *)
Fixpoint some_char (p : ascii -> bool) (s : string) : bool :=
  match s with
  | EmptyString => false
  | String c s' => p c || some_char p s'
  end.

Definition slug_letter (c : ascii) : bool := Py.is_lower_alpha c || Py.is_digit c.

(** What the loop of [_search_via_selenium] keeps true of the best match so
    far, for a query with the year [y]: it comes from one of the rows, and
    that row's year, when it reads as a number, is within 2 of [y]. *)
Definition rt_best_ok (y : Z) (rows : list MediaRow) (st : option Match * Q) : Prop :=
  match fst st with
  | None => True
  | Some (_, result_url, _, _) =>
      exists row link_text,
        In row rows /\
        info_name row = Some (link_text, result_url) /\
        forall ry r, startyear row = Some ry ->
                     Py.int_of_str ry = Some r -> Z.abs (r - y) <= 2
  end.

(** The same for the loop of [search_movie_fuzzy], with a tolerance of 1. *)
Definition imdb_best_ok (token_sort_ratio : string -> string -> Z)
           (normalized : string) (y : Z) (results : list IMDb.SearchResult)
           (st : option IMDb.SearchResult * Z) : Prop :=
  match fst st with
  | None => True
  | Some best =>
      In best results /\
      snd st = IMDb.fuzzy_score token_sort_ratio normalized best /\
      forall ry r, IMDb.result_year best = Some ry ->
                   Py.int_of_str ry = Some r -> Z.abs (y - r) <= 1
  end.

End Spec.

(** ** Scraping loops and entry points *)

Module Loops.

(** [l[:n]]: for a negative [n], all but the last [-n] elements. *)
Definition slice_to {A : Type} (n : Z) (l : list A) : list A :=
  if 0 <=? n then firstn (Z.to_nat n) l
  else firstn (List.length l - Z.to_nat (- n)) l.

(** The results of [f] that are not [None], in order. *)
Fixpoint keep_parsed {A B : Type} (f : A -> option B) (l : list A) : list B :=
  match l with
  | [] => []
  | x :: l' =>
      match f x with
      | Some y => y :: keep_parsed f l'
      | None => keep_parsed f l'
      end
  end.

(** *** Rotten Tomatoes *)

Section RottenTomatoesLoops.

Variable secret : PyHash.HashSecret.
Variable _parse_relative_timestamp : string -> outcome (option Py.datetime).

(** [_scrape_endpoint]: [page] is what starting the driver, loading the
    endpoint's page, waiting for the first review card, scrolling and
    reading the cards gives: the cards, or the exception one of these steps
    raised (the wait's [TimeoutException] among them).  Every exception is
    answered with an empty list. *)
Definition _scrape_endpoint (page : outcome (list RottenTomatoes.ReviewCard))
           (endpoint_type : string) (max_reviews : Z) : list Review :=
  match page with
  | Raise _ => []
  | Return review_cards =>
      if (List.length review_cards =? 0)%nat then []
      else
        keep_parsed
          (fun card =>
             RottenTomatoes._parse_review_card_selenium secret true
               _parse_relative_timestamp card endpoint_type)
          (slice_to max_reviews review_cards)
  end.

(** [scrape_reviews] with its calls of [_scrape_endpoint] written out:
    [pages key] is what the browser gives for the endpoint [key]. *)
Definition scrape_reviews_of_pages
           (pages : string -> outcome (list RottenTomatoes.ReviewCard))
           (max_reviews : Z) (endpoints : option (list string)) : list Review :=
  RottenTomatoes.scrape_reviews secret
    (fun endpoint_key => _scrape_endpoint (pages endpoint_key) endpoint_key max_reviews)
    endpoints.

(** [scrape_movie_reviews]: the slug is searched, an empty slug gives no
    reviews, otherwise all endpoints of the slug are scraped; [pages slug]
    are the endpoint pages of that slug.  (The [finally] clause closes the
    driver on every path.) *)
Definition scrape_movie_reviews (title : string) (year : option Z)
           (page1 page2 : outcome (list RottenTomatoes.MediaRow))
           (pages : string -> string -> outcome (list RottenTomatoes.ReviewCard))
           (max_reviews : Z) : list Review :=
  match RottenTomatoes.search_movie title year page1 page2 with
  | Raise _ => []
  | Return movie_slug =>
      if negb (Py.truthy_opt_str movie_slug) then []
      else
        match movie_slug with
        | Some slug => scrape_reviews_of_pages (pages slug) max_reviews None
        | None => []
        end
  end.

End RottenTomatoesLoops.

(** [_scroll_to_load_reviews]: [observe k] is the page height and the number
    of review cards read after the scroll number [k] (counted from 0);
    [attempts_left] is [max_scrolls - scroll_attempts].  The result is the
    number of scrolls made. *)
Definition max_scrolls : nat := 5.

Fixpoint scroll_loop (attempts_left : nat) (observe : nat -> Z * Z)
         (target_count last_height : Z) (scrolls_made : nat) : nat :=
  match attempts_left with
  | O => scrolls_made
  | S attempts_left' =>
      let '(new_height, current_count) := observe scrolls_made in
      if target_count <=? current_count then S scrolls_made
      else if new_height =? last_height then S scrolls_made
      else scroll_loop attempts_left' observe target_count new_height (S scrolls_made)
  end.

Definition _scroll_to_load_reviews (observe : nat -> Z * Z)
           (target_count last_height : Z) : nat :=
  scroll_loop max_scrolls observe target_count last_height O.

(** *** IMDb *)

(** What one request of [scrape_reviews] gives: an exception (of the request
    or of parsing the page), or the review containers of the page and the
    [data-key] of its [load-more-data] element, if it has one. *)
Inductive Fetched : Type :=
| FetchFailed (e : exn)
| FetchedPage (review_containers : list IMDb.Container) (data_key : option string).

(** The loop over the containers of one page. *)
Fixpoint add_reviews (imdb_id : string) (max_reviews : Z)
         (reviews : list Review) (containers : list IMDb.Container) : list Review :=
  match containers with
  | [] => reviews
  | container :: containers' =>
      if max_reviews <=? Z.of_nat (List.length reviews) then reviews
      else
        match IMDb._parse_review container imdb_id with
        | Some review => add_reviews imdb_id max_reviews (reviews ++ [review]) containers'
        | None => add_reviews imdb_id max_reviews reviews containers'
        end
  end.

(** [scrape_reviews]: [responses n] is what the request number [n] gives.
    The [while] loop is run for at most [fuel] requests; [None] means that
    it is still running after them. *)
Fixpoint scrape_loop (fuel : nat) (responses : nat -> Fetched) (imdb_id : string)
         (max_reviews : Z) (request : nat) (reviews : list Review)
  : option (list Review) :=
  if max_reviews <=? Z.of_nat (List.length reviews) then Some reviews
  else
    match fuel with
    | O => None
    | S fuel' =>
        match responses request with
        | FetchFailed _ => Some reviews
        | FetchedPage [] _ => Some reviews
        | FetchedPage review_containers data_key =>
            let reviews := add_reviews imdb_id max_reviews reviews review_containers in
            match data_key with
            | Some _ =>
                scrape_loop fuel' responses imdb_id max_reviews (S request) reviews
            | None => Some reviews
            end
        end
    end.

Definition scrape_reviews (fuel : nat) (responses : nat -> Fetched)
           (imdb_id : string) (max_reviews : Z) : option (list Review) :=
  scrape_loop fuel responses imdb_id max_reviews O [].

End Loops.

(** ** Further invariants and specifications *)

Module Props.

Import RottenTomatoes.

(** Every entry of [seen_texts] holds a review of the list [l] together with
    that review's priority. *)
Definition entries_from (l : list Review) (seen : Seen) : Prop :=
  forall k r p, In (k, (r, p)) seen -> In r l /\ p = priority_of r.

(** Every character of the string satisfies [p]. *)
Fixpoint all_chars (p : ascii -> bool) (s : string) : bool :=
  match s with
  | EmptyString => true
  | String c s' => p c && all_chars p s'
  end.

(** A non-empty word of lower-case ASCII letters and digits. *)
Definition slug_word (w : string) : Prop :=
  Py.is_empty w = false /\ all_chars Spec.slug_letter w = true.

Definition slug_or_underscore (c : ascii) : bool :=
  Spec.slug_letter c || Ascii.eqb c "_".

Definition slug_or_space (c : ascii) : bool :=
  Spec.slug_letter c || Ascii.eqb c " ".

(** What the card parser guarantees about a review it returns for the
    endpoint [endpoint_type]. *)
Definition parsed_review_ok (endpoint_type : string) (review : Review) : Prop :=
  review_type review = Some (review_type_of endpoint_type)
  /\ 1 <= priority_of review <= 4
  /\ (Py.contains "critic" endpoint_type = true -> 3 <= priority_of review)
  /\ (Py.contains "critic" endpoint_type = false -> priority_of review <= 2)
  /\ 10 <= len (text review)
  /\ rating review = None
  /\ helpful_count review = 0 /\ not_helpful_count review = 0.

(** A response that ends the loop of IMDb's [scrape_reviews]: a failed
    request, a page without review containers, or a page without a
    [data-key]. *)
Definition ends_loop (response : Loops.Fetched) : bool :=
  match response with
  | Loops.FetchFailed _ => true
  | Loops.FetchedPage [] _ => true
  | Loops.FetchedPage _ None => true
  | Loops.FetchedPage _ (Some _) => false
  end.

Definition containers_of (response : Loops.Fetched) : list IMDb.Container :=
  match response with
  | Loops.FetchFailed _ => []
  | Loops.FetchedPage review_containers _ => review_containers
  end.

(** What holds of the reviews collected by the loop of IMDb's
    [scrape_reviews] at any time. *)
Definition collected_ok (responses : nat -> Loops.Fetched) (imdb_id : string)
           (max_reviews : Z) (reviews : list Review) : Prop :=
  Z.of_nat (List.length reviews) <= Z.max max_reviews 0
  /\ forall r, In r reviews ->
       exists n container,
         In container (containers_of (responses n))
         /\ IMDb._parse_review container imdb_id = Some r.

(** The page height that the height after scroll number [k] is compared
    with, in a loop that starts at scroll number [start] with [last_height]:
    the height after the scroll before. *)
Definition height_before (observe : nat -> Z * Z) (last_height : Z)
           (start k : nat) : Z :=
  if (k =? start)%nat then last_height else fst (observe (k - 1)%nat).

Definition starts_blank (s : string) : bool :=
  match s with String c _ => Py.is_space c | EmptyString => false end.

(** No run of blanks in [s] is longer than one character, and every blank
    is a space. *)
Fixpoint blanks_collapsed (s : string) : bool :=
  match s with
  | EmptyString => true
  | String c s' =>
      (negb (Py.is_space c) || (Ascii.eqb c " " && negb (starts_blank s')))
      && blanks_collapsed s'
  end.

Definition starts_word (s : string) : bool :=
  match s with String c _ => negb (Py.is_space c) | EmptyString => false end.

(** Blanks occur in [s] only as single spaces, each followed by a character
    that is not a blank. *)
Fixpoint single_spaced (s : string) : bool :=
  match s with
  | EmptyString => true
  | String c s' =>
      (negb (Py.is_space c) || (Ascii.eqb c " " && starts_word s'))
      && single_spaced s'
  end.

(** The invariant of the loop of [search_movie_fuzzy] over the results
    [seen] so far: [snd st] is the best score of a result of [seen] whose
    year matches (0 when there is none above 0), and [fst st] a result that
    has it. *)
Definition imdb_argmax (token_sort_ratio : string -> string -> Z)
           (normalized : string) (year : option Z) (seen : list IMDb.SearchResult)
           (st : option IMDb.SearchResult * Z) : Prop :=
  0 <= snd st
  /\ (forall x, In x seen -> IMDb.year_matches year x = true ->
                IMDb.fuzzy_score token_sort_ratio normalized x <= snd st)
  /\ match fst st with
     | Some best =>
         In best seen /\ IMDb.year_matches year best = true
         /\ IMDb.fuzzy_score token_sort_ratio normalized best = snd st
     | None => snd st = 0
     end.

(** The candidate a result row stands for in the loop of
    [_search_via_selenium], if it is eligible: the row has its link, is not
    a TV entry, and its year, when the query has one and the row's reads as
    a number, is within 2 of the query's; the score is the title score, plus
    0.1 when the years were compared. *)
Definition rt_candidate (title : string) (year : option Z) (row : MediaRow)
  : option Match :=
  match info_name row with
  | None => None
  | Some (link_text, result_url) =>
      let is_tv := match result_url with
                   | Some u => Py.truthy_str u && Py.contains "/tv/" u
                   | None => false
                   end in
      if is_tv then None
      else
        let result_title := Py.strip link_text in
        let score := _calculate_match_score title result_title in
        if Py.truthy_opt_int year && Py.truthy_opt_str (startyear row)
        then match year, startyear row with
             | Some y, Some ry =>
                 match Py.int_of_str ry with
                 | Some r =>
                     if Z.abs (r - y) <=? 2
                     then Some (result_title, result_url, startyear row,
                                (score + (1 # 10))%Q)
                     else None
                 | None => Some (result_title, result_url, startyear row, score)
                 end
             | _, _ => Some (result_title, result_url, startyear row, score)
             end
        else Some (result_title, result_url, startyear row, score)
  end.

Definition match_score_of (m : Match) : Q := snd m.

Definition match_url_of (m : Match) : option string := snd (fst (fst m)).

(** The invariant of the loop of [_search_via_selenium]. *)
Definition rt_argmax (title : string) (year : option Z) (seen : list MediaRow)
           (st : option Match * Q) : Prop :=
  (0 <= snd st)%Q
  /\ (forall row m, In row seen -> rt_candidate title year row = Some m ->
                    (match_score_of m <= snd st)%Q)
  /\ match fst st with
     | Some m =>
         (exists row, In row seen /\ rt_candidate title year row = Some m)
         /\ match_score_of m = snd st
     | None => snd st = 0%Q
     end.

End Props.

(** ** Sample data *)

Module Sample.

(** The secrets [PYTHONHASHSEED=0] and [PYTHONHASHSEED=42] give. *)
Definition secret0 : PyHash.HashSecret := {| PyHash.k0 := 0; PyHash.k1 := 0 |}.

Definition secret42 : PyHash.HashSecret :=
  {| PyHash.k0 := 15875276455895994543; PyHash.k1 := 13339868392117103041 |}.

Definition rt_review (endpoint_type body : string) (who : string) : Review :=
  {| source_id := Some (RottenTomatoes.make_source_id secret0 endpoint_type body);
     text := body;
     rating := None;
     title := None;
     author := Some who;
     review_date := None;
     helpful_count := 0;
     not_helpful_count := 0;
     review_length := RottenTomatoes.len body;
     word_count := Z.of_nat (List.length (Py.split body));
     review_type := Some (RottenTomatoes.review_type_of endpoint_type) |}.

Definition audience_review : Review :=
  rt_review "all_audience" "A sharp, funny sequel that earns its ending." "moviegoer".

Definition critic_review : Review :=
  rt_review "all_critics" "A sharp, funny sequel that earns its ending." "A. Critic".

Definition endpoint_pages (key : string) : list Review :=
  if String.eqb key "all_audience" then [audience_review]
  else if String.eqb key "all_critics" then [critic_review]
  else [].

(** A movie: TMDB rating and votes, IMDb rating and votes, and when the
    IMDb data was scraped. *)
Definition movie (tmdb : option Q) (tmdb_votes : option Z)
           (imdb : option Q) (imdb_votes : option Z)
           (scraped : option Py.datetime) : Models.Movie :=
  {| Models.tmdb_rating := tmdb; Models.tmdb_vote_count := tmdb_votes;
     Models.imdb_rating := imdb; Models.imdb_vote_count := imdb_votes;
     Models.scraped_at := scraped |}.

(** The same with binary64 ratings, and the floats of some decimal
    literals. *)
Definition movie64 (tmdb : option Float64.float) (tmdb_votes : option Z)
           (imdb : option Float64.float) (imdb_votes : option Z)
           (scraped : option Py.datetime) : Models64.Movie :=
  {| Models64.tmdb_rating := tmdb; Models64.tmdb_vote_count := tmdb_votes;
     Models64.imdb_rating := imdb; Models64.imdb_vote_count := imdb_votes;
     Models64.scraped_at := scraped |}.

Definition f_7_0 : Float64.float := Float64.of_decimal 70 1.
Definition f_8_0 : Float64.float := Float64.of_decimal 80 1.
Definition f_8_1 : Float64.float := Float64.of_decimal 81 1.
Definition f_7_33 : Float64.float := Float64.of_decimal 733 2.
Definition f_7_83 : Float64.float := Float64.of_decimal 783 2.
Definition f_2_67 : Float64.float := Float64.of_decimal 267 2.
Definition f_6_1 : Float64.float := Float64.of_decimal 61 1.
Definition f_7_105 : Float64.float := Float64.of_decimal 7105 3.
Definition f_1_01 : Float64.float := Float64.of_decimal 101 2.

(** An instant [d] days after the epoch. *)
Definition day (d : Z) : Py.datetime := d * Py.microseconds_per_day.

(** Search result rows and parsed search results. *)
Definition media_row (link_text url year : string) : RottenTomatoes.MediaRow :=
  {| RottenTomatoes.info_name := Some (link_text, Some url);
     RottenTomatoes.startyear := Some year |}.

Definition panda_page : outcome (list RottenTomatoes.MediaRow) :=
  Return [ media_row "Kung Fu Panda: Paws"
                     "https://www.rottentomatoes.com/m/kung_fu_panda_paws" "2024" ].

Definition dune_2021_page : outcome (list RottenTomatoes.MediaRow) :=
  Return [ media_row "Dune" "https://www.rottentomatoes.com/m/dune_2021" "2021" ].

Definition dune_1984_page : outcome (list RottenTomatoes.MediaRow) :=
  Return [ media_row "Dune" "https://www.rottentomatoes.com/m/dune_1984" "1984" ].

Definition dune_result : IMDb.SearchResult :=
  {| IMDb.result_title := "Dune (2021)";
     IMDb.result_imdb_id := "tt1160419";
     IMDb.result_year := Some "2021" |}.

(** Scorers standing for [fuzz.token_sort_ratio]: one that gives 100 to equal
    strings and 0 to others, and one that gives 65 to every pair. *)
Definition exact_ratio (a b : string) : Z := if String.eqb a b then 100 else 0.

Definition ratio_65 (a b : string) : Z := 65.

(** Review containers whose body text has 15 and 20 characters. *)
Definition imdb_container (body : string) : IMDb.Container :=
  {| IMDb.data_review_id := Some "rw0000001";
     IMDb.data_testid := None;
     IMDb.title_text := Some "8/10 Worth seeing";
     IMDb.content_text := Some body;
     IMDb.found_rating := Some (8 # 1);
     IMDb.found_author := Some "moviegoer";
     IMDb.found_date := None;
     IMDb.found_votes := Return (3, 1) |}.

(** The same container when reading its vote counts raises. *)
Definition imdb_container_bad_votes (body : string) : IMDb.Container :=
  {| IMDb.data_review_id := Some "rw0000001";
     IMDb.data_testid := None;
     IMDb.title_text := Some "8/10 Worth seeing";
     IMDb.content_text := Some body;
     IMDb.found_rating := Some (8 # 1);
     IMDb.found_author := Some "moviegoer";
     IMDb.found_date := None;
     IMDb.found_votes := Raise ValueError |}.

Definition rt_card (body : string) : RottenTomatoes.ReviewCard :=
  {| RottenTomatoes.drawer :=
       Some {| RottenTomatoes.content :=
                 Some {| RottenTomatoes.script_text := Return body;
                         RottenTomatoes.span_text := body |};
               RottenTomatoes.drawer_text := body |};
     RottenTomatoes.card_content := Some body;
     RottenTomatoes.name_link := Some "A. Critic";
     RottenTomatoes.timestamp := None |}.

Definition no_timestamp (date_str : string) : outcome (option Py.datetime) :=
  Return None.

(** A timestamp parser that raises on every text, as
    [_parse_relative_timestamp] does on "3000y", and a card with that
    timestamp. *)
Definition out_of_range (date_str : string) : outcome (option Py.datetime) :=
  Raise OverflowError.

Definition rt_card_dated (body date_text : string) : RottenTomatoes.ReviewCard :=
  {| RottenTomatoes.drawer :=
       Some {| RottenTomatoes.content :=
                 Some {| RottenTomatoes.script_text := Return body;
                         RottenTomatoes.span_text := body |};
               RottenTomatoes.drawer_text := body |};
     RottenTomatoes.card_content := Some body;
     RottenTomatoes.name_link := Some "A. Critic";
     RottenTomatoes.timestamp := Some date_text |}.

(** A stream of responses in which every page has a next page and one
    container, whose text is too short. *)
Definition short_pages (request : nat) : Loops.Fetched :=
  Loops.FetchedPage [imdb_container "Loved this film"] (Some "next").

Definition text_15 : string := "Loved this film".

Definition text_20 : string := "Loved this film, wow".

End Sample.

(** * Theorems *)

(** ** Checks of the built-ins against the interpreter *)

Example split_ex : Py.split "  the  dark knight " = ["the"; "dark"; "knight"].
Proof. reflexivity. Qed.
Example replace_ex : Py.replace "ab" "X" "cababab_abb" = "cXXX_Xb".
Proof. reflexivity. Qed.
Example int_ex : Py.int_of_str " -1_999 " = Some (-1999) /\ Py.int_of_str "19a" = None /\ Py.int_of_str "" = None.
Proof. repeat split; reflexivity. Qed.
Example str_ex : Py.str_of_int 0 = "0" /\ Py.str_of_int (-42) = "-42" /\ Py.str_of_int 1999 = "1999".
Proof. repeat split; reflexivity. Qed.
Example round_ex : Py.round2 (22 # 3) == 733 # 100 /\ Py.round2 (7125 # 1000) == 712 # 100 /\ Py.round2 (7135 # 1000) == 714 # 100 /\ Py.round2 (- (5#1000)) == 0.
Proof. repeat split; reflexivity. Qed.
Example strip_ex : Py.strip "  a b  " = "a b" /\ Py.rstrip_char "/" "m/x//" = "m/x".
Proof. repeat split; reflexivity. Qed.

Example hash_seed0 :
  let key := {| PyHash.k0 := 0; PyHash.k1 := 0 |} in
  PyHash.hash key "abc" = -4594863902769663758 /\
  PyHash.hash key "Great movie, loved it!" = 4566118231968314582 /\
  PyHash.hash key "12345678" = 3785724242978802311.
Proof. vm_compute. repeat split; reflexivity. Qed.

Example hash_seed42 :
  let key := {| PyHash.k0 := 15875276455895994543; PyHash.k1 := 13339868392117103041 |} in
  PyHash.hash key "abc" = 3869580338025362921 /\
  PyHash.hash key "An instant classic." = 6671504967401744787 /\
  PyHash.hash key "a" = -123207753977932514.
Proof. vm_compute. repeat split; reflexivity. Qed.


(** ** The fuzzy title matcher *)

Section MatchScore.

Import RottenTomatoes Spec.

Lemma float_max_ge_l x y : (x <= float_max x y)%Q.
Proof.
  unfold float_max. destruct (Qle_bool y x) eqn:E.
  - apply Qle_refl.
  - destruct (Qlt_le_dec y x) as [H | H]; [ | exact H ].
    apply Qlt_le_weak in H. apply Qle_bool_iff in H. congruence.
Qed.

Lemma float_max_ge_r x y : (y <= float_max x y)%Q.
Proof.
  unfold float_max. destruct (Qle_bool y x) eqn:E.
  - now apply Qle_bool_iff.
  - apply Qle_refl.
Qed.

Lemma float_max_zero_l x : (0 <= x)%Q -> (float_max 0 x == x)%Q.
Proof.
  intros Hx. unfold float_max. destruct (Qle_bool x 0) eqn:E.
  - apply Qle_bool_iff in E. now apply Qle_antisym.
  - reflexivity.
Qed.

Lemma word_overlap_nonneg s r : (0 <= word_overlap s r)%Q.
Proof.
  unfold word_overlap.
  destruct (word_set s) as [ | x xs ]; [ apply Qle_refl | ].
  destruct (word_set r) as [ | y ys ]; [ apply Qle_refl | ].
  apply Qle_shift_div_l.
  - unfold set_size, Qlt. simpl. lia.
  - unfold set_size, Qle. simpl. lia.
Qed.

(** C1, as the code has it.  The score is a cascade, not a maximum: 1.0
    when the normalized titles are equal; otherwise, when one normalized
    title contains the other, 0.9 times the length ratio, whatever the other
    signals are worth; otherwise the maximum of the sequence ratio and the
    token overlap, which is then the maximum of all four signals.  The score
    never exceeds the maximum of the four signals. *)
Theorem match_score_cascade (a b : string) :
  (_calculate_match_score a b ==
   if String.eqb (normalize a) (normalize b) then 1
   else if Py.contains (normalize a) (normalize b)
           || Py.contains (normalize b) (normalize a)
        then (9 # 10) * len_ratio (normalize a) (normalize b)
        else four_signal_max a b)%Q
  /\ (_calculate_match_score a b <= four_signal_max a b)%Q.
Proof.
  unfold _calculate_match_score, four_signal_max, signal_exact, signal_containment.
  destruct (String.eqb (normalize a) (normalize b)) eqn:Eeq.
  - split; [ reflexivity | ].
    eapply Qle_trans; [ | apply float_max_ge_l ]. apply float_max_ge_l.
  - destruct (Py.contains (normalize a) (normalize b)
              || Py.contains (normalize b) (normalize a)) eqn:Ein.
    + split; [ reflexivity | ].
      eapply Qle_trans; [ | apply float_max_ge_l ]. apply float_max_ge_r.
    + assert (H0 : (float_max 0 0 == 0)%Q) by reflexivity.
      assert (Hm : (0 <= float_max (Difflib.ratio (normalize a) (normalize b))
                                   (word_overlap (normalize a) (normalize b)))%Q).
      { eapply Qle_trans; [ apply word_overlap_nonneg | apply float_max_ge_r ]. }
      split.
      * symmetry. change (float_max 0 0) with 0%Q. now apply float_max_zero_l.
      * apply float_max_ge_r.
Qed.

(** C1, counterexample.  For "Matrix" against "Matrix Reloaded" the code
    returns the containment score 0.36, although the sequence ratio is 4/7
    and the token overlap is 1/2. *)
Lemma match_score_below_best_signal :
  (_calculate_match_score "Matrix" "Matrix Reloaded" == 9 # 25)%Q /\
  (Difflib.ratio (normalize "Matrix") (normalize "Matrix Reloaded") == 4 # 7)%Q /\
  (word_overlap (normalize "Matrix") (normalize "Matrix Reloaded") == 1 # 2)%Q /\
  (four_signal_max "Matrix" "Matrix Reloaded" == 4 # 7)%Q /\
  ~ (_calculate_match_score "Matrix" "Matrix Reloaded"
     == four_signal_max "Matrix" "Matrix Reloaded")%Q.
Proof.
  repeat split; try (apply Qeq_bool_iff; vm_compute; reflexivity).
  intro H. apply Qeq_bool_iff in H. vm_compute in H. discriminate.
Qed.

End MatchScore.

(** ** The Rotten Tomatoes search cascade *)

Section SearchCascade.

Import RottenTomatoes Spec.

Lemma lower_char_alnum c : is_alnum c = true -> slug_letter (Py.lower_char c) = true.
Proof.
  unfold is_alnum, slug_letter, Py.lower_char.
  destruct c as [b0 b1 b2 b3 b4 b5 b6 b7].
  destruct b0, b1, b2, b3, b4, b5, b6, b7; vm_compute; intro H;
    first [ reflexivity | discriminate ].
Qed.

Lemma some_char_lower s : has_alnum s = true -> some_char slug_letter (Py.lower s) = true.
Proof.
  induction s as [ | c s IH ]; simpl; [ discriminate | ].
  intro H. apply orb_true_iff in H. apply orb_true_iff. destruct H as [H | H].
  - left. now apply lower_char_alnum.
  - right. now apply IH.
Qed.

Lemma some_char_app p s t :
  some_char p (s ++ t) = some_char p s || some_char p t.
Proof.
  induction s as [ | c s IH ]; simpl; [ reflexivity | ].
  now rewrite IH, orb_assoc.
Qed.

Lemma some_char_replace_amp s :
  some_char slug_letter s = true ->
  some_char slug_letter (Py.replace "&" " and " s) = true.
Proof.
  unfold Py.replace. simpl Py.is_empty. cbv iota.
  induction s as [ | c s IH ]; [ discriminate | ].
  intro H. cbn [Py.replace_go].
  destruct (prefix "&" (String c s)) eqn:E.
  - cbn [String.length Nat.sub].
    rewrite some_char_app. apply orb_true_iff. left. reflexivity.
  - cbn [some_char] in *. apply orb_true_iff in H. apply orb_true_iff.
    destruct H as [H | H]; [ now left | right; now apply IH ].
Qed.

Lemma some_char_filter s :
  some_char slug_letter s = true ->
  some_char slug_letter (Py.filter_chars slug_char s) = true.
Proof.
  induction s as [ | c s IH ]; simpl; [ discriminate | ].
  intro H. apply orb_true_iff in H. destruct H as [H | H].
  - assert (Hk : slug_char c = true).
    { unfold slug_char. unfold slug_letter in H.
      apply orb_true_iff in H. destruct H as [H | H]; rewrite H; simpl;
        [ reflexivity | now rewrite orb_true_r ]. }
    rewrite Hk. simpl. now rewrite H.
  - destruct (slug_char c); simpl; [ rewrite (IH H); apply orb_true_r | now apply IH ].
Qed.

Lemma slug_letter_not_space c : slug_letter c = true -> Py.is_space c = false.
Proof.
  destruct c as [b0 b1 b2 b3 b4 b5 b6 b7].
  destruct b0, b1, b2, b3, b4, b5, b6, b7; vm_compute; intro H;
    first [ reflexivity | discriminate ].
Qed.

Lemma is_empty_app_char s c : Py.is_empty (s ++ String c EmptyString) = false.
Proof. destruct s; reflexivity. Qed.

(** A string with a non-blank character splits into at least one word, and
    the first word is not empty. *)
Lemma split_go_first cur s :
  Py.is_empty cur = false \/ some_char slug_letter s = true ->
  exists w ws, Py.split_go cur s = w :: ws /\ Py.is_empty w = false.
Proof.
  revert cur. induction s as [ | c s IH ]; intros cur H.
  - destruct H as [H | H]; [ | discriminate ].
    simpl. rewrite H. now exists cur, [].
  - simpl. destruct (Py.is_space c) eqn:Esp.
    + destruct (Py.is_empty cur) eqn:Ecur.
      * apply IH. right. destruct H as [H | H]; [ discriminate | ].
        simpl in H. apply orb_true_iff in H. destruct H as [H | H]; [ | exact H ].
        apply slug_letter_not_space in H. congruence.
      * now exists cur, (Py.split_go EmptyString s).
    + apply IH. left. apply is_empty_app_char.
Qed.

Lemma join_first sep w ws :
  Py.is_empty w = false -> Py.is_empty (Py.join sep (w :: ws)) = false.
Proof.
  intro H. destruct w as [ | c w ]; [ discriminate | ].
  destruct ws; reflexivity.
Qed.

Lemma generate_slug_nonempty title :
  has_alnum title = true -> Py.is_empty (_generate_slug title None) = false.
Proof.
  intro H. unfold _generate_slug. simpl Py.truthy_opt_int. cbv iota.
  apply some_char_lower, some_char_replace_amp, some_char_filter in H.
  destruct (split_go_first EmptyString _ (or_intror H)) as (w & ws & Hs & Hw).
  unfold Py.split. rewrite Hs. now apply join_first.
Qed.

Lemma search_via_selenium_returns title year page :
  exists r, _search_via_selenium title year page = Return r.
Proof.
  unfold _search_via_selenium, try_except.
  destruct (_search_via_selenium_body title year page) as [r | e]; eauto.
Qed.

Lemma lower_char_amp c : Ascii.eqb (Py.lower_char c) "&" = Ascii.eqb c "&".
Proof.
  destruct c as [b0 b1 b2 b3 b4 b5 b6 b7].
  destruct b0, b1, b2, b3, b4, b5, b6, b7; reflexivity.
Qed.

Lemma lower_char_not_alnum c :
  is_alnum c = false -> slug_letter (Py.lower_char c) = false.
Proof.
  destruct c as [b0 b1 b2 b3 b4 b5 b6 b7].
  destruct b0, b1, b2, b3, b4, b5, b6, b7; vm_compute; intro H;
    first [ reflexivity | discriminate ].
Qed.

Lemma contains_amp c s :
  Py.contains "&" (String c s) = Ascii.eqb c "&" || Py.contains "&" s.
Proof.
  cbn [Py.contains prefix].
  destruct (ascii_dec "&" c) as [<- | Hne].
  - now destruct s.
  - destruct (Ascii.eqb c "&") eqn:E; [ | reflexivity ].
    apply Ascii.eqb_eq in E. congruence.
Qed.

Lemma contains_amp_lower s : Py.contains "&" (Py.lower s) = Py.contains "&" s.
Proof.
  induction s as [ | c s IH ]; [ reflexivity | ].
  change (Py.lower (String c s)) with (String (Py.lower_char c) (Py.lower s)).
  now rewrite !contains_amp, lower_char_amp, IH.
Qed.

Lemma some_char_not_lower s :
  has_alnum s = false -> some_char slug_letter (Py.lower s) = false.
Proof.
  induction s as [ | c s IH ]; [ reflexivity | ].
  change (Py.lower (String c s)) with (String (Py.lower_char c) (Py.lower s)).
  cbn [has_alnum some_char]. intro H. apply orb_false_iff in H. destruct H as [Hc Hs].
  now rewrite (lower_char_not_alnum c Hc), (IH Hs).
Qed.

Lemma replace_amp_step c s :
  Py.replace "&" " and " (String c s)
  = if Ascii.eqb c "&" then " and " ++ Py.replace "&" " and " s
    else String c (Py.replace "&" " and " s).
Proof.
  unfold Py.replace. cbn [Py.is_empty Py.replace_go prefix String.length Nat.sub].
  destruct (ascii_dec "&" c) as [<- | Hne].
  - destruct s; reflexivity.
  - destruct (Ascii.eqb c "&") eqn:E; [ | reflexivity ].
    apply Ascii.eqb_eq in E. congruence.
Qed.

Lemma some_char_replace_amp_present s :
  Py.contains "&" s = true ->
  some_char slug_letter (Py.replace "&" " and " s) = true.
Proof.
  induction s as [ | c s IH ]; [ discriminate | ].
  rewrite contains_amp, replace_amp_step.
  destruct (Ascii.eqb c "&"); [ reflexivity | ].
  cbn [orb some_char]. intro H. rewrite (IH H). apply orb_true_r.
Qed.

Lemma replace_amp_absent s :
  Py.contains "&" s = false -> Py.replace "&" " and " s = s.
Proof.
  induction s as [ | c s IH ]; [ reflexivity | ].
  rewrite contains_amp, replace_amp_step. intro H.
  apply orb_false_iff in H. destruct H as [Hc Hs].
  now rewrite Hc, (IH Hs).
Qed.

Lemma split_go_no_letter s :
  some_char slug_letter s = false ->
  Py.split_go EmptyString (Py.filter_chars slug_char s) = [].
Proof.
  induction s as [ | c s IH ]; [ reflexivity | ].
  cbn [some_char Py.filter_chars]. intro H.
  apply orb_false_iff in H. destruct H as [Hc Hs].
  unfold slug_char. unfold slug_letter in Hc. rewrite Hc. cbn [orb].
  destruct (Py.is_space c) eqn:Esp; [ | now apply IH ].
  cbn [Py.split_go]. rewrite Esp. cbn [Py.is_empty]. now apply IH.
Qed.

(** The generated slug is empty exactly for a title without a letter, a
    digit or an ampersand. *)
Lemma generate_slug_nonempty_amp title :
  Py.contains "&" title = true -> Py.is_empty (_generate_slug title None) = false.
Proof.
  intro H. unfold _generate_slug. simpl Py.truthy_opt_int. cbv iota.
  rewrite <- contains_amp_lower in H.
  apply some_char_replace_amp_present, some_char_filter in H.
  destruct (split_go_first EmptyString _ (or_intror H)) as (w & ws & Hs & Hw).
  unfold Py.split. rewrite Hs. now apply join_first.
Qed.

Lemma generate_slug_empty title :
  has_alnum title = false -> Py.contains "&" title = false ->
  _generate_slug title None = "".
Proof.
  intros Hal Hamp. unfold _generate_slug. simpl Py.truthy_opt_int. cbv iota.
  rewrite <- contains_amp_lower in Hamp.
  rewrite (replace_amp_absent _ Hamp).
  unfold Py.split. now rewrite (split_go_no_letter _ (some_char_not_lower _ Hal)).
Qed.

Lemma format_opt_int_small year :
  (forall y, year = Some y -> Z.abs y < Py.max_str_value) ->
  exists text, Py.format_opt_int year = Return text.
Proof.
  intro H. destruct year as [y | ]; [ | now exists "None" ].
  specialize (H y eq_refl). unfold Py.format_opt_int, Py.format_int.
  destruct (Py.max_str_value <=? Z.abs y) eqn:E; [ apply Z.leb_le in E; lia | eauto ].
Qed.

Lemma found_truthy r :
  found (Return r) = if Py.truthy_opt_str r then r else None.
Proof. destruct r as [[ | c s] | ]; reflexivity. Qed.

(** C10, as the code has it.  For a year that can be written in the log
    line, [search_movie] never raises and never returns [None]: it returns
    the slug found by the search without the year, else the slug found by
    the search with the year (made only when a year is given), else the
    slug generated from the title alone.  A slug found by a search is not
    empty; the generated slug is not empty when the title has an ASCII
    letter, a digit or an ampersand, and it is empty for an ASCII title
    with none of these. *)
Theorem search_movie_returns_string (title : string) (year : option Z)
        (page1 page2 : outcome (list MediaRow)) :
  (forall y, year = Some y -> Z.abs y < Py.max_str_value) ->
  search_movie title year page1 page2
  = Return (Some (resolved title year page1 page2))
  /\ (Py.is_empty (resolved title year page1 page2) = true ->
      resolved title year page1 page2 = _generate_slug title None)
  /\ (has_alnum title = true \/ Py.contains "&" title = true ->
      Py.is_empty (resolved title year page1 page2) = false)
  /\ (Py.is_ascii title = true -> has_alnum title = false ->
      Py.contains "&" title = false -> _generate_slug title None = "").
Proof.
  intro Hyear.
  assert (Hgen : has_alnum title = true \/ Py.contains "&" title = true ->
                 Py.is_empty (_generate_slug title None) = false).
  { intros [H | H]; [ now apply generate_slug_nonempty
                    | now apply generate_slug_nonempty_amp ]. }
  assert (Hfound : forall (r : option string) (slug : string),
             (if Py.truthy_opt_str r then r else None) = Some slug ->
             r = Some slug /\ Py.is_empty slug = false).
  { intros [s | ] slug; cbn [Py.truthy_opt_str]; [ | discriminate ].
    unfold Py.truthy_str. destruct (Py.is_empty s) eqn:E; cbn [negb];
      [ discriminate | ].
    intro H. injection H as <-. auto. }
  unfold search_movie, resolved.
  destruct (search_via_selenium_returns title None page1) as [r1 H1].
  destruct (search_via_selenium_returns title year page2) as [r2 H2].
  destruct (format_opt_int_small year Hyear) as [text Htext].
  rewrite H1, H2, Htext, !found_truthy. cbn [bind].
  destruct (Py.truthy_opt_str r1) eqn:E1.
  - destruct r1 as [s1 | ]; [ | discriminate ].
    destruct (Hfound (Some s1) s1) as [_ Hne]; [ now rewrite E1 | ].
    repeat split; try congruence. now intros; apply generate_slug_empty.
  - destruct (Py.truthy_opt_int year).
    + destruct (Py.truthy_opt_str r2) eqn:E2.
      * destruct r2 as [s2 | ]; [ | discriminate ].
        destruct (Hfound (Some s2) s2) as [_ Hne]; [ now rewrite E2 | ].
        repeat split; try congruence. now intros; apply generate_slug_empty.
      * repeat split; auto. now intros; apply generate_slug_empty.
    + repeat split; auto. now intros; apply generate_slug_empty.
Qed.

(** C10 at a concrete input: the title "Kung Fu Panda" with the year 2024
    and a results page on which only the search with the year accepts a
    candidate. *)
Lemma search_movie_returns_string_witness :
  search_movie "Kung Fu Panda" (Some 2024) Sample.panda_page Sample.panda_page
  = Return (Some (resolved "Kung Fu Panda" (Some 2024)
                    Sample.panda_page Sample.panda_page))
  /\ resolved "Kung Fu Panda" (Some 2024) Sample.panda_page Sample.panda_page
     = "kung_fu_panda_paws".
Proof.
  split; [ | vm_compute; reflexivity ].
  apply (search_movie_returns_string "Kung Fu Panda" (Some 2024)
           Sample.panda_page Sample.panda_page).
  intros y E. injection E as <-. vm_compute. reflexivity.
Defined.

(** C10, counterexample.  For a title without a letter, a digit or an
    ampersand, when both searches time out or find nothing, the string
    returned is empty. *)
Lemma search_movie_empty_slug :
  search_movie "!!!" (Some 2024) (Raise TimeoutException) (Raise TimeoutException)
  = Return (Some "") /\
  search_movie "???" None (Return []) (Return []) = Return (Some "").
Proof. split; vm_compute; reflexivity. Qed.

(** An ampersand alone gives the slug "and"; and a year of more than 4300
    digits cannot be written in the log line of the second strategy. *)
Example ampersand_slug : _generate_slug "&" None = "and".
Proof. reflexivity. Qed.

Example search_movie_year_too_long :
  search_movie "Dune" (Some Py.max_str_value) (Return []) (Return [])
  = Raise ValueError.
Proof. vm_compute. reflexivity. Qed.

End SearchCascade.

(** ** Deduplication across endpoints *)

Section Dedup.

Import RottenTomatoes Spec.

Variable secret : PyHash.HashSecret.

Local Abbreviation fingerprint r := (PyHash.hash secret (text r)).

Lemma seen_get_set seen k v h :
  seen_get (seen_set seen k v) h =
  if k =? h then option_map (fun _ => v) (seen_get seen k) else seen_get seen h.
Proof.
  induction seen as [ | [k' w] seen IH ]; simpl.
  - now destruct (k =? h).
  - destruct (k' =? k) eqn:Ek; simpl.
    + apply Z.eqb_eq in Ek. subst k'. now destruct (k =? h).
    + rewrite IH. destruct (k =? h) eqn:Eh; [ | reflexivity ].
      apply Z.eqb_eq in Eh. subst h. now rewrite Ek.
Qed.

Lemma seen_get_app seen k v h :
  seen_get (seen ++ [(k, v)])%list h =
  match seen_get seen h with
  | Some x => Some x
  | None => if k =? h then Some v else None
  end.
Proof.
  induction seen as [ | [k' w] seen IH ]; simpl; [ reflexivity | ].
  now destruct (k' =? h).
Qed.

Lemma seen_get_dedup_step seen r h :
  seen_get (dedup_step secret seen r) h = keep_step secret h (seen_get seen h) r.
Proof.
  unfold dedup_step, keep_step.
  destruct (seen_get seen (fingerprint r)) as [[r0 p0] | ] eqn:Eg.
  - destruct (p0 <? priority_of r) eqn:Ep.
    + rewrite seen_get_set, Eg. simpl.
      destruct (fingerprint r =? h) eqn:Eh; [ | reflexivity ].
      apply Z.eqb_eq in Eh. subst h. now rewrite Eg, Ep.
    + destruct (fingerprint r =? h) eqn:Eh; [ | reflexivity ].
      apply Z.eqb_eq in Eh. subst h. now rewrite Eg, Ep.
  - rewrite seen_get_app.
    destruct (fingerprint r =? h) eqn:Eh.
    + apply Z.eqb_eq in Eh. subst h. now rewrite Eg.
    + now destruct (seen_get seen h) as [[r1 p1] | ].
Qed.

Lemma seen_get_fold l : forall seen h,
  seen_get (fold_left (dedup_step secret) l seen) h
  = fold_left (keep_step secret h) l (seen_get seen h).
Proof.
  induction l as [ | r l IH ]; intros seen h; simpl; [ reflexivity | ].
  now rewrite IH, seen_get_dedup_step.
Qed.

Lemma seen_get_none_iff seen h : seen_get seen h = None <-> ~ In h (map fst seen).
Proof.
  induction seen as [ | [k w] seen IH ]; simpl; [ tauto | ].
  destruct (k =? h) eqn:E.
  - apply Z.eqb_eq in E. split; [ discriminate | intro H; exfalso; auto ].
  - apply Z.eqb_neq in E. rewrite IH. tauto.
Qed.

Lemma seen_set_keys seen k v : map fst (seen_set seen k v) = map fst seen.
Proof.
  induction seen as [ | [k' w] seen IH ]; simpl; [ reflexivity | ].
  destruct (k' =? k); simpl; [ reflexivity | now rewrite IH ].
Qed.

Lemma seen_set_in seen k v e :
  In e (seen_set seen k v) -> In e seen \/ e = (k, v).
Proof.
  induction seen as [ | [k' w] seen IH ]; simpl; [ tauto | ].
  destruct (k' =? k) eqn:E; simpl.
  - apply Z.eqb_eq in E. subst k'. intros [H | H]; auto.
  - intros [H | H]; auto. destruct (IH H); auto.
Qed.

Lemma NoDup_snoc (l : list Z) (x : Z) :
  NoDup l -> ~ In x l -> NoDup (l ++ [x])%list.
Proof.
  induction l as [ | y l IH ]; simpl; intros Hnd Hx.
  - constructor; [ intros [] | constructor ].
  - inversion Hnd as [ | y' l' Hy Hl ]; subst. constructor.
    + intro Hin. apply in_app_or in Hin. simpl in Hin.
      destruct Hin as [Hin | [Hin | []]]; [ now apply Hy | subst; apply Hx; now left ].
    + apply IH; [ exact Hl | intro; apply Hx; now right ].
Qed.

Lemma dedup_step_well_keyed seen r :
  well_keyed secret seen -> well_keyed secret (dedup_step secret seen r).
Proof.
  intros [Hnd Hk]. unfold dedup_step.
  destruct (seen_get seen (fingerprint r)) as [[r0 p0] | ] eqn:Eg.
  - destruct (p0 <? priority_of r); [ | now split ].
    split.
    + now rewrite seen_set_keys.
    + intros k r' p' Hin. apply seen_set_in in Hin. destruct Hin as [Hin | Hin].
      * eapply Hk; eauto.
      * now inversion Hin.
  - split.
    + rewrite map_app. simpl. apply NoDup_snoc; [ exact Hnd | ].
      now apply seen_get_none_iff.
    + intros k r' p' Hin. apply in_app_or in Hin. destruct Hin as [Hin | Hin].
      * eapply Hk; eauto.
      * simpl in Hin. destruct Hin as [Hin | []]. now inversion Hin.
Qed.

Lemma fold_well_keyed l : forall seen,
  well_keyed secret seen -> well_keyed secret (fold_left (dedup_step secret) l seen).
Proof.
  induction l as [ | r l IH ]; intros seen H; simpl; [ exact H | ].
  apply IH. now apply dedup_step_well_keyed.
Qed.

(** Among the reviews returned, those with a given fingerprint are the one
    stored under it, if any. *)
Lemma output_by_fingerprint seen h :
  well_keyed secret seen ->
  filter (fun r => fingerprint r =? h) (map (fun entry => fst (snd entry)) seen)
  = match seen_get seen h with
    | Some (r, _) => [r]
    | None => []
    end.
Proof.
  induction seen as [ | [k [r p]] seen IH ]; intros [Hnd Hk]; simpl; [ reflexivity | ].
  assert (Hkr : k = fingerprint r) by (eapply Hk; left; reflexivity).
  inversion Hnd as [ | k' ks Hnotin Hnd' ]; subst k' ks.
  assert (Hwk : well_keyed secret seen).
  { split; [ exact Hnd' | intros; eapply Hk; right; eauto ]. }
  specialize (IH Hwk). rewrite <- Hkr.
  destruct (k =? h) eqn:E.
  - apply Z.eqb_eq in E. subst h.
    apply seen_get_none_iff in Hnotin. rewrite Hnotin in IH. now rewrite IH.
  - exact IH.
Qed.

Lemma fold_known_endpoints (fetch : string -> list Review) keys : forall seen,
  fold_left
    (fun seen endpoint_key =>
       if dict_mem ENDPOINTS endpoint_key
       then fold_left (dedup_step secret) (fetch endpoint_key) seen
       else seen)
    keys seen
  = fold_left (dedup_step secret)
      (flat_map (fun key => if dict_mem ENDPOINTS key then fetch key else []) keys)
      seen.
Proof.
  induction keys as [ | key keys IH ]; intro seen; cbn [fold_left flat_map];
    [ reflexivity | ].
  rewrite fold_left_app, IH.
  now destruct (dict_mem ENDPOINTS key).
Qed.

Lemma scrape_reviews_fold fetch endpoints :
  scrape_reviews secret fetch endpoints
  = map (fun entry => fst (snd entry))
        (fold_left (dedup_step secret) (processed fetch endpoints) []).
Proof.
  unfold scrape_reviews, processed, effective_endpoints.
  now rewrite fold_known_endpoints.
Qed.

Section TwoCategories.

Variables ra rc : Review.
Hypothesis same_text : text ra = text rc.
Hypothesis ra_audience : review_type ra = Some "audience".
Hypothesis rc_critic : review_type rc = Some "critic".

Lemma priority_ra : priority_of ra = 1.
Proof. unfold priority_of. now rewrite ra_audience. Qed.

Lemma priority_rc : priority_of rc = 3.
Proof. unfold priority_of. now rewrite rc_critic. Qed.

(** Once the critic review is stored, it stays. *)
Lemma critic_stays l :
  (forall r, In r l -> fingerprint r = fingerprint ra -> r = ra \/ r = rc) ->
  fold_left (keep_step secret (fingerprint ra)) l (Some (rc, 3)) = Some (rc, 3).
Proof.
  induction l as [ | r l IH ]; intro Hothers; simpl; [ reflexivity | ].
  assert (Hstep : keep_step secret (fingerprint ra) (Some (rc, 3)) r = Some (rc, 3)).
  { unfold keep_step. destruct (fingerprint r =? fingerprint ra) eqn:E; [ | reflexivity ].
    apply Z.eqb_eq in E.
    destruct (Hothers r (or_introl eq_refl) E) as [-> | ->].
    - now rewrite priority_ra.
    - now rewrite priority_rc. }
  rewrite Hstep. apply IH. intros; apply Hothers; simpl; auto.
Qed.

(** Whatever came before (nothing, or the audience review), the critic
    review is the one kept at the end. *)
Lemma critic_wins l : forall kept,
  kept = None \/ kept = Some (ra, 1) ->
  In rc l ->
  (forall r, In r l -> fingerprint r = fingerprint ra -> r = ra \/ r = rc) ->
  fold_left (keep_step secret (fingerprint ra)) l kept = Some (rc, 3).
Proof.
  induction l as [ | r l IH ]; intros kept Hkept Hin Hothers; [ destruct Hin | ].
  assert (Hothers' : forall r', In r' l -> fingerprint r' = fingerprint ra ->
                               r' = ra \/ r' = rc)
    by (intros; apply Hothers; simpl; auto).
  simpl. unfold keep_step at 2.
  destruct (fingerprint r =? fingerprint ra) eqn:E.
  - apply Z.eqb_eq in E.
    destruct (Hothers r (or_introl eq_refl) E) as [-> | ->].
    + rewrite priority_ra.
      assert (Hin' : In rc l).
      { destruct Hin as [Heq | Hin]; [ | exact Hin ].
        exfalso. rewrite Heq in ra_audience. congruence. }
      destruct Hkept as [-> | ->]; simpl; apply IH; auto.
    + rewrite priority_rc.
      destruct Hkept as [-> | ->]; simpl; now apply critic_stays.
  - apply Z.eqb_neq in E.
    destruct Hin as [Heq | Hin].
    + exfalso. apply E. subst r. now rewrite same_text.
    + now apply IH.
Qed.

End TwoCategories.

(** C2.  When an audience review and a critic review with the same text are
    among the reviews scraped, in whatever order and under whatever
    endpoints, and no other review shares their fingerprint, the reviews
    returned hold exactly one review with that fingerprint, the critic one.
    In general a review whose fingerprint is already stored replaces the
    stored entry exactly when its priority is strictly greater, a review with
    a new fingerprint is inserted, and the other entries are untouched. *)
Theorem dedup_keeps_higher_priority
        (fetch : string -> list Review) (endpoints : option (list string))
        (ra rc : Review) :
  text ra = text rc ->
  review_type ra = Some "audience" ->
  review_type rc = Some "critic" ->
  In ra (processed fetch endpoints) ->
  In rc (processed fetch endpoints) ->
  (forall r, In r (processed fetch endpoints) ->
             fingerprint r = fingerprint ra -> r = ra \/ r = rc) ->
  filter (fun r => fingerprint r =? fingerprint ra)
         (scrape_reviews secret fetch endpoints) = [rc]
  /\ (forall (seen : Seen) (r : Review),
        match seen_get seen (fingerprint r) with
        | Some (stored, stored_priority) =>
            dedup_step secret seen r
            = (if stored_priority <? priority_of r
               then seen_set seen (fingerprint r) (r, priority_of r)
               else seen)
            /\ seen_get (dedup_step secret seen r) (fingerprint r)
               = Some (if stored_priority <? priority_of r
                       then (r, priority_of r)
                       else (stored, stored_priority))
        | None =>
            seen_get (dedup_step secret seen r) (fingerprint r)
            = Some (r, priority_of r)
        end
        /\ (forall h, h <> fingerprint r ->
                      seen_get (dedup_step secret seen r) h = seen_get seen h)).
Proof.
  intros Htext Hra Hrc Hina Hinc Hothers. split.
  - rewrite scrape_reviews_fold, output_by_fingerprint.
    + rewrite seen_get_fold. simpl seen_get.
      rewrite (critic_wins ra rc Htext Hra Hrc); auto.
    + apply fold_well_keyed. split; [ constructor | intros k r p [] ].
  - intros seen r. split.
    + pose proof (seen_get_dedup_step seen r (fingerprint r)) as Hg.
      unfold keep_step in Hg. rewrite Z.eqb_refl in Hg.
      destruct (seen_get seen (fingerprint r)) as [[stored sp] | ] eqn:Eg.
      * split.
        -- unfold dedup_step. now rewrite Eg.
        -- rewrite Hg. now destruct (sp <? priority_of r).
      * exact Hg.
    + intros h Hh. rewrite seen_get_dedup_step. unfold keep_step.
      destruct (fingerprint r =? h) eqn:E; [ | reflexivity ].
      apply Z.eqb_eq in E. congruence.
Qed.

End Dedup.

(** C2, at a concrete input: the audience endpoint and the critic endpoint
    return the same text; with the default endpoint order the critic batch
    comes first. *)
Lemma dedup_keeps_higher_priority_witness :
  filter (fun r => PyHash.hash Sample.secret0 (text r)
                   =? PyHash.hash Sample.secret0 (text Sample.audience_review))
         (RottenTomatoes.scrape_reviews Sample.secret0 Sample.endpoint_pages None)
  = [Sample.critic_review]
  /\ (forall (seen : RottenTomatoes.Seen) (r : Review),
        match RottenTomatoes.seen_get seen (PyHash.hash Sample.secret0 (text r)) with
        | Some (stored, stored_priority) =>
            RottenTomatoes.dedup_step Sample.secret0 seen r
            = (if stored_priority <? RottenTomatoes.priority_of r
               then RottenTomatoes.seen_set seen (PyHash.hash Sample.secret0 (text r))
                      (r, RottenTomatoes.priority_of r)
               else seen)
            /\ RottenTomatoes.seen_get (RottenTomatoes.dedup_step Sample.secret0 seen r)
                 (PyHash.hash Sample.secret0 (text r))
               = Some (if stored_priority <? RottenTomatoes.priority_of r
                       then (r, RottenTomatoes.priority_of r)
                       else (stored, stored_priority))
        | None =>
            RottenTomatoes.seen_get (RottenTomatoes.dedup_step Sample.secret0 seen r)
              (PyHash.hash Sample.secret0 (text r))
            = Some (r, RottenTomatoes.priority_of r)
        end
        /\ (forall h, h <> PyHash.hash Sample.secret0 (text r) ->
                      RottenTomatoes.seen_get
                        (RottenTomatoes.dedup_step Sample.secret0 seen r) h
                      = RottenTomatoes.seen_get seen h)).
Proof.
  apply (dedup_keeps_higher_priority Sample.secret0 Sample.endpoint_pages None
           Sample.audience_review Sample.critic_review).
  - reflexivity.
  - reflexivity.
  - reflexivity.
  - right. left. reflexivity.
  - left. reflexivity.
  - intros r Hin _. destruct Hin as [<- | [<- | []]]; auto.
Defined.

(** Both orders of the two batches, evaluated. *)
Example dedup_either_order :
  RottenTomatoes.scrape_reviews Sample.secret0 Sample.endpoint_pages
    (Some ["all_audience"; "all_critics"]) = [Sample.critic_review]
  /\ RottenTomatoes.scrape_reviews Sample.secret0 Sample.endpoint_pages
       (Some ["all_critics"; "all_audience"]) = [Sample.critic_review].
Proof. split; vm_compute; reflexivity. Qed.

(** ** Rating selection *)

Section Ratings.

Import Models Spec.

Lemma round_half_even_near q :
  (inject_Z (Py.round_half_even q) - (1 # 2) <= q
   /\ q <= inject_Z (Py.round_half_even q) + (1 # 2))%Q.
Proof.
  unfold Py.round_half_even.
  pose proof (Qfloor_le q) as Hlo.
  pose proof (Qlt_floor q) as Hhi.
  rewrite inject_Z_plus in Hhi. change (inject_Z 1) with 1%Q in Hhi.
  destruct (Qcompare (q - inject_Z (Qfloor q)) (1 # 2)) eqn:E.
  - apply Qeq_alt in E.
    destruct (Z.even (Qfloor q)).
    + split; lra.
    + rewrite inject_Z_plus. change (inject_Z 1) with 1%Q. split; lra.
  - apply Qlt_alt in E. split; lra.
  - apply Qgt_alt in E. rewrite inject_Z_plus. change (inject_Z 1) with 1%Q.
    split; lra.
Qed.

Lemma round_half_even_ge n q :
  (inject_Z n <= q)%Q -> n <= Py.round_half_even q.
Proof.
  intro H.
  assert (Hf : n <= Qfloor q).
  { rewrite <- (Qfloor_Z n). now apply Qfloor_resp_le. }
  unfold Py.round_half_even.
  destruct (Qcompare (q - inject_Z (Qfloor q)) (1 # 2));
    [ destruct (Z.even (Qfloor q)) | | ]; lia.
Qed.

Lemma round_half_even_le n q :
  (q <= inject_Z n)%Q -> Py.round_half_even q <= n.
Proof.
  intro H.
  assert (Hf : Qfloor q <= n).
  { rewrite <- (Qfloor_Z n). now apply Qfloor_resp_le. }
  assert (Hup : (inject_Z (Qfloor q) < q)%Q -> Qfloor q + 1 <= n).
  { intro Hlt. assert (Hz : (inject_Z (Qfloor q) < inject_Z n)%Q) by lra.
    rewrite <- Zlt_Qlt in Hz. lia. }
  unfold Py.round_half_even.
  destruct (Qcompare (q - inject_Z (Qfloor q)) (1 # 2)) eqn:E.
  - apply Qeq_alt in E.
    destruct (Z.even (Qfloor q)); [ exact Hf | apply Hup; lra ].
  - exact Hf.
  - apply Qgt_alt in E. apply Hup. lra.
Qed.

(** Rounding to two decimals moves a value by at most half a hundredth. *)
Lemma round2_near q :
  (q - (1 # 200) <= Py.round2 q /\ Py.round2 q <= q + (1 # 200))%Q.
Proof.
  unfold Py.round2.
  destruct (round_half_even_near (q * inject_Z 100)) as [H1 H2].
  change (inject_Z 100) with (100 # 1)%Q in *.
  split.
  - apply Qle_shift_div_l; [ reflexivity | lra ].
  - apply Qle_shift_div_r; [ reflexivity | lra ].
Qed.

(** Rounding to two decimals does not cross a value with two decimals. *)
Lemma round2_ge a q : hundredth a -> (a <= q)%Q -> (a <= Py.round2 q)%Q.
Proof.
  intros [n Hn] H. unfold Py.round2.
  change (inject_Z 100) with (100 # 1)%Q in *.
  assert (Hn' : (a * (100 # 1) == inject_Z n)%Q).
  { rewrite Hn. field. }
  assert (Hz : n <= Py.round_half_even (q * (100 # 1))).
  { apply round_half_even_ge. lra. }
  rewrite Zle_Qle in Hz.
  apply Qle_shift_div_l; [ reflexivity | lra ].
Qed.

Lemma round2_le b q : hundredth b -> (q <= b)%Q -> (Py.round2 q <= b)%Q.
Proof.
  intros [n Hn] H. unfold Py.round2.
  change (inject_Z 100) with (100 # 1)%Q in *.
  assert (Hn' : (b * (100 # 1) == inject_Z n)%Q).
  { rewrite Hn. field. }
  assert (Hz : Py.round_half_even (q * (100 # 1)) <= n).
  { apply round_half_even_le. lra. }
  rewrite Zle_Qle in Hz.
  apply Qle_shift_div_r; [ reflexivity | lra ].
Qed.

Lemma or_int_positive (votes : option Z) :
  (forall v, votes = Some v -> 0 <= v) -> 1 <= Py.or_int votes 1.
Proof.
  intro H. unfold Py.or_int. destruct votes as [v | ]; [ | lia ].
  specialize (H v eq_refl). destruct (v =? 0) eqn:E; [ lia | ].
  apply Z.eqb_neq in E. lia.
Qed.

Lemma truthy_float_nonzero q :
  ~ (q == 0)%Q -> Py.truthy_opt_float (Some q) = true.
Proof.
  intro H. unfold Py.truthy_opt_float. apply negb_true_iff.
  destruct (Qeq_bool q 0) eqn:E; [ | reflexivity ].
  apply Qeq_bool_iff in E. contradiction.
Qed.

(** The weighted average of two values lies between them. *)
Lemma weighted_average_between t i w1 w2 :
  1 <= w1 -> 1 <= w2 ->
  (Qmin t i <= weighted_average t i w1 w2 /\ weighted_average t i w1 w2 <= Qmax t i)%Q.
Proof.
  intros H1 H2. unfold weighted_average.
  rewrite inject_Z_plus.
  assert (Hw1 : (1 <= inject_Z w1)%Q) by (change 1%Q with (inject_Z 1); now rewrite <- Zle_Qle).
  assert (Hw2 : (1 <= inject_Z w2)%Q) by (change 1%Q with (inject_Z 1); now rewrite <- Zle_Qle).
  pose proof (Q.le_min_l t i). pose proof (Q.le_min_r t i).
  pose proof (Q.le_max_l t i). pose proof (Q.le_max_r t i).
  split.
  - apply Qle_shift_div_l; [ lra | ]. nra.
  - apply Qle_shift_div_r; [ lra | ]. nra.
Qed.

(** The weighted path of [get_best_rating]. *)
Lemma get_best_rating_weighted self now tmdb imdb :
  tmdb_rating self = Some tmdb ->
  imdb_rating self = Some imdb ->
  ~ (tmdb == 0)%Q -> ~ (imdb == 0)%Q ->
  fresh self now = false ->
  (forall v, tmdb_vote_count self = Some v -> 0 <= v) ->
  (forall v, imdb_vote_count self = Some v -> 0 <= v) ->
  get_best_rating self now
  = Return (Some (Py.round2 (weighted_average tmdb imdb
                               (Py.or_int (tmdb_vote_count self) 1)
                               (Py.or_int (imdb_vote_count self) 1)))).
Proof.
  intros Ht Hi Ht0 Hi0 Hfresh Hv1 Hv2.
  unfold get_best_rating. rewrite Hfresh, Ht, Hi.
  rewrite (truthy_float_nonzero _ Ht0), (truthy_float_nonzero _ Hi0).
  cbn [andb].
  pose proof (or_int_positive _ Hv1). pose proof (or_int_positive _ Hv2).
  destruct (Py.or_int (tmdb_vote_count self) 1 + Py.or_int (imdb_vote_count self) 1 =? 0) eqn:E;
    [ apply Z.eqb_eq in E; lia | reflexivity ].
Qed.

End Ratings.

(** ** The weighted rating in binary64 *)

Section Binary64Ratings.

Import Float64 Models64.

Lemma digits2_pos_shift p k :
  digits2_pos (Pos.iter xO p k) = (digits2_pos p + k)%positive.
Proof.
  induction k as [ | k IH ] using Pos.peano_ind.
  - cbn. lia.
  - rewrite Pos.iter_succ. cbn [digits2_pos]. rewrite IH. lia.
Qed.

Lemma digits2_pos_lower p : 2 ^ (Zpos (digits2_pos p) - 1) <= Zpos p.
Proof.
  induction p as [ p IH | p IH | ]; cbn [digits2_pos]; [ | | cbn; lia ].
  - rewrite Pos2Z.inj_succ.
    replace (Z.succ (Zpos (digits2_pos p)) - 1)
      with (Z.succ (Zpos (digits2_pos p) - 1)) by lia.
    rewrite Z.pow_succ_r by lia. lia.
  - rewrite Pos2Z.inj_succ.
    replace (Z.succ (Zpos (digits2_pos p)) - 1)
      with (Z.succ (Zpos (digits2_pos p) - 1)) by lia.
    rewrite Z.pow_succ_r by lia. lia.
Qed.

Lemma digits2_pos_small p : Zpos p < 2 ^ 53 -> Zpos (digits2_pos p) <= 53.
Proof.
  intro H. pose proof (digits2_pos_lower p) as Hl.
  destruct (Z_le_gt_dec (Zpos (digits2_pos p)) 53) as [Hle | Hgt]; [ exact Hle | ].
  assert (2 ^ 53 <= 2 ^ (Zpos (digits2_pos p) - 1)) by (apply Z.pow_le_mono_r; lia).
  lia.
Qed.

(** A mantissa of 53 digits with an exponent in range is a float as it
    stands. *)
Lemma binary_round_aux_canonical s m e :
  Zpos (digits2_pos m) = 53 -> -1074 <= e <= 971 ->
  binary_round_aux prec emax s (Zpos m) e loc_Exact = S754_finite s m e.
Proof.
  intros Hd He. unfold binary_round_aux.
  assert (Hshr : shr_fexp prec emax (Zpos m) e loc_Exact
                 = ({| shr_m := Zpos m; shr_r := false; shr_s := false |}, e)).
  { unfold shr_fexp. cbn [Zdigits2]. rewrite Hd.
    unfold fexp, emin, prec, emax.
    replace (Z.max (53 + e - 53) (3 - 1024 - 53) - e) with 0 by lia.
    reflexivity. }
  rewrite Hshr. cbn [shr_m loc_of_shr_record round_nearest_even]. rewrite Hshr.
  cbn [shr_m]. unfold emax, prec.
  destruct (e <=? 1024 - 53) eqn:E; [ reflexivity | apply Z.leb_gt in E; lia ].
Qed.

(** A positive integer below 2^53 converts to a finite float. *)
Lemma nearest_small n :
  0 < n < 2 ^ 53 ->
  exists m e, nearest n = S754_finite false m e.
Proof.
  intros [Hpos Hlt]. destruct n as [ | p | p ]; try lia.
  pose proof (digits2_pos_small p Hlt) as Hd.
  unfold nearest, binary_normalize, binary_round.
  replace (fexp prec emax (Zpos (digits2_pos p) + 0)) with (Zpos (digits2_pos p) - 53)
    by (unfold fexp, emin, prec, emax; lia).
  unfold shl_align.
  destruct (Zpos (digits2_pos p) - 53 - 0) as [ | k | k ] eqn:Ek; try lia.
  - exists p, 0. apply binary_round_aux_canonical; lia.
  - exists (Pos.iter xO p k), (Zpos (digits2_pos p) - 53).
    apply binary_round_aux_canonical; [ | lia ].
    rewrite digits2_pos_shift. lia.
Qed.

Lemma of_int_small n :
  0 < n < 2 ^ 53 ->
  of_int n = Return (nearest n) /\ is_zero (nearest n) = false.
Proof.
  intro H. destruct (nearest_small n H) as (m & e & Hn).
  unfold of_int. rewrite Hn. split; reflexivity.
Qed.

Lemma weight_of_or_int votes : Spec.weight_of votes = Py.or_int votes 1.
Proof. destruct votes as [v | ]; reflexivity. Qed.

Lemma or_int_in_range votes :
  (forall v, votes = Some v -> 0 <= v < 2 ^ 52) ->
  0 < Py.or_int votes 1 < 2 ^ 52.
Proof.
  intro H. destruct votes as [v | ]; cbn [Py.or_int]; [ | lia ].
  specialize (H v eq_refl).
  destruct (v =? 0) eqn:E; [ lia | apply Z.eqb_neq in E; lia ].
Qed.

(** The weighted path of [get_best_rating]. *)
Lemma get_best_rating_weighted64 self now tmdb imdb :
  tmdb_rating self = Some tmdb ->
  imdb_rating self = Some imdb ->
  truthy tmdb = true -> truthy imdb = true ->
  fresh self now = false ->
  (forall v, tmdb_vote_count self = Some v -> 0 <= v < 2 ^ 52) ->
  (forall v, imdb_vote_count self = Some v -> 0 <= v < 2 ^ 52) ->
  get_best_rating self now
  = Return (Some (round2
                    (div (add (mul tmdb (nearest (Py.or_int (tmdb_vote_count self) 1)))
                              (mul imdb (nearest (Py.or_int (imdb_vote_count self) 1))))
                         (nearest (Py.or_int (tmdb_vote_count self) 1
                                   + Py.or_int (imdb_vote_count self) 1))))).
Proof.
  intros Ht Hi Ht0 Hi0 Hfresh Hv1 Hv2.
  pose proof (or_int_in_range _ Hv1) as H1. pose proof (or_int_in_range _ Hv2) as H2.
  unfold get_best_rating. rewrite Hfresh, Ht, Hi. cbn [truthy_opt].
  rewrite Ht0, Hi0. cbn [andb].
  destruct (of_int_small (Py.or_int (tmdb_vote_count self) 1)) as [E1 _]; [ lia | ].
  destruct (of_int_small (Py.or_int (imdb_vote_count self) 1)) as [E2 _]; [ lia | ].
  destruct (of_int_small (Py.or_int (tmdb_vote_count self) 1
                          + Py.or_int (imdb_vote_count self) 1)) as [E3 Z3].
  { change (2 ^ 53) with (2 ^ 52 + 2 ^ 52). lia. }
  rewrite E1, E2, E3. cbn [bind]. unfold truediv. rewrite Z3. reflexivity.
Qed.

(** C3, as the code has it.  When the IMDb rating is not fresh, both
    ratings are stored and neither is zero (a rating of 0.0 counts as
    absent), and the vote counts are not negative (and below 2^52, so that
    they and their sum are floats), the recommended rating is the
    vote-weighted average rounded to two decimals, a missing or zero vote
    count weighing 1, each operation being that of binary64 arithmetic. *)
Theorem weighted_average_when_both_rated (self : Movie) (now : Py.datetime)
        (tmdb imdb : float) :
  tmdb_rating self = Some tmdb ->
  imdb_rating self = Some imdb ->
  truthy tmdb = true -> truthy imdb = true ->
  fresh self now = false ->
  (forall v, tmdb_vote_count self = Some v -> 0 <= v < 2 ^ 52) ->
  (forall v, imdb_vote_count self = Some v -> 0 <= v < 2 ^ 52) ->
  get_best_rating self now
  = Return (Some (Spec.weighted_recommendation64
                    [(tmdb, tmdb_vote_count self); (imdb, imdb_vote_count self)])).
Proof.
  intros Ht Hi Ht0 Hi0 Hfresh Hv1 Hv2.
  rewrite (get_best_rating_weighted64 self now tmdb imdb Ht Hi Ht0 Hi0 Hfresh Hv1 Hv2).
  unfold Spec.weighted_recommendation64.
  cbn [map fst snd fold_left Spec.sum_floats].
  now rewrite !weight_of_or_int.
Qed.

(** The absolute difference of two floats does not depend on their
    order. *)
Lemma abs_binary_round s m e :
  abs (binary_round prec emax s m e) = abs (binary_round prec emax (negb s) m e).
Proof.
  unfold binary_round.
  destruct (shl_align m e (fexp prec emax (Zpos (digits2_pos m) + e))) as [mz ez].
  unfold binary_round_aux.
  destruct (shr_fexp prec emax (Zpos mz) ez loc_Exact) as [mrs' e'].
  destruct (shr_fexp prec emax
              (round_nearest_even (shr_m mrs') (loc_of_shr_record mrs')) e' loc_Exact)
    as [mrs'' e''].
  destruct (shr_m mrs'') as [ | q | q ]; [ reflexivity | | reflexivity ].
  destruct (e'' <=? emax - prec); reflexivity.
Qed.

Lemma abs_binary_normalize z e :
  abs (binary_normalize prec emax z e false)
  = abs (binary_normalize prec emax (- z) e false).
Proof.
  destruct z as [ | q | q ]; cbn [Z.opp binary_normalize];
    [ reflexivity | apply (abs_binary_round false) | apply (abs_binary_round true) ].
Qed.

Lemma abs_sub_comm x y : abs (sub x y) = abs (sub y x).
Proof.
  destruct x as [sx | sx | | sx mx ex], y as [sy | sy | | sy my ey];
    try reflexivity;
    try (destruct sx, sy; reflexivity).
  unfold sub, SFsub. rewrite (Z.min_comm ey ex).
  rewrite abs_binary_normalize. f_equal. f_equal. lia.
Qed.

Lemma sub_same s m e : sub (S754_finite s m e) (S754_finite s m e) = S754_zero false.
Proof.
  unfold sub, SFsub. rewrite Z.sub_diag. reflexivity.
Qed.

(** X7.  The metadata of a movie with two stored, non-zero ratings lists the
    TMDB source and then the IMDb source with their ratings and vote counts,
    recommends what [get_best_rating] returns, and reports as difference the
    binary64 difference of the two ratings, without its sign, rounded to two
    decimals: the same in either order, and 0.0 for two equal finite
    ratings.  The note is "Large difference - investigate" exactly when the
    reported difference is greater than 1.0, otherwise "Ratings are
    similar". *)
Theorem metadata_of_two_ratings (self : Movie) (now1 now2 : Py.datetime)
        (tmdb imdb : float) (m : RatingMetadata) :
  tmdb_rating self = Some tmdb ->
  imdb_rating self = Some imdb ->
  truthy tmdb = true -> truthy imdb = true ->
  get_rating_metadata self now1 now2 = Return m ->
  map source (sources m) = ["tmdb_csv"; "imdb_scraped"]
  /\ map source_rating (sources m) = [tmdb; imdb]
  /\ map votes (sources m) = [tmdb_vote_count self; imdb_vote_count self]
  /\ get_best_rating self now1 = Return (recommended_rating m)
  /\ difference m = Some (round2 (abs (sub tmdb imdb)))
  /\ difference m = Some (round2 (abs (sub imdb tmdb)))
  /\ ((exists s mant e, tmdb = S754_finite s mant e) -> tmdb = imdb ->
      difference m = Some (S754_zero false))
  /\ note m = Some (if ltb one (round2 (abs (sub tmdb imdb)))
                    then "Large difference - investigate"
                    else "Ratings are similar").
Proof.
  intros Et Ei Ht0 Hi0 Hm. unfold get_rating_metadata in Hm.
  destruct (get_best_rating self now1) as [rec | e]; [ | discriminate ].
  cbn [bind] in Hm. rewrite Et, Ei, Ht0, Hi0 in Hm.
  cbn [andb] in Hm. injection Hm as <-.
  cbn [sources difference note recommended_rating map source source_rating votes app].
  split; [ reflexivity | split; [ reflexivity | split; [ reflexivity | ] ] ].
  split; [ reflexivity | split; [ reflexivity | split ] ].
  - now rewrite (abs_sub_comm imdb tmdb).
  - split; [ | reflexivity ].
    intros (s & mant & e & ->) <-. now rewrite sub_same.
Qed.

End Binary64Ratings.

(** C3 at the specification's example: TMDB 7.0 with 1000 votes and IMDb 8.0
    with 500 votes, never scraped, give 7.33. *)
Lemma weighted_average_when_both_rated_witness :
  Models64.get_best_rating
    (Sample.movie64 (Some Sample.f_7_0) (Some 1000) (Some Sample.f_8_0) (Some 500) None)
    (Sample.day 100)
  = Return (Some (Spec.weighted_recommendation64
                    [(Sample.f_7_0, Some 1000); (Sample.f_8_0, Some 500)]))
  /\ Spec.weighted_recommendation64
       [(Sample.f_7_0, Some 1000); (Sample.f_8_0, Some 500)]
     = Sample.f_7_33.
Proof.
  split.
  - apply (weighted_average_when_both_rated
             (Sample.movie64 (Some Sample.f_7_0) (Some 1000) (Some Sample.f_8_0)
                (Some 500) None)
             (Sample.day 100) Sample.f_7_0 Sample.f_8_0).
    + reflexivity.
    + reflexivity.
    + reflexivity.
    + reflexivity.
    + reflexivity.
    + intros v H; injection H as <-; split; [ lia | reflexivity ].
    + intros v H; injection H as <-; split; [ lia | reflexivity ].
  - vm_compute. reflexivity.
Defined.

(** C3, counterexample.  A stored TMDB rating of 0.0 with 1000 votes next to
    an IMDb rating of 8.0 with 500 votes: the code returns 8.0, the formula
    gives 2.67. *)
Lemma zero_rating_is_not_averaged :
  Models64.get_best_rating
    (Sample.movie64 (Some (S754_zero false)) (Some 1000) (Some Sample.f_8_0)
       (Some 500) None)
    (Sample.day 100)
  = Return (Some Sample.f_8_0)
  /\ Spec.weighted_recommendation64
       [(S754_zero false, Some 1000); (Sample.f_8_0, Some 500)]
     = Sample.f_2_67
  /\ Sample.f_8_0 <> Sample.f_2_67.
Proof.
  split; [ vm_compute; reflexivity | split; [ vm_compute; reflexivity | ] ].
  intro H. vm_compute in H. discriminate.
Qed.

(** The interpreter's arithmetic, not the exact one, decides the second
    decimal: 7.0 with 1000 votes and 8.1 with 3000 votes average to 7.825
    exactly, which would round to 7.82; the float computed is just above
    7.825 and rounds to 7.83. *)
Example binary64_average_rounds_up :
  Models64.get_best_rating
    (Sample.movie64 (Some Sample.f_7_0) (Some 1000) (Some Sample.f_8_1) (Some 3000) None)
    (Sample.day 100)
  = Return (Some Sample.f_7_83)
  /\ (Py.round2 (Models.weighted_average (7 # 1) (81 # 10) 1000 3000) == 782 # 100)%Q.
Proof. split; vm_compute; reflexivity. Qed.

(** X7 at a concrete input: 7.105 against 6.1 are reported 1.01 apart, a
    large difference. *)
Lemma metadata_of_two_ratings_witness :
  exists m,
    Models64.get_rating_metadata
      (Sample.movie64 (Some Sample.f_7_105) (Some 1000) (Some Sample.f_6_1)
         (Some 500) None)
      (Sample.day 100) (Sample.day 100) = Return m
    /\ Models64.difference m = Some Sample.f_1_01
    /\ Models64.note m = Some "Large difference - investigate".
Proof.
  eexists. split; [ vm_compute; reflexivity | ].
  match goal with
  | |- Models64.difference ?m = _ /\ _ =>
      destruct (metadata_of_two_ratings
                  (Sample.movie64 (Some Sample.f_7_105) (Some 1000)
                     (Some Sample.f_6_1) (Some 500) None)
                  (Sample.day 100) (Sample.day 100) Sample.f_7_105 Sample.f_6_1 m
                  eq_refl eq_refl eq_refl eq_refl)
        as (_ & _ & _ & _ & Hd & _ & _ & Hn)
  end.
  - vm_compute. reflexivity.
  - split.
    + rewrite Hd. vm_compute. reflexivity.
    + rewrite Hn. vm_compute. reflexivity.
Defined.

Section RatingBounds.

Import Models Spec.

Lemma hundredth_eq a b : (a == b)%Q -> hundredth a -> hundredth b.
Proof. intros Hab [n Hn]. exists n. now rewrite <- Hab. Qed.

Lemma hundredth_min a b : hundredth a -> hundredth b -> hundredth (Qmin a b).
Proof.
  intros Ha Hb. destruct (Q.min_dec a b) as [H | H].
  - apply (hundredth_eq a); [ now symmetry | exact Ha ].
  - apply (hundredth_eq b); [ now symmetry | exact Hb ].
Qed.

Lemma hundredth_max a b : hundredth a -> hundredth b -> hundredth (Qmax a b).
Proof.
  intros Ha Hb. destruct (Q.max_dec a b) as [H | H].
  - apply (hundredth_eq a); [ now symmetry | exact Ha ].
  - apply (hundredth_eq b); [ now symmetry | exact Hb ].
Qed.

(** C5, as the code has it.  On the weighted path the recommended rating is
    the rounded average: it lies within half a hundredth of the interval
    between the two ratings, and inside the interval when both ratings have
    at most two decimals.  A fresh IMDb rating is returned as it is, and so
    is a single stored rating (an IMDb rating of 0.0 counts as absent). *)
Theorem recommended_within_observations (self : Movie) (now : Py.datetime) :
  (forall tmdb imdb : Q,
     tmdb_rating self = Some tmdb ->
     imdb_rating self = Some imdb ->
     ~ (tmdb == 0)%Q -> ~ (imdb == 0)%Q ->
     fresh self now = false ->
     (forall v, tmdb_vote_count self = Some v -> 0 <= v) ->
     (forall v, imdb_vote_count self = Some v -> 0 <= v) ->
     exists r : Q,
       get_best_rating self now = Return (Some r) /\
       (Qmin tmdb imdb - (1 # 200) <= r /\ r <= Qmax tmdb imdb + (1 # 200))%Q /\
       (hundredth tmdb -> hundredth imdb ->
        (Qmin tmdb imdb <= r /\ r <= Qmax tmdb imdb)%Q))
  /\ (fresh self now = true -> get_best_rating self now = Return (imdb_rating self))
  /\ (forall imdb : Q,
        imdb_rating self = Some imdb -> ~ (imdb == 0)%Q ->
        tmdb_rating self = None ->
        get_best_rating self now = Return (Some imdb))
  /\ (forall tmdb : Q,
        tmdb_rating self = Some tmdb ->
        imdb_rating self = None ->
        get_best_rating self now = Return (Some tmdb)).
Proof.
  repeat split.
  - intros tmdb imdb Ht Hi Ht0 Hi0 Hfresh Hv1 Hv2.
    eexists. split; [ apply (get_best_rating_weighted self now tmdb imdb); assumption | ].
    pose proof (or_int_positive _ Hv1) as Hw1.
    pose proof (or_int_positive _ Hv2) as Hw2.
    destruct (weighted_average_between tmdb imdb _ _ Hw1 Hw2) as [Hlo Hhi].
    set (avg := weighted_average tmdb imdb (Py.or_int (tmdb_vote_count self) 1)
                  (Py.or_int (imdb_vote_count self) 1)) in *.
    destruct (round2_near avg) as [Hn1 Hn2].
    split; [ split; lra | ].
    intros Hht Hhi'. split.
    + apply round2_ge; [ now apply hundredth_min | exact Hlo ].
    + apply round2_le; [ now apply hundredth_max | exact Hhi ].
  - intro Hfresh. unfold get_best_rating. now rewrite Hfresh.
  - intros imdb Hi Hi0 Ht. unfold get_best_rating.
    destruct (fresh self now); [ now rewrite Hi | ].
    rewrite Ht, Hi. cbn [Py.truthy_opt_float andb].
    unfold Py.or_float. now rewrite (truthy_float_nonzero _ Hi0).
  - intros tmdb Ht Hi. unfold get_best_rating, fresh.
    rewrite Hi, Ht. cbn [Py.truthy_opt_float andb].
    rewrite andb_false_r. reflexivity.
Qed.

(** C7, as the code has it.  The rating methods read the clock.  The
    recommended rating depends on the reading only through whether the IMDb
    rating is fresh at that instant, and the metadata only through that and
    through the age in whole days: two evaluations over the same stored
    values agree when the readings agree on these. *)
Theorem rating_depends_on_clock_through_age
        (self : Movie) (now1 now2 now1' now2' : Py.datetime) :
  fresh self now1 = fresh self now1' ->
  (forall scraped, scraped_at self = Some scraped ->
                   days_old now2 scraped = days_old now2' scraped) ->
  get_best_rating self now1 = get_best_rating self now1'
  /\ get_rating_metadata self now1 now2 = get_rating_metadata self now1' now2'.
Proof.
  intros Hfresh Hage.
  assert (Hbest : get_best_rating self now1 = get_best_rating self now1').
  { unfold get_best_rating. now rewrite Hfresh. }
  split; [ exact Hbest | ].
  unfold get_rating_metadata. rewrite Hbest.
  destruct (scraped_at self) as [scraped | ] eqn:Es; [ | reflexivity ].
  cbn [option_map]. now rewrite (Hage scraped eq_refl).
Qed.

End RatingBounds.

(** C5 at a concrete input: 7.0 with 1000 votes and 8.0 with 500 votes. *)
Lemma recommended_within_observations_witness :
  exists r : Q,
    Models.get_best_rating
      (Sample.movie (Some (7 # 1)) (Some 1000) (Some (8 # 1)) (Some 500) None)
      (Sample.day 100) = Return (Some r) /\
    (Qmin (7 # 1) (8 # 1) - (1 # 200) <= r /\ r <= Qmax (7 # 1) (8 # 1) + (1 # 200))%Q /\
    (Spec.hundredth (7 # 1) -> Spec.hundredth (8 # 1) ->
     (Qmin (7 # 1) (8 # 1) <= r /\ r <= Qmax (7 # 1) (8 # 1))%Q).
Proof.
  destruct (recommended_within_observations
              (Sample.movie (Some (7 # 1)) (Some 1000) (Some (8 # 1)) (Some 500) None)
              (Sample.day 100)) as [H _].
  apply (H (7 # 1) (8 # 1)).
  - reflexivity.
  - reflexivity.
  - intro E; vm_compute in E; discriminate.
  - intro E; vm_compute in E; discriminate.
  - reflexivity.
  - intros v E; injection E as <-; lia.
  - intros v E; injection E as <-; lia.
Defined.

(** C5, counterexample.  A TMDB rating of 7.126 with 1000 votes and an IMDb
    rating of 7.1 with one vote average to 7.12597..., which rounds to 7.13,
    above both. *)
Lemma rounding_leaves_the_interval :
  exists r : Q,
    Models.get_best_rating
      (Sample.movie (Some (7126 # 1000)) (Some 1000) (Some (71 # 10)) (Some 1) None)
      (Sample.day 100) = Return (Some r) /\
    (r == 713 # 100)%Q /\
    (Qmax (7126 # 1000) (71 # 10) < r)%Q.
Proof.
  eexists. split; [ reflexivity | split ].
  - vm_compute. reflexivity.
  - vm_compute. reflexivity.
Qed.

(** C7 at a concrete input: two readings on the fourth day after the
    scrape. *)
Lemma rating_depends_on_clock_through_age_witness :
  Models.get_best_rating
    (Sample.movie (Some (7 # 1)) (Some 1000) (Some (8 # 1)) (Some 500) (Some (Sample.day 0)))
    (Sample.day 3)
  = Models.get_best_rating
      (Sample.movie (Some (7 # 1)) (Some 1000) (Some (8 # 1)) (Some 500) (Some (Sample.day 0)))
      (Sample.day 3 + 1)
  /\ Models.get_rating_metadata
       (Sample.movie (Some (7 # 1)) (Some 1000) (Some (8 # 1)) (Some 500) (Some (Sample.day 0)))
       (Sample.day 3) (Sample.day 3 + 1)
     = Models.get_rating_metadata
         (Sample.movie (Some (7 # 1)) (Some 1000) (Some (8 # 1)) (Some 500) (Some (Sample.day 0)))
         (Sample.day 3 + 1) (Sample.day 3 + 2).
Proof.
  apply (rating_depends_on_clock_through_age
           (Sample.movie (Some (7 # 1)) (Some 1000) (Some (8 # 1)) (Some 500)
                         (Some (Sample.day 0)))
           (Sample.day 3) (Sample.day 3 + 1) (Sample.day 3 + 1) (Sample.day 3 + 2)).
  - reflexivity.
  - intros scraped E. injection E as <-. reflexivity.
Defined.

(** C7, counterexample.  The same stored values, read three days and ten
    days after the scrape: the fresh IMDb rating 8.0 first, the weighted
    average 7.33 later; the age in the metadata differs too. *)
Lemma rating_changes_with_the_clock :
  Models.get_best_rating
    (Sample.movie (Some (7 # 1)) (Some 1000) (Some (8 # 1)) (Some 500) (Some (Sample.day 0)))
    (Sample.day 3) = Return (Some (8 # 1))
  /\ (exists r : Q,
        Models.get_best_rating
          (Sample.movie (Some (7 # 1)) (Some 1000) (Some (8 # 1)) (Some 500)
                        (Some (Sample.day 0)))
          (Sample.day 10) = Return (Some r)
        /\ (r == 733 # 100)%Q /\ ~ (r == 8 # 1)%Q)
  /\ Models.days_old (Sample.day 3) (Sample.day 0) = 3
  /\ Models.days_old (Sample.day 10) (Sample.day 0) = 10.
Proof.
  split; [ reflexivity | split; [ | split; reflexivity ] ].
  eexists. split; [ reflexivity | split ].
  - vm_compute. reflexivity.
  - intro E. vm_compute in E. discriminate.
Qed.

(** ** Candidate selection *)

Section Selection.

Import Spec.

Lemma fold_left_invariant {A B : Type} (f : A -> B -> A) (P : A -> Prop) (l : list B) :
  forall init,
    P init ->
    (forall st x, In x l -> P st -> P (f st x)) ->
    P (fold_left f l init).
Proof.
  induction l as [ | x l IH ]; intros init Hinit Hstep; simpl; [ exact Hinit | ].
  apply IH.
  - apply Hstep; [ now left | exact Hinit ].
  - intros st y Hy. apply Hstep. now right.
Qed.

Lemma Qle_bool_trans_false a b c :
  Qle_bool b c = true -> (c < a)%Q -> Qle_bool a b = false.
Proof.
  intros Hbc Hca. destruct (Qle_bool a b) eqn:E; [ | reflexivity ].
  apply Qle_bool_iff in Hbc. apply Qle_bool_iff in E. lra.
Qed.

(** *** Rotten Tomatoes *)

Lemma int_of_str_empty : Py.int_of_str "" = None.
Proof. reflexivity. Qed.

Lemma rt_consider_ok title y rows st row :
  y <> 0 -> In row rows -> rt_best_ok y rows st ->
  rt_best_ok y rows (RottenTomatoes.consider title (Some y) st row).
Proof.
  intros Hy Hin Hst. unfold RottenTomatoes.consider.
  destruct st as [best_match best_score].
  destruct (RottenTomatoes.info_name row) as [[link_text result_url] | ] eqn:Elink;
    [ | exact Hst ].
  match goal with |- context [if ?tv then _ else _] => destruct tv end; [ exact Hst | ].
  assert (Htruthy : Py.truthy_opt_int (Some y) = true).
  { simpl. apply negb_true_iff. now apply Z.eqb_neq. }
  rewrite Htruthy. cbn [andb].
  destruct (RottenTomatoes.startyear row) as [ry | ] eqn:Eyear.
  - destruct (Py.truthy_opt_str (Some ry)) eqn:Etr.
    + destruct (Py.int_of_str ry) as [r | ] eqn:Eint.
      * destruct (Z.abs (r - y) <=? 2) eqn:Ediff.
        -- cbn [andb].
           match goal with |- context [if ?c then _ else _] => destruct c end;
             [ | exact Hst ].
           exists row, link_text. repeat split; auto.
           intros ry' r' Hry' Hr'. rewrite Eyear in Hry'. injection Hry' as <-.
           rewrite Eint in Hr'. injection Hr' as <-. now apply Z.leb_le.
        -- exact Hst.
      * cbn [andb].
        match goal with |- context [if ?c then _ else _] => destruct c end;
          [ | exact Hst ].
        exists row, link_text. repeat split; auto.
        intros ry' r' Hry' Hr'. rewrite Eyear in Hry'. injection Hry' as <-. congruence.
    + cbn [andb].
      match goal with |- context [if ?c then _ else _] => destruct c end;
        [ | exact Hst ].
      exists row, link_text. repeat split; auto.
      intros ry' r' Hry' Hr'. rewrite Eyear in Hry'. injection Hry' as <-.
      destruct ry; [ now rewrite int_of_str_empty in Hr' | discriminate ].
  - cbn [Py.truthy_opt_str andb].
    match goal with |- context [if ?c then _ else _] => destruct c end;
      [ | exact Hst ].
    exists row, link_text. repeat split; auto.
    intros ry' r' Hry'. rewrite Eyear in Hry'. discriminate.
Qed.

Lemma rt_selected_within_two title y page slug :
  y <> 0 ->
  RottenTomatoes._search_via_selenium title (Some y) page = Return (Some slug) ->
  exists rows row link_text u,
    page = Return rows /\ In row rows /\
    RottenTomatoes.info_name row = Some (link_text, Some u) /\
    slug = RottenTomatoes.slug_of_url u /\
    forall ry r, RottenTomatoes.startyear row = Some ry ->
                 Py.int_of_str ry = Some r -> Z.abs (r - y) <= 2.
Proof.
  intros Hy H.
  unfold RottenTomatoes._search_via_selenium, RottenTomatoes._search_via_selenium_body,
    try_except, bind in H.
  destruct page as [rows | e]; [ | discriminate ].
  destruct rows as [ | row0 rows ]; [ discriminate | ].
  pose proof (fold_left_invariant (RottenTomatoes.consider title (Some y))
                (rt_best_ok y (row0 :: rows)) (row0 :: rows) (None, 0%Q) I
                (fun st x Hin Hst => rt_consider_ok title y _ st x Hy Hin Hst)) as Hinv.
  destruct (fold_left (RottenTomatoes.consider title (Some y)) (row0 :: rows) (None, 0%Q))
    as [best_match best_score].
  destruct best_match as [[[[t url] ry] sc] | ]; [ | discriminate ].
  destruct (Qle_bool (7 # 10) best_score); [ | discriminate ].
  destruct url as [u | ]; [ | discriminate ].
  injection H as <-.
  destruct Hinv as (row & link_text & Hin & Hlink & Hyear).
  exists (row0 :: rows), row, link_text, u. repeat split; auto.
Qed.

(** *** IMDb *)

Section IMDbSelection.

Variable token_sort_ratio : string -> string -> Z.

Lemma imdb_year_matches_within_one y result :
  y <> 0 -> IMDb.year_matches (Some y) result = true ->
  forall ry r, IMDb.result_year result = Some ry ->
               Py.int_of_str ry = Some r -> Z.abs (y - r) <= 1.
Proof.
  intros Hy Hm ry r Hry Hr. unfold IMDb.year_matches in Hm.
  assert (Htruthy : Py.truthy_opt_int (Some y) = true).
  { simpl. apply negb_true_iff. now apply Z.eqb_neq. }
  rewrite Htruthy, Hry in Hm. cbn [andb] in Hm.
  destruct ry as [ | c ry ]; [ now rewrite int_of_str_empty in Hr | ].
  cbn [Py.truthy_opt_str Py.truthy_str Py.is_empty negb] in Hm.
  rewrite Hr in Hm. now apply Z.leb_le.
Qed.

Lemma imdb_consider_ok normalized y results st result :
  y <> 0 -> In result results ->
  imdb_best_ok token_sort_ratio normalized y results st ->
  imdb_best_ok token_sort_ratio normalized y results
    (IMDb.consider token_sort_ratio normalized (Some y) st result).
Proof.
  intros Hy Hin Hst. unfold IMDb.consider. destruct st as [best_match best_score].
  destruct (IMDb.year_matches (Some y) result) eqn:Em; [ | exact Hst ].
  cbn [andb].
  destruct (best_score <? IMDb.fuzzy_score token_sort_ratio normalized result);
    [ | exact Hst ].
  repeat split; auto. now apply imdb_year_matches_within_one.
Qed.

Lemma imdb_selected_within_one available title y threshold page id :
  y <> 0 ->
  IMDb.search_movie_fuzzy token_sort_ratio available title (Some y) threshold page
  = Some id ->
  exists results best,
    page = Return results /\ In best (firstn 10 results) /\
    IMDb.result_imdb_id best = id /\
    threshold <= IMDb.fuzzy_score token_sort_ratio (IMDb.normalize_title title) best /\
    forall ry r, IMDb.result_year best = Some ry ->
                 Py.int_of_str ry = Some r -> Z.abs (y - r) <= 1.
Proof.
  intros Hy H. unfold IMDb.search_movie_fuzzy in H.
  destruct available; [ | discriminate ]. cbn [negb] in H.
  destruct page as [results | e]; [ | discriminate ].
  destruct results as [ | r0 results ]; [ discriminate | ].
  set (top := firstn 10 (r0 :: results)) in *.
  pose proof (fold_left_invariant
                (IMDb.consider token_sort_ratio (IMDb.normalize_title title) (Some y))
                (imdb_best_ok token_sort_ratio (IMDb.normalize_title title) y top) top (None, 0) I
                (fun st x Hin Hst =>
                   imdb_consider_ok (IMDb.normalize_title title) y top st x Hy Hin Hst))
    as Hinv.
  destruct (fold_left (IMDb.consider token_sort_ratio (IMDb.normalize_title title) (Some y))
                      top (None, 0)) as [best_match best_score].
  destruct best_match as [best | ]; [ | discriminate ].
  destruct (threshold <=? best_score) eqn:Et; [ | discriminate ].
  injection H as <-.
  destruct Hinv as (Hin & Hscore & Hyear). simpl in Hscore.
  exists (r0 :: results), best. repeat split; auto.
  apply Z.leb_le in Et. now rewrite <- Hscore.
Qed.

End IMDbSelection.

(** C9, as the code has it.  A candidate chosen by the IMDb fuzzy search for
    a query with a year has no year, or a year at most 1 from the query's;
    a candidate chosen by the Rotten Tomatoes search for a query with a
    year has no readable year, or a year at most 2 from the query's. *)
Theorem selected_candidate_year_tolerance :
  (forall (token_sort_ratio : string -> string -> Z) (available : bool)
          (title : string) (y threshold : Z)
          (page : outcome (list IMDb.SearchResult)) (id : string),
     y <> 0 ->
     IMDb.search_movie_fuzzy token_sort_ratio available title (Some y) threshold page
     = Some id ->
     exists results best,
       page = Return results /\ In best (firstn 10 results) /\
       IMDb.result_imdb_id best = id /\
       threshold <= IMDb.fuzzy_score token_sort_ratio (IMDb.normalize_title title) best /\
       forall ry r, IMDb.result_year best = Some ry ->
                    Py.int_of_str ry = Some r -> Z.abs (y - r) <= 1)
  /\ (forall (title : string) (y : Z) (page : outcome (list RottenTomatoes.MediaRow))
             (slug : string),
        y <> 0 ->
        RottenTomatoes._search_via_selenium title (Some y) page = Return (Some slug) ->
        exists rows row link_text u,
          page = Return rows /\ In row rows /\
          RottenTomatoes.info_name row = Some (link_text, Some u) /\
          slug = RottenTomatoes.slug_of_url u /\
          forall ry r, RottenTomatoes.startyear row = Some ry ->
                       Py.int_of_str ry = Some r -> Z.abs (r - y) <= 2).
Proof.
  split.
  - intros. eapply imdb_selected_within_one; eauto.
  - intros. eapply rt_selected_within_two; eauto.
Qed.

End Selection.

(** C9 at a concrete input: the IMDb fuzzy search for "Dune" (2021) over one
    result of that year. *)
Lemma selected_candidate_year_tolerance_witness :
  exists results best,
    Return [Sample.dune_result] = Return results /\ In best (firstn 10 results) /\
    IMDb.result_imdb_id best = "tt1160419" /\
    60 <= IMDb.fuzzy_score Sample.exact_ratio (IMDb.normalize_title "Dune") best /\
    forall ry r, IMDb.result_year best = Some ry ->
                 Py.int_of_str ry = Some r -> Z.abs (2021 - r) <= 1.
Proof.
  destruct selected_candidate_year_tolerance as [H _].
  apply (H Sample.exact_ratio true "Dune" 2021 60 (Return [Sample.dune_result])
           "tt1160419").
  - lia.
  - vm_compute. reflexivity.
Defined.

(** C9, counterexample.  The Rotten Tomatoes search for "Dune" with the year
    2023 returns a candidate of 2021, two years away; and [search_movie]
    for "Dune" (2021), whose first search passes no year, returns a candidate
    of 1984. *)
Lemma candidate_two_years_away_is_chosen :
  RottenTomatoes._search_via_selenium "Dune" (Some 2023) Sample.dune_2021_page
  = Return (Some "dune_2021")
  /\ Z.abs (2021 - 2023) = 2
  /\ RottenTomatoes.search_movie "Dune" (Some 2021)
       Sample.dune_1984_page Sample.dune_1984_page
     = Return (Some "dune_1984").
Proof. repeat split; vm_compute; reflexivity. Qed.

(** A year attribute that [int()] cannot read is not compared: with the
    separator 28 in front, which [strip()] would remove and [int()] does not
    skip, "1984" is no number, and the row is chosen for the year 2021. *)
Example unreadable_year_is_not_compared :
  Py.int_of_str (String (ascii_of_nat 28) "1984") = None
  /\ Py.int_of_str " 1984 " = Some 1984
  /\ RottenTomatoes._search_via_selenium "Dune" (Some 2021)
       (Return [Sample.media_row "Dune" "https://www.rottentomatoes.com/m/dune_1984"
                  (String (ascii_of_nat 28) "1984")])
     = Return (Some "dune_1984").
Proof. repeat split; vm_compute; reflexivity. Qed.

(** ** Acceptance thresholds *)

Section Thresholds.

Import Spec.

Lemma int_of_str_truthy ry r :
  Py.int_of_str ry = Some r -> Py.truthy_opt_str (Some ry) = true.
Proof. destruct ry; [ discriminate | reflexivity ]. Qed.

Lemma rt_single_with_year title link_text u ry r y :
  y <> 0 ->
  Py.contains "/tv/" u = false ->
  Py.int_of_str ry = Some r ->
  Z.abs (r - y) <= 2 ->
  RottenTomatoes._search_via_selenium title (Some y)
    (Return [ {| RottenTomatoes.info_name := Some (link_text, Some u);
                 RottenTomatoes.startyear := Some ry |} ])
  = Return (if Qle_bool (7 # 10)
                 (RottenTomatoes._calculate_match_score title (Py.strip link_text)
                  + (1 # 10))%Q
            then Some (RottenTomatoes.slug_of_url u) else None).
Proof.
  intros Hy Htv Hint Hdiff.
  unfold RottenTomatoes._search_via_selenium, RottenTomatoes._search_via_selenium_body,
    try_except, bind.
  cbn [fold_left]. unfold RottenTomatoes.consider.
  cbn [RottenTomatoes.info_name RottenTomatoes.startyear].
  rewrite Htv, andb_false_r.
  assert (Htruthy : Py.truthy_opt_int (Some y) = true).
  { simpl. apply negb_true_iff. now apply Z.eqb_neq. }
  rewrite Htruthy, (int_of_str_truthy _ _ Hint), Hint.
  apply Z.leb_le in Hdiff. rewrite Hdiff. cbn [andb].
  set (s := (RottenTomatoes._calculate_match_score title (Py.strip link_text) + (1 # 10))%Q).
  destruct (Qle_bool s 0) eqn:E0; cbn [negb].
  - now rewrite (Qle_bool_trans_false (7 # 10) s 0 E0 eq_refl).
  - now destruct (Qle_bool (7 # 10) s).
Qed.

Lemma rt_single_without_year title link_text u ry :
  Py.contains "/tv/" u = false ->
  RottenTomatoes._search_via_selenium title None
    (Return [ {| RottenTomatoes.info_name := Some (link_text, Some u);
                 RottenTomatoes.startyear := ry |} ])
  = Return (if Qle_bool (7 # 10)
                 (RottenTomatoes._calculate_match_score title (Py.strip link_text))
            then Some (RottenTomatoes.slug_of_url u) else None).
Proof.
  intros Htv.
  unfold RottenTomatoes._search_via_selenium, RottenTomatoes._search_via_selenium_body,
    try_except, bind.
  cbn [fold_left]. unfold RottenTomatoes.consider.
  cbn [RottenTomatoes.info_name RottenTomatoes.startyear].
  rewrite Htv, andb_false_r. cbn [Py.truthy_opt_int andb].
  set (s := RottenTomatoes._calculate_match_score title (Py.strip link_text)).
  destruct (Qle_bool s 0) eqn:E0; cbn [negb].
  - now rewrite (Qle_bool_trans_false (7 # 10) s 0 E0 eq_refl).
  - now destruct (Qle_bool (7 # 10) s).
Qed.

Lemma imdb_single token_sort_ratio title year threshold result :
  0 < threshold ->
  IMDb.year_matches year result = true ->
  IMDb.search_movie_fuzzy token_sort_ratio true title year threshold (Return [result])
  = if threshold <=? IMDb.fuzzy_score token_sort_ratio (IMDb.normalize_title title) result
    then Some (IMDb.result_imdb_id result) else None.
Proof.
  intros Hth Hm. unfold IMDb.search_movie_fuzzy. cbn [negb firstn fold_left].
  unfold IMDb.consider. rewrite Hm. cbn [andb].
  set (sc := IMDb.fuzzy_score token_sort_ratio (IMDb.normalize_title title) result).
  destruct (0 <? sc) eqn:E0.
  - reflexivity.
  - apply Z.ltb_ge in E0.
    destruct (threshold <=? sc) eqn:Et; [ apply Z.leb_le in Et; lia | reflexivity ].
Qed.

(** C4, as the code has it.  With a single candidate that is not a TV
    entry: the Rotten Tomatoes search adds 0.1 to the score of a candidate
    whose year is within 2 of the query's and accepts it when the sum
    reaches 0.7, so a candidate scoring 0.72 is returned and so is one
    scoring 0.65; without a year in the query the score itself must reach
    0.7, and when it does not [search_movie] returns the generated slug, not
    [None].  The IMDb fuzzy search accepts a candidate with a matching year
    when its score (0 to 100) reaches the threshold, which is 60 by
    default. *)
Theorem fuzzy_acceptance_thresholds :
  (forall (title link_text u ry : string) (r y : Z),
     y <> 0 ->
     Py.contains "/tv/" u = false ->
     Py.int_of_str ry = Some r ->
     Z.abs (r - y) <= 2 ->
     RottenTomatoes._search_via_selenium title (Some y)
       (Return [ {| RottenTomatoes.info_name := Some (link_text, Some u);
                    RottenTomatoes.startyear := Some ry |} ])
     = Return (if Qle_bool (7 # 10)
                    (RottenTomatoes._calculate_match_score title (Py.strip link_text)
                     + (1 # 10))%Q
               then Some (RottenTomatoes.slug_of_url u) else None))
  /\ (forall (title link_text u : string) (ry : option string)
             (page2 : outcome (list RottenTomatoes.MediaRow)),
        Py.contains "/tv/" u = false ->
        let page1 :=
          Return [ {| RottenTomatoes.info_name := Some (link_text, Some u);
                      RottenTomatoes.startyear := ry |} ] in
        RottenTomatoes._search_via_selenium title None page1
        = Return (if Qle_bool (7 # 10)
                       (RottenTomatoes._calculate_match_score title (Py.strip link_text))
                  then Some (RottenTomatoes.slug_of_url u) else None)
        /\ (Qle_bool (7 # 10)
              (RottenTomatoes._calculate_match_score title (Py.strip link_text)) = false ->
            RottenTomatoes.search_movie title None page1 page2
            = Return (Some (RottenTomatoes._generate_slug title None))))
  /\ (forall (token_sort_ratio : string -> string -> Z) (title : string)
             (year : option Z) (threshold : Z) (result : IMDb.SearchResult),
        0 < threshold ->
        IMDb.year_matches year result = true ->
        IMDb.search_movie_fuzzy token_sort_ratio true title year threshold
          (Return [result])
        = if threshold
             <=? IMDb.fuzzy_score token_sort_ratio (IMDb.normalize_title title) result
          then Some (IMDb.result_imdb_id result) else None)
  /\ IMDb.default_threshold = 60.
Proof.
  split; [ | split; [ | split ] ].
  - intros title link_text u ry r y Hy Htv Hint Hdiff.
    now apply (rt_single_with_year title link_text u ry r y).
  - intros title link_text u ry page2 Htv page1. subst page1.
    pose proof (rt_single_without_year title link_text u ry Htv) as Hs.
    split; [ exact Hs | ].
    intro Hlow. unfold RottenTomatoes.search_movie. rewrite Hs, Hlow. reflexivity.
  - intros. now apply imdb_single.
  - reflexivity.
Qed.

End Thresholds.

(** C4 at a concrete input: "Kung Fu Panda" (2024) against the single
    candidate "Kung Fu Panda: Paws" of 2024, which scores 0.65. *)
Lemma fuzzy_acceptance_thresholds_witness :
  RottenTomatoes._search_via_selenium "Kung Fu Panda" (Some 2024) Sample.panda_page
  = Return (if Qle_bool (7 # 10)
                 (RottenTomatoes._calculate_match_score "Kung Fu Panda"
                    (Py.strip "Kung Fu Panda: Paws") + (1 # 10))%Q
            then Some (RottenTomatoes.slug_of_url
                         "https://www.rottentomatoes.com/m/kung_fu_panda_paws")
            else None)
  /\ RottenTomatoes._search_via_selenium "Kung Fu Panda" (Some 2024) Sample.panda_page
     = Return (Some "kung_fu_panda_paws").
Proof.
  destruct fuzzy_acceptance_thresholds as [H _].
  split; [ | vm_compute; reflexivity ].
  apply (H "Kung Fu Panda" "Kung Fu Panda: Paws"
           "https://www.rottentomatoes.com/m/kung_fu_panda_paws" "2024" 2024 2024).
  - lia.
  - reflexivity.
  - reflexivity.
  - lia.
Defined.

(** C4, counterexample.  A candidate scoring 0.65 with the query's year is
    returned by the Rotten Tomatoes search; without a year in the query the
    search stage rejects it and [search_movie] still returns a slug; and the
    IMDb fallback, with its default threshold, returns a candidate scoring
    65. *)
Lemma candidate_scoring_065_is_returned :
  (RottenTomatoes._calculate_match_score "Kung Fu Panda" "Kung Fu Panda: Paws"
   == 13 # 20)%Q
  /\ RottenTomatoes.search_movie "Kung Fu Panda" (Some 2024)
       Sample.panda_page Sample.panda_page
     = Return (Some "kung_fu_panda_paws")
  /\ RottenTomatoes._search_via_selenium "Kung Fu Panda" None Sample.panda_page
     = Return None
  /\ RottenTomatoes.search_movie "Kung Fu Panda" None
       Sample.panda_page Sample.panda_page
     = Return (Some "kung_fu_panda")
  /\ IMDb.search_movie_fallback Sample.ratio_65 true "Dune" (Some 2021)
       (Return [Sample.dune_result])
     = Some "tt1160419".
Proof. repeat split; vm_compute; reflexivity. Qed.

(** The specification's example for the accepted case: "Deadpool" (2018)
    against the single candidate "Deadpool 2" of 2018, which scores 0.72. *)
Example candidate_scoring_072_is_returned :
  (RottenTomatoes._calculate_match_score "Deadpool" "Deadpool 2" == 18 # 25)%Q
  /\ RottenTomatoes._search_via_selenium "Deadpool" (Some 2018)
       (Return [Sample.media_row "Deadpool 2"
                  "https://www.rottentomatoes.com/m/deadpool_2" "2018"])
     = Return (Some "deadpool_2").
Proof. split; vm_compute; reflexivity. Qed.

(** A year attribute that [int()] cannot read earns no bonus: the candidate
    scoring 0.65 is then rejected. *)
Example unreadable_year_earns_no_bonus :
  RottenTomatoes._search_via_selenium "Kung Fu Panda" (Some 2024)
    (Return [Sample.media_row "Kung Fu Panda: Paws"
               "https://www.rottentomatoes.com/m/kung_fu_panda_paws"
               (String (ascii_of_nat 28) "2024")])
  = Return None.
Proof. vm_compute. reflexivity. Qed.

(** ** The minimum text length *)

Section MinimumLength.

Import Spec.

Lemma truthy_of_length s n :
  (n <= String.length s)%nat -> (0 < n)%nat -> Py.truthy_str s = true.
Proof. destruct s; simpl; [ lia | reflexivity ]. Qed.

Lemma imdb_length_rule container imdb_id body :
  IMDb.extracted_text container = Some body ->
  ((String.length body < 20)%nat -> IMDb._parse_review container imdb_id = None)
  /\ ((20 <= String.length body)%nat ->
      (forall e, IMDb.found_votes container = Raise e ->
                 IMDb._parse_review container imdb_id = None)
      /\ (forall votes, IMDb.found_votes container = Return votes ->
            exists review,
              IMDb._parse_review container imdb_id = Some review /\
              text review = IMDb.strip_rating_prefix body)).
Proof.
  intro Hbody. unfold IMDb._parse_review. rewrite Hbody. split; intro Hlen.
  - assert (E : (Z.of_nat (String.length body) <? 20) = true) by (apply Z.ltb_lt; lia).
    now rewrite E, orb_true_r.
  - assert (E : (Z.of_nat (String.length body) <? 20) = false) by (apply Z.ltb_ge; lia).
    rewrite E, (truthy_of_length body 20 Hlen) by lia. cbn [negb orb].
    split.
    + intros e ->. reflexivity.
    + intros [helpful not_helpful] ->. eexists. split; reflexivity.
Qed.

Lemma rt_length_rule secret has_driver parse_timestamp card endpoint_type body :
  RottenTomatoes.card_text has_driver card = Return (Some body) ->
  ((String.length body < 10)%nat ->
   RottenTomatoes._parse_review_card_selenium secret has_driver parse_timestamp
     card endpoint_type = None)
  /\ ((10 <= String.length body)%nat ->
      (forall e, RottenTomatoes.review_date_of parse_timestamp card = Raise e ->
                 RottenTomatoes._parse_review_card_selenium secret has_driver
                   parse_timestamp card endpoint_type = None)
      /\ (forall date, RottenTomatoes.review_date_of parse_timestamp card = Return date ->
            exists review,
              RottenTomatoes._parse_review_card_selenium secret has_driver
                parse_timestamp card endpoint_type = Some review /\
              text review = body /\
              review_date review = date /\
              review_type review = Some (RottenTomatoes.review_type_of endpoint_type))).
Proof.
  intro Hbody.
  unfold RottenTomatoes._parse_review_card_selenium,
    RottenTomatoes._parse_review_card_selenium_body.
  rewrite Hbody. cbn [bind]. unfold RottenTomatoes.len. split; intro Hlen.
  - assert (E : (Z.of_nat (String.length body) <? 10) = true) by (apply Z.ltb_lt; lia).
    now rewrite E, orb_true_r.
  - assert (E : (Z.of_nat (String.length body) <? 10) = false) by (apply Z.ltb_ge; lia).
    rewrite E, (truthy_of_length body 10 Hlen) by lia. cbn [negb orb].
    split.
    + intros e ->. reflexivity.
    + intros date ->. cbn [bind]. eexists. repeat split.
Qed.

(** C8, as the code has it.  On ASCII text, where a character is a byte:
    the IMDb parser discards a container whose extracted body text has fewer
    than 20 characters; with 20 or more it keeps the container, unless
    reading the vote counts raises, which discards it as well.  The Rotten
    Tomatoes parser discards a card whose text has fewer than 10 characters;
    with 10 or more it keeps the card, unless parsing the timestamp raises.
    Both bounds are constants of the code. *)
Theorem minimum_text_length :
  (forall (container : IMDb.Container) (imdb_id body : string),
     IMDb.extracted_text container = Some body ->
     Py.is_ascii body = true ->
     ((String.length body < 20)%nat -> IMDb._parse_review container imdb_id = None)
     /\ ((20 <= String.length body)%nat ->
         (forall e, IMDb.found_votes container = Raise e ->
                    IMDb._parse_review container imdb_id = None)
         /\ (forall votes, IMDb.found_votes container = Return votes ->
               exists review,
                 IMDb._parse_review container imdb_id = Some review /\
                 text review = IMDb.strip_rating_prefix body)))
  /\ (forall (secret : PyHash.HashSecret) (has_driver : bool)
             (parse_timestamp : string -> outcome (option Py.datetime))
             (card : RottenTomatoes.ReviewCard) (endpoint_type body : string),
        RottenTomatoes.card_text has_driver card = Return (Some body) ->
        Py.is_ascii body = true ->
        ((String.length body < 10)%nat ->
         RottenTomatoes._parse_review_card_selenium secret has_driver parse_timestamp
           card endpoint_type = None)
        /\ ((10 <= String.length body)%nat ->
            (forall e,
               RottenTomatoes.review_date_of parse_timestamp card = Raise e ->
               RottenTomatoes._parse_review_card_selenium secret has_driver
                 parse_timestamp card endpoint_type = None)
            /\ (forall date,
                  RottenTomatoes.review_date_of parse_timestamp card = Return date ->
                  exists review,
                    RottenTomatoes._parse_review_card_selenium secret has_driver
                      parse_timestamp card endpoint_type = Some review /\
                    text review = body /\
                    review_date review = date /\
                    review_type review
                    = Some (RottenTomatoes.review_type_of endpoint_type)))).
Proof.
  split.
  - intros container imdb_id body Hbody _. now apply imdb_length_rule.
  - intros secret has_driver parse_timestamp card endpoint_type body Hbody _.
    now apply rt_length_rule.
Qed.

End MinimumLength.

(** C8 at concrete inputs: the IMDb parser on a body of 15 characters and on
    one of 20. *)
Lemma minimum_text_length_witness :
  IMDb._parse_review (Sample.imdb_container Sample.text_15) "tt0000001" = None
  /\ exists review,
       IMDb._parse_review (Sample.imdb_container Sample.text_20) "tt0000001"
       = Some review /\
       text review = IMDb.strip_rating_prefix Sample.text_20.
Proof.
  destruct minimum_text_length as [H _]. split.
  - apply (H (Sample.imdb_container Sample.text_15) "tt0000001" Sample.text_15).
    + reflexivity.
    + reflexivity.
    + vm_compute. lia.
  - destruct (H (Sample.imdb_container Sample.text_20) "tt0000001" Sample.text_20)
      as [_ Hkept].
    + reflexivity.
    + reflexivity.
    + destruct Hkept as [_ Hvotes]; [ vm_compute; lia | ].
      apply (Hvotes (3, 1)). reflexivity.
Defined.

(** C8, counterexample.  The Rotten Tomatoes parser keeps a card whose text
    has 15 characters. *)
Lemma rt_keeps_a_text_of_15_characters :
  String.length Sample.text_15 = 15%nat
  /\ RottenTomatoes.card_text true (Sample.rt_card Sample.text_15)
     = Return (Some Sample.text_15)
  /\ option_map text
       (RottenTomatoes._parse_review_card_selenium Sample.secret0 true
          Sample.no_timestamp (Sample.rt_card Sample.text_15) "all_critics")
     = Some Sample.text_15.
Proof. repeat split; vm_compute; reflexivity. Qed.

(** A text of 20 characters is not enough when a later field raises: a card
    whose timestamp cannot be turned into a date, and a container whose vote
    counts cannot be read, are discarded. *)
Example long_text_discarded_on_error :
  RottenTomatoes._parse_review_card_selenium Sample.secret0 true
    Sample.out_of_range (Sample.rt_card_dated Sample.text_20 "3000y") "all_critics"
  = None
  /\ IMDb._parse_review (Sample.imdb_container_bad_votes Sample.text_20) "tt0000001"
     = None.
Proof. split; vm_compute; reflexivity. Qed.

(** ** The fingerprint across runs *)

(** C6, evaluated.  The same review text under the secrets of two runs (the
    ones [PYTHONHASHSEED=0] and [PYTHONHASHSEED=42] give): the hashes differ,
    and so do the source identifiers built from them. *)
Lemma fingerprint_differs_between_runs :
  PyHash.hash Sample.secret0 "Great movie, loved it!" = 4566118231968314582
  /\ PyHash.hash Sample.secret42 "Great movie, loved it!" = 3705875633013458632
  /\ RottenTomatoes.make_source_id Sample.secret0 "all_critics" "Great movie, loved it!"
     = "rt_all_critics_4566118231968314582"
  /\ RottenTomatoes.make_source_id Sample.secret42 "all_critics" "Great movie, loved it!"
     = "rt_all_critics_3705875633013458632".
Proof. repeat split; vm_compute; reflexivity. Qed.

(** Within one run the fingerprint is a function of the text. *)
Lemma fingerprint_stable_within_a_run (secret : PyHash.HashSecret)
      (endpoint_type : string) (r1 r2 : Review) :
  text r1 = text r2 ->
  PyHash.hash secret (text r1) = PyHash.hash secret (text r2)
  /\ RottenTomatoes.make_source_id secret endpoint_type (text r1)
     = RottenTomatoes.make_source_id secret endpoint_type (text r2).
Proof. intros ->. split; reflexivity. Qed.

(** ** More on deduplication *)

Section DedupInvariants.

Import RottenTomatoes Spec Props.

Variable secret : PyHash.HashSecret.

Local Abbreviation fp r := (PyHash.hash secret (text r)).

Lemma seen_get_in seen h v : seen_get seen h = Some v -> In (h, v) seen.
Proof.
  induction seen as [ | [k w] seen IH ]; simpl; [ discriminate | ].
  destruct (k =? h) eqn:E.
  - apply Z.eqb_eq in E. subst k. intro H. injection H as <-. now left.
  - intro H. right. now apply IH.
Qed.

Lemma entries_from_step l seen r :
  In r l -> entries_from l seen -> entries_from l (dedup_step secret seen r).
Proof.
  intros Hin Hseen. unfold dedup_step.
  destruct (seen_get seen (fp r)) as [[r0 p0] | ].
  - destruct (p0 <? priority_of r); [ | exact Hseen ].
    intros k r' p' H. apply seen_set_in in H. destruct H as [H | H].
    + now apply (Hseen k).
    + injection H as _ <- <-. now split.
  - intros k r' p' H. apply in_app_or in H. destruct H as [H | [H | []]].
    + now apply (Hseen k).
    + injection H as _ <- <-. now split.
Qed.

Lemma entries_from_fold l : forall batch seen,
  (forall r, In r batch -> In r l) ->
  entries_from l seen ->
  entries_from l (fold_left (dedup_step secret) batch seen).
Proof.
  induction batch as [ | r batch IH ]; intros seen Hsub Hseen; simpl; [ exact Hseen | ].
  apply IH.
  - intros; apply Hsub; now right.
  - apply entries_from_step; [ apply Hsub; now left | exact Hseen ].
Qed.

(** The priority kept for a fingerprint never goes down. *)
Lemma keep_step_grows h kept r r0 p0 :
  kept = Some (r0, p0) ->
  exists r1 p1, keep_step secret h kept r = Some (r1, p1) /\ p0 <= p1.
Proof.
  intros ->. unfold keep_step.
  destruct (fp r =? h); [ | exists r0, p0; split; [ reflexivity | lia ] ].
  destruct (p0 <? priority_of r) eqn:E.
  - apply Z.ltb_lt in E. exists r, (priority_of r). split; [ reflexivity | lia ].
  - exists r0, p0. split; [ reflexivity | lia ].
Qed.

Lemma keep_fold_grows h l : forall kept r0 p0,
  kept = Some (r0, p0) ->
  exists r1 p1, fold_left (keep_step secret h) l kept = Some (r1, p1) /\ p0 <= p1.
Proof.
  induction l as [ | r l IH ]; intros kept r0 p0 Hk; simpl.
  - exists r0, p0. split; [ exact Hk | lia ].
  - destruct (keep_step_grows h kept r r0 p0 Hk) as (r1 & p1 & H1 & Hle1).
    destruct (IH _ r1 p1 H1) as (r2 & p2 & H2 & Hle2).
    exists r2, p2. split; [ exact H2 | lia ].
Qed.

(** After a review was met, the priority kept for its fingerprint is at
    least its own. *)
Lemma keep_fold_covers l : forall kept r,
  In r l ->
  exists r1 p1,
    fold_left (keep_step secret (fp r)) l kept = Some (r1, p1) /\ priority_of r <= p1.
Proof.
  induction l as [ | x l IH ]; intros kept r Hin; [ destruct Hin | ].
  destruct Hin as [-> | Hin]; [ | now apply IH ].
  simpl.
  assert (Hx : exists r0 p0, keep_step secret (fp r) kept r = Some (r0, p0)
                             /\ priority_of r <= p0).
  { unfold keep_step. rewrite Z.eqb_refl.
    destruct kept as [[r0 p0] | ].
    - destruct (p0 <? priority_of r) eqn:E.
      + exists r, (priority_of r). split; [ reflexivity | lia ].
      + apply Z.ltb_ge in E. exists r0, p0. now split.
    - exists r, (priority_of r). split; [ reflexivity | lia ]. }
  destruct Hx as (r0 & p0 & H0 & Hle0).
  destruct (keep_fold_grows (fp r) l _ r0 p0 H0) as (r1 & p1 & H1 & Hle1).
  exists r1, p1. split; [ exact H1 | lia ].
Qed.

Lemma well_keyed_nil : well_keyed secret [].
Proof. split; [ constructor | intros k r p [] ]. Qed.

Lemma entries_from_nil l : entries_from l [].
Proof. intros k r p []. Qed.

Lemma keys_are_fingerprints seen :
  well_keyed secret seen ->
  map (fun r => fp r) (map (fun entry => fst (snd entry)) seen) = map fst seen.
Proof.
  intros [_ Hk]. induction seen as [ | [k [r p]] seen IH ]; simpl; [ reflexivity | ].
  f_equal.
  - symmetry. apply (Hk k r p). now left.
  - apply IH. intros k' r' p' H. apply (Hk k' r' p'). now right.
Qed.

Lemma seen_get_of_in seen k v :
  NoDup (map fst seen) -> In (k, v) seen -> seen_get seen k = Some v.
Proof.
  induction seen as [ | [k' w] seen IH ]; simpl; intros Hnd Hin; [ destruct Hin | ].
  inversion Hnd as [ | x xs Hnot Hnd' ]; subst.
  destruct Hin as [Heq | Hin].
  - injection Heq as -> ->. now rewrite Z.eqb_refl.
  - destruct (k' =? k) eqn:E.
    + apply Z.eqb_eq in E. subst k'. exfalso. apply Hnot.
      apply in_map_iff. now exists (k, v).
    + now apply IH.
Qed.

(** The dictionary at the end of [scrape_reviews]. *)
Lemma merged_state (fetch : string -> list Review) (endpoints : option (list string)) :
  let l := processed fetch endpoints in
  let seen := fold_left (dedup_step secret) l [] in
  scrape_reviews secret fetch endpoints = map (fun entry => fst (snd entry)) seen
  /\ well_keyed secret seen
  /\ entries_from l seen.
Proof.
  cbv zeta. split; [ apply scrape_reviews_fold | split ].
  - apply fold_well_keyed, well_keyed_nil.
  - apply entries_from_fold; [ auto | apply entries_from_nil ].
Qed.

Lemma merged_output (fetch : string -> list Review) (endpoints : option (list string)) :
  NoDup (map (fun r => PyHash.hash secret (text r))
             (scrape_reviews secret fetch endpoints))
  /\ (forall r, In r (scrape_reviews secret fetch endpoints) ->
                In r (processed fetch endpoints)).
Proof.
  destruct (merged_state fetch endpoints) as (Hout & Hwk & Hent).
  rewrite Hout. split.
  - rewrite keys_are_fingerprints by exact Hwk. apply Hwk.
  - intros r Hin. apply in_map_iff in Hin. destruct Hin as ([k [r' p]] & Heq & Hin).
    simpl in Heq. subst r'. now apply (Hent k r p).
Qed.

(** X1.  The reviews [scrape_reviews] returns have pairwise different
    fingerprints, and each of them is one of the reviews the endpoints
    returned: the merge neither repeats a text nor makes up a review. *)
Theorem scrape_reviews_distinct_and_scraped
        (fetch : string -> list Review) (endpoints : option (list string)) :
  NoDup (map (fun r => PyHash.hash secret (text r))
             (scrape_reviews secret fetch endpoints))
  /\ (forall r, In r (scrape_reviews secret fetch endpoints) ->
                In r (processed fetch endpoints)).
Proof. apply merged_output. Qed.

(** X2.  No text is lost and the best category wins: a fingerprint occurs
    among the reviews returned exactly when it occurs among the reviews
    scraped, and the review returned for it has a priority at least that of
    every scraped review with the same fingerprint. *)
Theorem scrape_reviews_keeps_best
        (fetch : string -> list Review) (endpoints : option (list string)) :
  (forall h : Z,
     In h (map (fun r => PyHash.hash secret (text r))
               (scrape_reviews secret fetch endpoints))
     <-> In h (map (fun r => PyHash.hash secret (text r))
                   (processed fetch endpoints)))
  /\ (forall kept r,
        In kept (scrape_reviews secret fetch endpoints) ->
        In r (processed fetch endpoints) ->
        PyHash.hash secret (text r) = PyHash.hash secret (text kept) ->
        priority_of r <= priority_of kept).
Proof.
  destruct (merged_state fetch endpoints) as (Hout & Hwk & Hent).
  rewrite Hout.
  set (l := processed fetch endpoints) in *.
  set (seen := fold_left (dedup_step secret) l []) in *.
  assert (Hcover : forall r, In r l ->
            exists r1 p1, In (fp r, (r1, p1)) seen /\ priority_of r <= p1).
  { intros r Hin.
    destruct (keep_fold_covers l None r Hin) as (r1 & p1 & H1 & Hle).
    exists r1, p1. split; [ | exact Hle ].
    apply seen_get_in. unfold seen. now rewrite seen_get_fold. }
  split.
  - intro h. split; intro Hin.
    + apply in_map_iff in Hin. destruct Hin as (r & Hfp & Hin).
      apply in_map_iff in Hin. destruct Hin as ([k [r' p]] & Heq & Hin).
      simpl in Heq. subst r'. apply in_map_iff. exists r. split; [ exact Hfp | ].
      now apply (Hent k r p).
    + apply in_map_iff in Hin. destruct Hin as (r & Hfp & Hin).
      destruct (Hcover r Hin) as (r1 & p1 & Hin1 & _).
      apply in_map_iff. exists r1. split.
      * destruct Hwk as [_ Hk]. rewrite <- (Hk _ _ _ Hin1). exact Hfp.
      * apply in_map_iff. now exists (fp r, (r1, p1)).
  - intros kept r Hkept Hin Hfp.
    apply in_map_iff in Hkept. destruct Hkept as ([k [kept' p]] & Heq & Hin').
    simpl in Heq. subst kept'.
    destruct (Hent k kept p Hin') as [_ Hp].
    destruct Hwk as [Hnd Hk].
    pose proof (Hk k kept p Hin') as Hkey.
    destruct (Hcover r Hin) as (r1 & p1 & Hin1 & Hle).
    rewrite Hfp, <- Hkey in Hin1.
    pose proof (seen_get_of_in seen k _ Hnd Hin') as G1.
    pose proof (seen_get_of_in seen k _ Hnd Hin1) as G2.
    rewrite G1 in G2. injection G2 as _ <-. lia.
Qed.

(** Meeting again a review already covered changes nothing. *)
Lemma dedup_step_covered seen r r1 p1 :
  seen_get seen (fp r) = Some (r1, p1) -> priority_of r <= p1 ->
  dedup_step secret seen r = seen.
Proof.
  intros Hg Hle. unfold dedup_step. rewrite Hg.
  destruct (p1 <? priority_of r) eqn:E; [ apply Z.ltb_lt in E; lia | reflexivity ].
Qed.

Lemma fold_covered batch : forall seen,
  (forall r, In r batch ->
             exists r1 p1, seen_get seen (fp r) = Some (r1, p1) /\ priority_of r <= p1) ->
  fold_left (dedup_step secret) batch seen = seen.
Proof.
  induction batch as [ | r batch IH ]; intros seen Hcov; simpl; [ reflexivity | ].
  destruct (Hcov r (or_introl eq_refl)) as (r1 & p1 & Hg & Hle).
  rewrite (dedup_step_covered seen r r1 p1 Hg Hle).
  apply IH. intros; apply Hcov; now right.
Qed.

Lemma processed_app (fetch : string -> list Review) keys1 keys2 :
  flat_map (fun key => if dict_mem ENDPOINTS key then fetch key else [])
           (keys1 ++ keys2)%list
  = (flat_map (fun key => if dict_mem ENDPOINTS key then fetch key else []) keys1
     ++ flat_map (fun key => if dict_mem ENDPOINTS key then fetch key else []) keys2)%list.
Proof. apply flat_map_app. Qed.

(** X3.  Merging is idempotent: scraping the same endpoints a second time in
    the same call, with the same batches, returns the same list of reviews
    as scraping them once. *)
Theorem scrape_reviews_idempotent (fetch : string -> list Review) (keys : list string) :
  scrape_reviews secret fetch (Some (keys ++ keys)%list)
  = scrape_reviews secret fetch (Some keys).
Proof.
  destruct keys as [ | key keys ]; [ reflexivity | ].
  rewrite !scrape_reviews_fold. f_equal.
  unfold processed.
  change (effective_endpoints (Some ((key :: keys) ++ key :: keys)%list))
    with ((key :: keys) ++ key :: keys)%list.
  change (effective_endpoints (Some (key :: keys))) with (key :: keys).
  rewrite processed_app, fold_left_app.
  set (l := flat_map (fun key0 => if dict_mem ENDPOINTS key0 then fetch key0 else [])
                     (key :: keys)).
  apply fold_covered. intros r Hin.
  destruct (keep_fold_covers l None r Hin) as (r1 & p1 & H1 & Hle).
  exists r1, p1. split; [ | exact Hle ].
  now rewrite seen_get_fold.
Qed.

End DedupInvariants.

(** ** More on the rating methods *)

Section RatingEdges.

Import Models Spec.

Lemma get_best_rating_cases (self : Movie) (now : Py.datetime) :
  (fresh self now = true /\ get_best_rating self now = Return (imdb_rating self))
  \/ (fresh self now = false /\
      exists tmdb imdb,
        tmdb_rating self = Some tmdb /\ imdb_rating self = Some imdb /\
        ~ (tmdb == 0)%Q /\ ~ (imdb == 0)%Q /\
        get_best_rating self now
        = if Py.or_int (tmdb_vote_count self) 1 + Py.or_int (imdb_vote_count self) 1 =? 0
          then Raise ZeroDivisionError
          else Return (Some (Py.round2 (weighted_average tmdb imdb
                                          (Py.or_int (tmdb_vote_count self) 1)
                                          (Py.or_int (imdb_vote_count self) 1)))))
  \/ (fresh self now = false /\
      get_best_rating self now = Return (Py.or_float (imdb_rating self) (tmdb_rating self))
      /\ (Py.or_float (imdb_rating self) (tmdb_rating self) = imdb_rating self
          \/ Py.or_float (imdb_rating self) (tmdb_rating self) = tmdb_rating self)).
Proof.
  unfold get_best_rating.
  destruct (fresh self now); [ left; now split | right ].
  assert (Hor : Py.or_float (imdb_rating self) (tmdb_rating self) = imdb_rating self
                \/ Py.or_float (imdb_rating self) (tmdb_rating self) = tmdb_rating self).
  { unfold Py.or_float. destruct (Py.truthy_opt_float (imdb_rating self)); auto. }
  destruct (tmdb_rating self) as [tmdb | ] eqn:Et;
    [ | right; cbn [Py.truthy_opt_float andb]; repeat split; auto ].
  destruct (imdb_rating self) as [imdb | ] eqn:Ei;
    [ | right; cbn [Py.truthy_opt_float andb]; rewrite andb_false_r;
        repeat split; auto ].
  destruct (Py.truthy_opt_float (Some tmdb)) eqn:Tt;
    [ | right; cbn [andb]; repeat split; auto ].
  destruct (Py.truthy_opt_float (Some imdb)) eqn:Ti;
    [ | right; cbn [andb]; repeat split; auto ].
  left. split; [ reflexivity | ]. exists tmdb, imdb. cbn [andb].
  unfold Py.truthy_opt_float in Tt, Ti.
  apply negb_true_iff in Tt. apply negb_true_iff in Ti.
  repeat split; auto.
  - intro H. apply Qeq_bool_iff in H. congruence.
  - intro H. apply Qeq_bool_iff in H. congruence.
Qed.

(** X4.  With vote counts that are not negative [get_best_rating] and
    [get_rating_metadata] always return; the only exception they can raise
    is [ZeroDivisionError], on the weighted path when the two weights cancel
    (which takes a negative vote count). *)
Theorem rating_methods_return (self : Movie) (now1 now2 : Py.datetime) :
  ((forall v, tmdb_vote_count self = Some v -> 0 <= v) ->
   (forall v, imdb_vote_count self = Some v -> 0 <= v) ->
   exists r m,
     get_best_rating self now1 = Return r /\
     get_rating_metadata self now1 now2 = Return m /\
     recommended_rating m = r)
  /\ (forall e, get_best_rating self now1 = Raise e ->
                e = ZeroDivisionError /\
                fresh self now1 = false /\
                Py.or_int (tmdb_vote_count self) 1
                + Py.or_int (imdb_vote_count self) 1 = 0).
Proof.
  split.
  - intros Hv1 Hv2.
    pose proof (or_int_positive _ Hv1). pose proof (or_int_positive _ Hv2).
    assert (Hr : exists r, get_best_rating self now1 = Return r).
    { destruct (get_best_rating_cases self now1)
        as [[_ H1] | [(_ & t & i & _ & _ & _ & _ & H2) | (_ & H3 & _)]]; eauto.
      rewrite H2.
      destruct (Py.or_int (tmdb_vote_count self) 1
                + Py.or_int (imdb_vote_count self) 1 =? 0) eqn:E;
        [ apply Z.eqb_eq in E; lia | eauto ]. }
    destruct Hr as [r Hr]. exists r. unfold get_rating_metadata. rewrite Hr.
    cbn [bind].
    destruct (match tmdb_rating self with
              | Some t =>
                  match imdb_rating self with
                  | Some i =>
                      if Py.truthy_opt_float (Some t) && Py.truthy_opt_float (Some i)
                      then (Some (Py.round2 (Qabs (t - i))),
                            Some (if Qle_bool (Py.round2 (Qabs (t - i))) 1
                                  then "Ratings are similar"
                                  else "Large difference - investigate"))
                      else (None, None)
                  | None => (None, None)
                  end
              | None => (None, None)
              end) as [d n] eqn:E.
    eexists. repeat split.
  - intros e He.
    destruct (get_best_rating_cases self now1)
      as [[_ H1] | [(Hf & t & i & _ & _ & _ & _ & H2) | (_ & H3 & _)]];
      try congruence.
    rewrite H2 in He.
    destruct (Py.or_int (tmdb_vote_count self) 1
              + Py.or_int (imdb_vote_count self) 1 =? 0) eqn:E; [ | discriminate ].
    apply Z.eqb_eq in E. injection He as <-. auto.
Qed.

Lemma hundredth_Z (n : Z) : hundredth (inject_Z n).
Proof. exists (100 * n). rewrite inject_Z_mult. field. Qed.

(** X5.  The recommended rating stays on the scale: when the stored ratings
    lie between 0 and 10 and the vote counts are not negative, so does every
    rating [get_best_rating] returns. *)
Theorem recommended_on_scale (self : Movie) (now : Py.datetime) (r : Q) :
  (forall q, tmdb_rating self = Some q -> (0 <= q /\ q <= 10)%Q) ->
  (forall q, imdb_rating self = Some q -> (0 <= q /\ q <= 10)%Q) ->
  (forall v, tmdb_vote_count self = Some v -> 0 <= v) ->
  (forall v, imdb_vote_count self = Some v -> 0 <= v) ->
  get_best_rating self now = Return (Some r) ->
  (0 <= r /\ r <= 10)%Q.
Proof.
  intros Ht Hi Hv1 Hv2 Hr.
  destruct (get_best_rating_cases self now)
    as [[_ H1] | [(_ & t & i & Et & Ei & _ & _ & H2) | (_ & H3 & Hor)]].
  - rewrite H1 in Hr. injection Hr as Hr. now apply Hi.
  - pose proof (or_int_positive _ Hv1) as Hw1.
    pose proof (or_int_positive _ Hv2) as Hw2.
    rewrite H2 in Hr.
    destruct (Py.or_int (tmdb_vote_count self) 1
              + Py.or_int (imdb_vote_count self) 1 =? 0); [ discriminate | ].
    injection Hr as <-.
    destruct (weighted_average_between t i _ _ Hw1 Hw2) as [Hlo Hhi].
    destruct (Ht t Et) as [Ht0 Ht10]. destruct (Hi i Ei) as [Hi0 Hi10].
    split.
    + apply (round2_ge (inject_Z 0)); [ apply hundredth_Z | ].
      eapply Qle_trans; [ | exact Hlo ]. now apply Q.min_glb.
    + apply (round2_le (inject_Z 10)); [ apply hundredth_Z | ].
      eapply Qle_trans; [ exact Hhi | ]. now apply Q.max_lub.
  - rewrite H3 in Hr. injection Hr as Hr.
    destruct Hor as [Hor | Hor]; rewrite Hor in Hr; [ now apply Hi | now apply Ht ].
Qed.

(** X6.  The freshness window: Strategy 1 applies exactly when the IMDb
    rating is stored and not zero and the clock reads less than seven days
    (in microseconds) past the scrape time; a scrape time in the future
    counts as fresh. *)
Theorem fresh_window (self : Movie) (now : Py.datetime) :
  fresh self now = true
  <-> (Py.truthy_opt_float (imdb_rating self) = true /\
       exists scraped, scraped_at self = Some scraped /\
                       now - scraped < 7 * Py.microseconds_per_day).
Proof.
  unfold fresh, days_old, Py.timedelta_days.
  assert (Hd : 0 < Py.microseconds_per_day) by reflexivity.
  split.
  - intro H. apply andb_true_iff in H. destruct H as [H1 H2].
    split; [ exact H1 | ].
    destruct (scraped_at self) as [scraped | ]; [ | discriminate ].
    exists scraped. split; [ reflexivity | ].
    apply Z.ltb_lt in H2.
    destruct (Z_lt_le_dec (now - scraped) (7 * Py.microseconds_per_day)) as [Hlt | Hge];
      [ exact Hlt | ].
    rewrite Z.mul_comm in Hge.
    apply (Z.div_le_lower_bound _ _ _ Hd) in Hge. lia.
  - intros (H1 & scraped & Hs & Hlt). rewrite H1, Hs. cbn [andb].
    apply Z.ltb_lt. apply Z.div_lt_upper_bound; lia.
Qed.

End RatingEdges.

(** X4 at a concrete input. *)
Lemma rating_methods_return_witness :
  exists r m,
    Models.get_best_rating
      (Sample.movie (Some (7 # 1)) (Some 1000) (Some (8 # 1)) None None)
      (Sample.day 100) = Return r /\
    Models.get_rating_metadata
      (Sample.movie (Some (7 # 1)) (Some 1000) (Some (8 # 1)) None None)
      (Sample.day 100) (Sample.day 100) = Return m /\
    Models.recommended_rating m = r.
Proof.
  destruct (rating_methods_return
              (Sample.movie (Some (7 # 1)) (Some 1000) (Some (8 # 1)) None None)
              (Sample.day 100) (Sample.day 100)) as [H _].
  apply H.
  - intros v E. injection E as <-. lia.
  - intros v E. discriminate.
Defined.

(** A negative vote count that cancels the other weight makes the weighted
    path divide by zero. *)
Example negative_votes_divide_by_zero :
  Models.get_best_rating
    (Sample.movie (Some (7 # 1)) (Some (-1)) (Some (8 # 1)) None None)
    (Sample.day 100) = Raise ZeroDivisionError.
Proof. reflexivity. Qed.

(** X5 at a concrete input. *)
Lemma recommended_on_scale_witness :
  (0 <= Py.round2 (Models.weighted_average (7 # 1) (8 # 1) 1000 500)
   /\ Py.round2 (Models.weighted_average (7 # 1) (8 # 1) 1000 500) <= 10)%Q.
Proof.
  apply (recommended_on_scale
           (Sample.movie (Some (7 # 1)) (Some 1000) (Some (8 # 1)) (Some 500) None)
           (Sample.day 100)).
  - intros q E. injection E as <-. split; vm_compute; discriminate.
  - intros q E. injection E as <-. split; vm_compute; discriminate.
  - intros v E. injection E as <-. lia.
  - intros v E. injection E as <-. lia.
  - reflexivity.
Defined.

(** ** The shape of slugs and normalized titles *)

Section CanonicalForms.

Import RottenTomatoes Spec Props.

Lemma all_chars_app p s t :
  all_chars p (s ++ t) = all_chars p s && all_chars p t.
Proof.
  induction s as [ | c s IH ]; simpl; [ reflexivity | ].
  now rewrite IH, andb_assoc.
Qed.

Lemma all_chars_filter p s : all_chars p (Py.filter_chars p s) = true.
Proof.
  induction s as [ | c s IH ]; simpl; [ reflexivity | ].
  destruct (p c) eqn:E; simpl; [ now rewrite E | exact IH ].
Qed.

Lemma all_chars_weaken (p q : ascii -> bool) s :
  (forall c, p c = true -> q c = true) ->
  all_chars p s = true -> all_chars q s = true.
Proof.
  intro Hpq. induction s as [ | c s IH ]; simpl; [ reflexivity | ].
  intro H. apply andb_true_iff in H. destruct H as [H1 H2].
  now rewrite (Hpq c H1), IH.
Qed.

Lemma slug_char_cases c :
  slug_char c = true -> Py.is_space c = false -> slug_letter c = true.
Proof.
  unfold slug_char, slug_letter. intros H Hs. rewrite Hs, orb_false_r in H. exact H.
Qed.

(** The words [split] cuts out of a string of slug characters are slug
    words. *)
Lemma split_go_slug_words s : forall cur,
  all_chars slug_char s = true ->
  all_chars slug_letter cur = true ->
  Forall slug_word (Py.split_go cur s).
Proof.
  induction s as [ | c s IH ]; intros cur Hs Hcur; simpl.
  - destruct (Py.is_empty cur) eqn:E; constructor; [ now split | constructor ].
  - simpl in Hs. apply andb_true_iff in Hs. destruct Hs as [Hc Hs].
    destruct (Py.is_space c) eqn:Esp.
    + destruct (Py.is_empty cur) eqn:E.
      * now apply IH.
      * constructor; [ now split | now apply IH ].
    + apply IH; [ exact Hs | ].
      rewrite all_chars_app, Hcur. simpl.
      now rewrite (slug_char_cases c Hc Esp).
Qed.

Lemma split_slug_words s :
  all_chars slug_char s = true -> Forall slug_word (Py.split s).
Proof. intro H. now apply split_go_slug_words. Qed.

Lemma all_chars_join (p : ascii -> bool) sep ws :
  all_chars p sep = true ->
  Forall (fun w => all_chars p w = true) ws ->
  all_chars p (Py.join sep ws) = true.
Proof.
  intros Hsep Hws. induction Hws as [ | w ws Hw Hws IH ]; [ reflexivity | ].
  destruct ws as [ | w' ws ]; [ exact Hw | ].
  change (Py.join sep (w :: w' :: ws)) with (w ++ sep ++ Py.join sep (w' :: ws)).
  now rewrite !all_chars_app, Hw, Hsep, IH.
Qed.

Lemma slug_letter_no_space c : slug_letter c = true -> Py.is_space c = false.
Proof. apply slug_letter_not_space. Qed.

Lemma append_empty_r (s : string) : s ++ "" = s.
Proof. induction s as [ | c s IH ]; simpl; [ reflexivity | now rewrite IH ]. Qed.

Lemma append_char_assoc (s : string) c t : (s ++ String c "") ++ t = s ++ String c t.
Proof. induction s as [ | d s IH ]; simpl; [ reflexivity | now rewrite IH ]. Qed.

Lemma split_go_over_word w : forall cur rest,
  all_chars slug_letter w = true ->
  Py.split_go cur (w ++ rest) = Py.split_go (cur ++ w) rest.
Proof.
  induction w as [ | c w IH ]; intros cur rest Hw; simpl.
  - now rewrite append_empty_r.
  - simpl in Hw. apply andb_true_iff in Hw. destruct Hw as [Hc Hw].
    rewrite (slug_letter_no_space c Hc), IH by exact Hw.
    now rewrite append_char_assoc.
Qed.

Lemma is_empty_app_l s t : Py.is_empty s = false -> Py.is_empty (s ++ t) = false.
Proof. destruct s; [ discriminate | reflexivity ]. Qed.

(** Splitting at blanks undoes joining slug words with single spaces. *)
Lemma split_join_words ws :
  Forall slug_word ws -> Py.split (Py.join " " ws) = ws.
Proof.
  unfold Py.split. induction 1 as [ | w ws [Hne Hw] Hws IH ]; [ reflexivity | ].
  destruct ws as [ | w' ws ].
  - simpl Py.join. rewrite <- (append_empty_r w) at 1.
    rewrite split_go_over_word by exact Hw. simpl. now rewrite Hne.
  - change (Py.join " " (w :: w' :: ws)) with (w ++ " " ++ Py.join " " (w' :: ws)).
    rewrite split_go_over_word by exact Hw.
    change (Py.split_go ("" ++ w) (" " ++ Py.join " " (w' :: ws)))
      with (if Py.is_empty w then Py.split_go "" (Py.join " " (w' :: ws))
            else w :: Py.split_go "" (Py.join " " (w' :: ws))).
    now rewrite Hne, IH.
Qed.

(** X8.  A generated slug is made of non-empty words of lower-case ASCII
    letters and digits joined by single underscores, so it holds no other
    character; a year that is not zero is appended after one more
    underscore. *)
Theorem generate_slug_shape (title : string) :
  (exists words,
     _generate_slug title None = Py.join "_" words /\ Forall slug_word words)
  /\ all_chars slug_or_underscore (_generate_slug title None) = true
  /\ (forall y, y <> 0 ->
        _generate_slug title (Some y)
        = _generate_slug title None ++ "_" ++ Py.str_of_int y).
Proof.
  assert (Hw : Forall slug_word
                 (Py.split (Py.filter_chars slug_char
                              (Py.replace "&" " and " (Py.lower title)))))
    by apply split_slug_words, all_chars_filter.
  split; [ | split ].
  - eexists. split; [ reflexivity | exact Hw ].
  - unfold _generate_slug. cbn [Py.truthy_opt_int].
    apply all_chars_join; [ reflexivity | ].
    eapply Forall_impl; [ | exact Hw ].
    intros w [_ H]. eapply all_chars_weaken; [ | exact H ].
    intros c Hc. unfold slug_or_underscore. now rewrite Hc.
  - intros y Hy. unfold _generate_slug. cbn [Py.truthy_opt_int].
    apply Z.eqb_neq in Hy. now rewrite Hy.
Qed.

(** X9.  A normalized title is made of non-empty words of lower-case ASCII
    letters and digits joined by single spaces, and splitting it at blanks
    gives these words back. *)
Theorem normalize_shape (title : string) :
  exists words,
    normalize title = Py.join " " words
    /\ Forall slug_word words
    /\ Py.split (normalize title) = words
    /\ all_chars slug_or_space (normalize title) = true.
Proof.
  unfold normalize.
  set (t := Py.filter_chars slug_char
              (fold_left strip_article ["the "; "a "; "an "] (Py.lower title))).
  assert (Hw : Forall slug_word (Py.split t))
    by apply split_slug_words, all_chars_filter.
  exists (Py.split t). repeat split.
  - exact Hw.
  - now apply split_join_words.
  - apply all_chars_join; [ reflexivity | ].
    eapply Forall_impl; [ | exact Hw ].
    intros w [_ H]. eapply all_chars_weaken; [ | exact H ].
    intros c Hc. unfold slug_or_space. now rewrite Hc.
Qed.

Lemma lower_app s t : Py.lower (s ++ t) = Py.lower s ++ Py.lower t.
Proof.
  unfold Py.lower. induction s as [ | c s IH ]; simpl; [ reflexivity | now rewrite IH ].
Qed.

Lemma prefix_app a s : prefix a (a ++ s) = true.
Proof.
  induction a as [ | c a IH ]; simpl; [ now destruct s | ].
  destruct (ascii_dec c c); [ exact IH | congruence ].
Qed.

Lemma drop_app a s : Py.drop (String.length a) (a ++ s) = s.
Proof. induction a as [ | c a IH ]; simpl; [ now destruct s | exact IH ]. Qed.

Lemma strip_article_here a s : strip_article (a ++ s) a = s.
Proof. unfold strip_article, Py.startswith. now rewrite prefix_app, drop_app. Qed.

(** X10.  A leading article does not count: for a title that does not itself
    begin with an article, the title with "the ", "a " or "an " in front (in
    any capitalization) scores 1.0 against the bare title, and the two
    match. *)
Theorem leading_article_ignored (article title : string) :
  In (Py.lower article) ["the "; "a "; "an "] ->
  Py.startswith (Py.lower title) "the " = false ->
  Py.startswith (Py.lower title) "a " = false ->
  Py.startswith (Py.lower title) "an " = false ->
  normalize (article ++ title) = normalize title
  /\ (_calculate_match_score (article ++ title) title == 1)%Q
  /\ _titles_match (article ++ title) title = true.
Proof.
  intros Hart H1 H2 H3.
  assert (Hn : normalize (article ++ title) = normalize title).
  { unfold normalize. rewrite lower_app. do 2 f_equal.
    set (lt := Py.lower title) in *.
    assert (Hbare : fold_left strip_article ["the "; "a "; "an "] lt = lt).
    { cbn [fold_left]. unfold strip_article. now rewrite H1, H2, H3. }
    rewrite Hbare.
    destruct Hart as [Ha | [Ha | [Ha | []]]]; rewrite <- Ha; cbn [fold_left].
    - rewrite (strip_article_here "the " lt).
      unfold strip_article. now rewrite H2, H3.
    - change (strip_article ("a " ++ lt) "the ") with ("a " ++ lt).
      rewrite (strip_article_here "a " lt).
      unfold strip_article. now rewrite H3.
    - change (strip_article ("an " ++ lt) "the ") with ("an " ++ lt).
      change (strip_article ("an " ++ lt) "a ") with ("an " ++ lt).
      now rewrite (strip_article_here "an " lt). }
  assert (Hs : (_calculate_match_score (article ++ title) title == 1)%Q).
  { unfold _calculate_match_score. rewrite Hn, String.eqb_refl. reflexivity. }
  repeat split; [ exact Hn | exact Hs | ].
  unfold _titles_match. apply Qle_bool_iff. rewrite Hs. discriminate.
Qed.

End CanonicalForms.

(** X10 at a concrete input. *)
Lemma leading_article_ignored_witness :
  RottenTomatoes.normalize ("The " ++ "Matrix") = RottenTomatoes.normalize "Matrix"
  /\ (RottenTomatoes._calculate_match_score ("The " ++ "Matrix") "Matrix" == 1)%Q
  /\ RottenTomatoes._titles_match ("The " ++ "Matrix") "Matrix" = true.
Proof.
  apply (leading_article_ignored "The " "Matrix").
  - left. reflexivity.
  - reflexivity.
  - reflexivity.
  - reflexivity.
Defined.

(** ** Endpoints and entry points of the Rotten Tomatoes scraper *)

Section EndpointScraping.

Import RottenTomatoes Spec Props Loops.

Variable secret : PyHash.HashSecret.
Variable parse_timestamp : string -> outcome (option Py.datetime).

Lemma review_type_priority endpoint_type :
  let p := dict_get PRIORITIES (review_type_of endpoint_type) 0 in
  1 <= p <= 4
  /\ (Py.contains "critic" endpoint_type = true -> 3 <= p)
  /\ (Py.contains "critic" endpoint_type = false -> p <= 2).
Proof.
  unfold review_type_of.
  destruct (Py.contains "critic" endpoint_type);
    [ destruct (Py.contains "top" endpoint_type)
    | destruct (Py.contains "verified" endpoint_type) ];
    cbv zeta; simpl dict_get; repeat split; intros; try lia; discriminate.
Qed.

Lemma parsed_card_ok has_driver card endpoint_type review :
  _parse_review_card_selenium secret has_driver parse_timestamp card endpoint_type
  = Some review ->
  source_id review = Some (make_source_id secret endpoint_type (text review))
  /\ parsed_review_ok endpoint_type review.
Proof.
  unfold _parse_review_card_selenium, _parse_review_card_selenium_body.
  destruct (card_text has_driver card) as [[body | ] | e]; cbn [bind];
    try discriminate.
  destruct (negb (Py.truthy_str body) || (len body <? 10)) eqn:E; [ discriminate | ].
  destruct (review_date_of parse_timestamp card) as [date | e]; cbn [bind];
    [ | discriminate ].
  intro H. injection H as <-.
  apply orb_false_iff in E. destruct E as [_ E]. apply Z.ltb_ge in E.
  destruct (review_type_priority endpoint_type) as (H1 & H2 & H3).
  split; [ reflexivity | ].
  unfold parsed_review_ok, priority_of. cbn [review_type text rating
                                              helpful_count not_helpful_count].
  repeat split; auto; lia.
Qed.

Lemma keep_parsed_length {A B : Type} (f : A -> option B) l :
  (List.length (keep_parsed f l) <= List.length l)%nat.
Proof.
  induction l as [ | x l IH ]; simpl; [ lia | ].
  destruct (f x); simpl; lia.
Qed.

Lemma keep_parsed_in {A B : Type} (f : A -> option B) l y :
  In y (keep_parsed f l) -> exists x, In x l /\ f x = Some y.
Proof.
  induction l as [ | x l IH ]; simpl; [ tauto | ].
  destruct (f x) as [z | ] eqn:E.
  - intros [<- | H]; [ exists x; auto | ].
    destruct (IH H) as (x' & Hin & Hf). exists x'. auto.
  - intro H. destruct (IH H) as (x' & Hin & Hf). exists x'. auto.
Qed.

Lemma slice_to_length {A : Type} (n : Z) (l : list A) :
  (List.length (slice_to n l) <= List.length l)%nat
  /\ (0 <= n -> Z.of_nat (List.length (slice_to n l)) <= n).
Proof.
  unfold slice_to. destruct (0 <=? n) eqn:E.
  - rewrite length_firstn. split; [ lia | ]. intros _. apply Z.leb_le in E. lia.
  - rewrite length_firstn. split; [ lia | ]. apply Z.leb_gt in E. lia.
Qed.

Lemma firstn_in {A : Type} (n : nat) :
  forall (l : list A) x, In x (firstn n l) -> In x l.
Proof.
  induction n as [ | n IH ]; intros [ | y l ] x; simpl; try tauto.
  intros [<- | H]; [ now left | right; now apply IH ].
Qed.

Lemma slice_to_in {A : Type} (n : Z) (l : list A) x :
  In x (slice_to n l) -> In x l.
Proof. unfold slice_to. destruct (0 <=? n); apply firstn_in. Qed.

Lemma scrape_endpoint_ok cards endpoint_type max_reviews :
  let reviews := _scrape_endpoint secret parse_timestamp (Return cards) endpoint_type
                   max_reviews in
  (List.length reviews <= List.length cards)%nat
  /\ (0 <= max_reviews -> Z.of_nat (List.length reviews) <= max_reviews)
  /\ (forall review, In review reviews ->
        exists card,
          In card cards
          /\ _parse_review_card_selenium secret true parse_timestamp card endpoint_type
             = Some review).
Proof.
  cbv zeta. unfold _scrape_endpoint.
  destruct (List.length cards =? 0)%nat;
    [ split; [ simpl; lia | split; [ simpl; lia | intros review [] ] ] | ].
  pose proof (keep_parsed_length
                (fun card => _parse_review_card_selenium secret true parse_timestamp
                               card endpoint_type)
                (slice_to max_reviews cards)) as Hk.
  destruct (slice_to_length max_reviews cards) as [Hs1 Hs2].
  split; [ lia | split ].
  - intro H0. specialize (Hs2 H0). lia.
  - intros review Hin. apply keep_parsed_in in Hin.
    destruct Hin as (card & Hcard & Hp).
    exists card. split; [ now apply slice_to_in in Hcard | exact Hp ].
Qed.

Lemma scrape_endpoint_bound page endpoint_type max_reviews :
  0 <= max_reviews ->
  Z.of_nat (List.length
              (_scrape_endpoint secret parse_timestamp page endpoint_type max_reviews))
  <= max_reviews.
Proof.
  intro H0. destruct page as [cards | e]; [ | simpl; lia ].
  now apply (scrape_endpoint_ok cards endpoint_type max_reviews).
Qed.

(** X11.  [_scrape_endpoint] answers every exception with an empty list.
    From a page of cards it returns at most as many reviews as there are
    cards, and at most [max_reviews] when that is not negative; each review
    is what [_parse_review_card_selenium] made of one of the cards, so its
    [source_id] is built from the endpoint and the hash of its text, its
    text has at least 10 characters, it has no rating and zero helpful
    counts, and it has the category of its endpoint: a critics endpoint
    gives priority 3 or 4, any other endpoint 1 or 2, never the default
    0. *)
Theorem scrape_endpoint_reviews
        (page : outcome (list ReviewCard)) (endpoint_type : string) (max_reviews : Z) :
  (forall e, page = Raise e ->
     _scrape_endpoint secret parse_timestamp page endpoint_type max_reviews = [])
  /\ (forall cards, page = Return cards ->
        (List.length (_scrape_endpoint secret parse_timestamp page endpoint_type
                        max_reviews) <= List.length cards)%nat
        /\ (0 <= max_reviews ->
            Z.of_nat (List.length
                        (_scrape_endpoint secret parse_timestamp page endpoint_type
                           max_reviews)) <= max_reviews)
        /\ (forall review,
              In review (_scrape_endpoint secret parse_timestamp page endpoint_type
                           max_reviews) ->
              exists card,
                In card cards
                /\ _parse_review_card_selenium secret true parse_timestamp card
                     endpoint_type = Some review
                /\ source_id review
                   = Some (make_source_id secret endpoint_type (text review))
                /\ parsed_review_ok endpoint_type review)).
Proof.
  split; [ intros e ->; reflexivity | ].
  intros cards ->.
  destruct (scrape_endpoint_ok cards endpoint_type max_reviews) as (Hlen & Hmax & Hin).
  split; [ exact Hlen | split; [ exact Hmax | ] ].
  intros review Hr. destruct (Hin review Hr) as (card & Hcard & Hp).
  exists card. split; [ exact Hcard | split; [ exact Hp | ] ].
  exact (parsed_card_ok true card endpoint_type review Hp).
Qed.

Lemma processed_pages_from pages max_reviews keys review :
  In review (flat_map
               (fun key =>
                  if dict_mem ENDPOINTS key
                  then _scrape_endpoint secret parse_timestamp (pages key) key max_reviews
                  else [])
               keys) ->
  exists endpoint_key cards card,
    dict_mem ENDPOINTS endpoint_key = true
    /\ pages endpoint_key = Return cards /\ In card cards
    /\ _parse_review_card_selenium secret true parse_timestamp card endpoint_key
       = Some review.
Proof.
  intro Hin. apply in_flat_map in Hin. destruct Hin as (key & _ & Hin).
  destruct (dict_mem ENDPOINTS key) eqn:E; [ | destruct Hin ].
  destruct (pages key) as [cards | e] eqn:Epage; [ | destruct Hin ].
  destruct (scrape_endpoint_ok cards key max_reviews) as (_ & _ & Hfrom).
  destruct (Hfrom review Hin) as (card & Hcard & Hp).
  exists key, cards, card. auto.
Qed.

Lemma processed_default_length pages max_reviews :
  0 <= max_reviews ->
  Z.of_nat (List.length
              (processed
                 (fun key =>
                    _scrape_endpoint secret parse_timestamp (pages key) key max_reviews)
                 None)) <= 4 * max_reviews.
Proof.
  intro H0. unfold processed, effective_endpoints.
  cbn [map fst ENDPOINTS flat_map].
  change (dict_mem ENDPOINTS "top_critics") with true.
  change (dict_mem ENDPOINTS "all_critics") with true.
  change (dict_mem ENDPOINTS "verified_audience") with true.
  change (dict_mem ENDPOINTS "all_audience") with true.
  cbv iota. rewrite !length_app. simpl List.length at 5.
  pose proof (scrape_endpoint_bound (pages "top_critics") "top_critics" max_reviews H0).
  pose proof (scrape_endpoint_bound (pages "all_critics") "all_critics" max_reviews H0).
  pose proof (scrape_endpoint_bound (pages "verified_audience") "verified_audience"
                max_reviews H0).
  pose proof (scrape_endpoint_bound (pages "all_audience") "all_audience"
                max_reviews H0).
  lia.
Qed.

Lemma merged_pages_ok pages max_reviews :
  let out := scrape_reviews_of_pages secret parse_timestamp pages max_reviews None in
  NoDup (map (fun r => PyHash.hash secret (text r)) out)
  /\ (0 <= max_reviews -> Z.of_nat (List.length out) <= 4 * max_reviews)
  /\ (forall review, In review out ->
        exists endpoint_key cards card,
          dict_mem ENDPOINTS endpoint_key = true
          /\ pages endpoint_key = Return cards /\ In card cards
          /\ _parse_review_card_selenium secret true parse_timestamp card endpoint_key
             = Some review).
Proof.
  cbv zeta. unfold scrape_reviews_of_pages.
  set (fetch := fun key =>
                  _scrape_endpoint secret parse_timestamp (pages key) key max_reviews).
  destruct (merged_output secret fetch None) as [Hnd Hsub].
  split; [ exact Hnd | split ].
  - intro H0.
    pose proof (processed_default_length pages max_reviews H0) as Hlen.
    assert (Hle : (List.length (RottenTomatoes.scrape_reviews secret fetch None)
                   <= List.length (processed fetch None))%nat).
    { apply NoDup_incl_length; [ | exact Hsub ].
      eapply NoDup_map_inv. exact Hnd. }
    fold fetch in Hlen. lia.
  - intros review Hin. apply Hsub in Hin.
    now apply (processed_pages_from pages max_reviews (effective_endpoints None)).
Qed.

(** X12.  Whatever the searches and the endpoint pages give,
    [scrape_movie_reviews] returns reviews with pairwise different
    fingerprints, at most four times [max_reviews] of them when that is not
    negative; and each review is what [_parse_review_card_selenium] made of
    a card on the page of one of the four endpoints of the slug that
    [search_movie] returned, so it has the category of that endpoint and a
    text of at least 10 characters. *)
Theorem scrape_movie_reviews_result
        (title : string) (year : option Z) (page1 page2 : outcome (list MediaRow))
        (pages : string -> string -> outcome (list ReviewCard)) (max_reviews : Z) :
  let out := Loops.scrape_movie_reviews secret parse_timestamp title year page1 page2
               pages max_reviews in
  NoDup (map (fun r => PyHash.hash secret (text r)) out)
  /\ (0 <= max_reviews -> Z.of_nat (List.length out) <= 4 * max_reviews)
  /\ (forall review, In review out ->
        exists slug endpoint_key cards card,
          search_movie title year page1 page2 = Return (Some slug)
          /\ dict_mem ENDPOINTS endpoint_key = true
          /\ pages slug endpoint_key = Return cards /\ In card cards
          /\ _parse_review_card_selenium secret true parse_timestamp card endpoint_key
             = Some review
          /\ parsed_review_ok endpoint_key review).
Proof.
  cbv zeta. unfold Loops.scrape_movie_reviews.
  assert (Hnil : forall P : Review -> Prop,
             NoDup (map (fun r => PyHash.hash secret (text r)) [])
             /\ (0 <= max_reviews -> Z.of_nat (List.length (@nil Review))
                                      <= 4 * max_reviews)
             /\ (forall review, In review [] -> P review)).
  { intro P. split; [ constructor | split; [ | intros review [] ] ].
    intro H0. change (Z.of_nat (List.length (@nil Review))) with 0. lia. }
  destruct (search_movie title year page1 page2) as [[slug | ] | e]; try apply Hnil.
  destruct (negb (Py.truthy_opt_str (Some slug))); [ apply Hnil | ].
  destruct (merged_pages_ok (pages slug) max_reviews) as (Hnd & Hlen & Hfrom).
  split; [ exact Hnd | split; [ exact Hlen | ] ].
  intros review Hin.
  destruct (Hfrom review Hin) as (key & cards & card & Hkey & Hpage & Hcard & Hp).
  exists slug, key, cards, card.
  split; [ reflexivity | split; [ exact Hkey | split; [ exact Hpage | ] ] ].
  split; [ exact Hcard | split; [ exact Hp | ] ].
  exact (proj2 (parsed_card_ok true card key review Hp)).
Qed.

End EndpointScraping.

(** ** Bounded loops *)

Section ScrapingLoops.

Import Spec Props Loops.

Lemma scroll_loop_bounds attempts_left observe target_count :
  forall last_height made,
    let n := scroll_loop attempts_left observe target_count last_height made in
    (made <= n <= made + attempts_left)%nat
    /\ ((0 < attempts_left)%nat -> (made < n)%nat)
    /\ (forall k, (made <= k)%nat -> (S k < n)%nat ->
          snd (observe k) < target_count
          /\ fst (observe k) <> height_before observe last_height made k)
    /\ ((n < made + attempts_left)%nat ->
        target_count <= snd (observe (n - 1)%nat)
        \/ fst (observe (n - 1)%nat) = height_before observe last_height made (n - 1)).
Proof.
  induction attempts_left as [ | a IH ]; intros last_height made; cbv zeta.
  - simpl. repeat split; try lia.
  - cbn [scroll_loop].
    destruct (observe made) as [new_height current_count] eqn:Eo.
    destruct (target_count <=? current_count) eqn:Et.
    + apply Z.leb_le in Et. repeat split; try lia.
      intros _. left. replace (S made - 1)%nat with made by lia.
      now rewrite Eo.
    + apply Z.leb_gt in Et.
      destruct (new_height =? last_height) eqn:Eh.
      * apply Z.eqb_eq in Eh. repeat split; try lia.
        intros _. right. replace (S made - 1)%nat with made by lia.
        unfold height_before. rewrite Nat.eqb_refl. now rewrite Eo.
      * apply Z.eqb_neq in Eh.
        specialize (IH new_height (S made)). cbv zeta in IH.
        destruct IH as (H1 & H2 & H3 & H4).
        assert (Hsame : forall k, (S made <= k)%nat ->
                  height_before observe new_height (S made) k
                  = height_before observe last_height made k).
        { intros k Hk. unfold height_before.
          replace (k =? made)%nat with false by (symmetry; apply Nat.eqb_neq; lia).
          destruct (k =? S made)%nat eqn:E; [ | reflexivity ].
          apply Nat.eqb_eq in E. subst k.
          replace (S made - 1)%nat with made by lia. now rewrite Eo. }
        repeat split; try lia.
        -- destruct (Nat.eq_dec k made) as [-> | Hne];
             [ now rewrite Eo | apply H3; lia ].
        -- destruct (Nat.eq_dec k made) as [-> | Hne].
           ++ unfold height_before. rewrite Nat.eqb_refl. now rewrite Eo.
           ++ rewrite <- Hsame by lia. apply H3; lia.
        -- intro Hlt.
           assert (Hn : (S made < scroll_loop a observe target_count new_height (S made))%nat).
           { apply H2. lia. }
           destruct H4 as [H4 | H4]; [ lia | now left | right ].
           rewrite <- Hsame by lia. exact H4.
Qed.

(** X13.  [_scroll_to_load_reviews] scrolls at least once and at most five
    times.  Every scroll but the last saw fewer cards than the target and a
    page that had grown; when it stops before the fifth scroll, the last
    scroll reached the target or left the page height unchanged. *)
Theorem scroll_is_bounded (observe : nat -> Z * Z) (target_count last_height : Z) :
  let n := _scroll_to_load_reviews observe target_count last_height in
  (1 <= n <= 5)%nat
  /\ (forall k, (S k < n)%nat ->
        snd (observe k) < target_count
        /\ fst (observe k) <> height_before observe last_height 0 k)
  /\ ((n < 5)%nat ->
      target_count <= snd (observe (n - 1)%nat)
      \/ fst (observe (n - 1)%nat) = height_before observe last_height 0 (n - 1)).
Proof.
  cbv zeta. unfold _scroll_to_load_reviews, max_scrolls.
  destruct (scroll_loop_bounds 5 observe target_count last_height 0)
    as (H1 & H2 & H3 & H4).
  cbv zeta in *. split; [ lia | split ].
  - intros k Hk. apply H3; lia.
  - intro Hlt. apply H4. lia.
Qed.

Lemma add_reviews_grows imdb_id max_reviews containers : forall reviews,
  exists added,
    add_reviews imdb_id max_reviews reviews containers = (reviews ++ added)%list
    /\ (forall r, In r added ->
          exists container, In container containers
                            /\ IMDb._parse_review container imdb_id = Some r)
    /\ (Z.of_nat (List.length (reviews ++ added)%list)
        <= Z.max max_reviews (Z.of_nat (List.length reviews))).
Proof.
  induction containers as [ | c containers IH ]; intro reviews; cbn [add_reviews].
  - exists []. rewrite app_nil_r. repeat split; [ intros r [] | lia ].
  - destruct (max_reviews <=? Z.of_nat (List.length reviews)) eqn:E.
    + exists []. rewrite app_nil_r. repeat split; [ intros r [] | lia ].
    + apply Z.leb_gt in E.
      destruct (IMDb._parse_review c imdb_id) as [review | ] eqn:Ep.
      * destruct (IH (reviews ++ [review])%list) as (added & Heq & Hfrom & Hlen).
        exists (review :: added). rewrite Heq, <- app_assoc. cbn [app].
        repeat split.
        -- intros r [<- | Hin]; [ exists c; split; [ now left | exact Ep ] | ].
           destruct (Hfrom r Hin) as (c' & Hc' & Hp'). exists c'.
           split; [ now right | exact Hp' ].
        -- rewrite <- app_assoc in Hlen. cbn [app] in Hlen.
           rewrite length_app in Hlen. rewrite !length_app in *.
           cbn [List.length] in *. lia.
      * destruct (IH reviews) as (added & Heq & Hfrom & Hlen).
        exists added. repeat split; [ exact Heq | | exact Hlen ].
        intros r Hin. destruct (Hfrom r Hin) as (c' & Hc' & Hp'). exists c'.
        split; [ now right | exact Hp' ].
Qed.

Lemma scrape_loop_ok fuel responses imdb_id max_reviews :
  forall request reviews result,
    collected_ok responses imdb_id max_reviews reviews ->
    scrape_loop fuel responses imdb_id max_reviews request reviews = Some result ->
    collected_ok responses imdb_id max_reviews result.
Proof.
  induction fuel as [ | fuel IH ]; intros request reviews result Hok; cbn [scrape_loop].
  - destruct (max_reviews <=? Z.of_nat (List.length reviews)); [ | discriminate ].
    intro H. now injection H as <-.
  - destruct (max_reviews <=? Z.of_nat (List.length reviews)) eqn:E;
      [ intro H; now injection H as <- | ].
    destruct (responses request) as [e | containers key] eqn:Er;
      [ intro H; now injection H as <- | ].
    destruct containers as [ | c containers ]; [ intro H; now injection H as <- | ].
    destruct (add_reviews_grows imdb_id max_reviews (c :: containers) reviews)
      as (added & Heq & Hfrom & Hlen).
    assert (Hok' : collected_ok responses imdb_id max_reviews
                     (add_reviews imdb_id max_reviews reviews (c :: containers))).
    { rewrite Heq. destruct Hok as [Hl Hall]. split; [ lia | ].
      intros r Hin. apply in_app_or in Hin. destruct Hin as [Hin | Hin].
      - now apply Hall.
      - destruct (Hfrom r Hin) as (c' & Hc' & Hp').
        exists request, c'. rewrite Er. now split. }
    destruct key as [k | ].
    + now apply IH.
    + intro H. now injection H as <-.
Qed.

Lemma scrape_loop_ends fuel responses imdb_id max_reviews :
  forall request reviews,
    (exists n, (request <= n < request + fuel)%nat /\ ends_loop (responses n) = true) ->
    exists result,
      scrape_loop fuel responses imdb_id max_reviews request reviews = Some result.
Proof.
  induction fuel as [ | fuel IH ]; intros request reviews (n & Hn & Hend); [ lia | ].
  cbn [scrape_loop].
  destruct (max_reviews <=? Z.of_nat (List.length reviews)); [ eauto | ].
  destruct (responses request) as [e | containers key] eqn:Er; [ eauto | ].
  destruct containers as [ | c containers ]; [ eauto | ].
  destruct key as [k | ]; [ | eauto ].
  apply IH. exists n. split; [ | exact Hend ].
  destruct (Nat.eq_dec n request) as [-> | Hne]; [ | lia ].
  rewrite Er in Hend. discriminate.
Qed.

(** X14.  When IMDb's [scrape_reviews] returns, it returns at most
    [max_reviews] reviews (none when [max_reviews] is not positive), each
    parsed from a container of one of the pages; and it does return, with
    what it has collected, as soon as a request fails, a page has no review
    container, or a page has no [data-key]. *)
Theorem imdb_scrape_reviews_bounded
        (fuel : nat) (responses : nat -> Fetched) (imdb_id : string) (max_reviews : Z) :
  (forall result,
     Loops.scrape_reviews fuel responses imdb_id max_reviews = Some result ->
     Z.of_nat (List.length result) <= Z.max max_reviews 0
     /\ forall r, In r result ->
          exists n container,
            In container (containers_of (responses n))
            /\ IMDb._parse_review container imdb_id = Some r)
  /\ ((exists n, (n < fuel)%nat /\ ends_loop (responses n) = true) ->
      exists result,
        Loops.scrape_reviews fuel responses imdb_id max_reviews = Some result).
Proof.
  unfold Loops.scrape_reviews. split.
  - intros result H.
    apply (scrape_loop_ok fuel responses imdb_id max_reviews 0%nat [] result);
      [ | exact H ].
    split; [ simpl; lia | intros r [] ].
  - intros (n & Hn & Hend). apply scrape_loop_ends. exists n. split; [ lia | exact Hend ].
Qed.

Lemma add_reviews_all_rejected imdb_id max_reviews containers : forall reviews,
  (forall c, In c containers -> IMDb._parse_review c imdb_id = None) ->
  add_reviews imdb_id max_reviews reviews containers = reviews.
Proof.
  induction containers as [ | c containers IH ]; intros reviews Hrej; cbn [add_reviews];
    [ reflexivity | ].
  destruct (max_reviews <=? Z.of_nat (List.length reviews)); [ reflexivity | ].
  rewrite (Hrej c (or_introl eq_refl)). apply IH. intros; apply Hrej; now right.
Qed.

(** X15.  The loop of IMDb's [scrape_reviews] has no bound of its own: when
    every page has a container, a [data-key], and no container that parses
    to a review, it is still running after any number of requests. *)
Theorem imdb_scrape_reviews_can_run_forever
        (responses : nat -> Fetched) (imdb_id : string) (max_reviews : Z) :
  0 < max_reviews ->
  (forall n, exists c containers key,
     responses n = FetchedPage (c :: containers) (Some key)
     /\ forall c', In c' (c :: containers) -> IMDb._parse_review c' imdb_id = None) ->
  forall fuel, Loops.scrape_reviews fuel responses imdb_id max_reviews = None.
Proof.
  intros Hmax Hpages fuel. unfold Loops.scrape_reviews.
  generalize 0%nat as request.
  induction fuel as [ | fuel IH ]; intro request; cbn [scrape_loop].
  - replace (max_reviews <=? Z.of_nat (List.length (@nil Review))) with false
      by (symmetry; apply Z.leb_gt; simpl; lia).
    reflexivity.
  - replace (max_reviews <=? Z.of_nat (List.length (@nil Review))) with false
      by (symmetry; apply Z.leb_gt; simpl; lia).
    destruct (Hpages request) as (c & containers & key & Hr & Hrej).
    rewrite Hr, (add_reviews_all_rejected imdb_id max_reviews (c :: containers) [] Hrej).
    apply IH.
Qed.

End ScrapingLoops.

Lemma imdb_scrape_reviews_can_run_forever_witness :
  Loops.scrape_reviews 100 Sample.short_pages "tt0000001" 5 = None.
Proof.
  apply (imdb_scrape_reviews_can_run_forever Sample.short_pages "tt0000001" 5).
  - lia.
  - intro n. exists (Sample.imdb_container "Loved this film"), [], "next".
    split; [ reflexivity | ].
    intros c' [<- | []]. vm_compute. reflexivity.
Defined.

(** ** The best candidate *)

Section BestCandidate.

Import Spec Props.

Lemma fold_left_snoc_invariant {A B : Type} (f : A -> B -> A)
      (P : list B -> A -> Prop) (l : list B) :
  (forall seen st x, P seen st -> P (seen ++ [x])%list (f st x)) ->
  forall seen st, P seen st -> P (seen ++ l)%list (fold_left f l st).
Proof.
  intro Hstep. induction l as [ | x l IH ]; intros seen st H; simpl.
  - now rewrite app_nil_r.
  - replace (seen ++ x :: l)%list with ((seen ++ [x]) ++ l)%list
      by (now rewrite <- app_assoc).
    apply IH. now apply Hstep.
Qed.

Section IMDbBest.

Variable token_sort_ratio : string -> string -> Z.

Lemma imdb_argmax_step normalized year seen st x :
  imdb_argmax token_sort_ratio normalized year seen st ->
  imdb_argmax token_sort_ratio normalized year (seen ++ [x])%list
    (IMDb.consider token_sort_ratio normalized year st x).
Proof.
  intros (H0 & Hmax & Hbest).
  assert (Hkeep : (IMDb.year_matches year x = true ->
                   IMDb.fuzzy_score token_sort_ratio normalized x <= snd st) ->
                  imdb_argmax token_sort_ratio normalized year (seen ++ [x])%list st).
  { intro Hnew. split; [ exact H0 | split ].
    - intros y Hy Hym. apply in_app_or in Hy.
      destruct Hy as [Hy | [<- | []]]; [ now apply Hmax | now apply Hnew ].
    - destruct (fst st) as [b | ]; [ | exact Hbest ].
      destruct Hbest as (Hin & Hbm & Hbs).
      split; [ apply in_or_app; now left | split; assumption ]. }
  unfold IMDb.consider. destruct st as [best_match best_score]. cbn [fst snd] in *.
  destruct (IMDb.year_matches year x) eqn:Em; cbn [andb];
    [ | apply Hkeep; discriminate ].
  destruct (best_score <? IMDb.fuzzy_score token_sort_ratio normalized x) eqn:Es.
  - apply Z.ltb_lt in Es. split; [ cbn [snd]; lia | split ]; cbn [fst snd].
    + intros y Hy Hym. apply in_app_or in Hy.
      destruct Hy as [Hy | [<- | []]]; [ specialize (Hmax y Hy Hym); lia | lia ].
    + split; [ apply in_or_app; right; now left | split; [ exact Em | reflexivity ] ].
  - apply Z.ltb_ge in Es. apply Hkeep. intros _. exact Es.
Qed.

Lemma imdb_argmax_fold normalized year results :
  imdb_argmax token_sort_ratio normalized year results
    (fold_left (IMDb.consider token_sort_ratio normalized year) results (None, 0)).
Proof.
  apply (fold_left_snoc_invariant
           (IMDb.consider token_sort_ratio normalized year)
           (imdb_argmax token_sort_ratio normalized year) results
           (fun seen st x => imdb_argmax_step normalized year seen st x) [] (None, 0)).
  split; [ cbn; lia | split; [ intros x [] | reflexivity ] ].
Qed.

(** X16.  The IMDb fuzzy search returns the best candidate and misses none:
    a result it returns is among the first ten, matches the year, reaches the
    threshold, and no year-matching result among the first ten scores
    higher; and whenever one of the first ten results matches the year with
    a positive score that reaches the threshold, the search returns a
    result. *)
Theorem imdb_fuzzy_returns_best
        (title : string) (year : option Z) (threshold : Z)
        (results : list IMDb.SearchResult) :
  (forall id,
     IMDb.search_movie_fuzzy token_sort_ratio true title year threshold (Return results)
     = Some id ->
     exists best,
       In best (firstn 10 results) /\ IMDb.result_imdb_id best = id /\
       IMDb.year_matches year best = true /\
       threshold <= IMDb.fuzzy_score token_sort_ratio (IMDb.normalize_title title) best /\
       forall x, In x (firstn 10 results) -> IMDb.year_matches year x = true ->
                 IMDb.fuzzy_score token_sort_ratio (IMDb.normalize_title title) x
                 <= IMDb.fuzzy_score token_sort_ratio (IMDb.normalize_title title) best)
  /\ (forall x,
        In x (firstn 10 results) -> IMDb.year_matches year x = true ->
        0 < IMDb.fuzzy_score token_sort_ratio (IMDb.normalize_title title) x ->
        threshold <= IMDb.fuzzy_score token_sort_ratio (IMDb.normalize_title title) x ->
        exists id,
          IMDb.search_movie_fuzzy token_sort_ratio true title year threshold
            (Return results) = Some id).
Proof.
  unfold IMDb.search_movie_fuzzy. cbn [negb].
  destruct results as [ | r0 results ].
  - split; [ intros id H; discriminate | intros x [] ].
  - set (top := firstn 10 (r0 :: results)).
    pose proof (imdb_argmax_fold (IMDb.normalize_title title) year top) as Hinv.
    destruct (fold_left (IMDb.consider token_sort_ratio (IMDb.normalize_title title) year)
                        top (None, 0)) as [best_match best_score].
    destruct Hinv as (H0 & Hmax & Hbest). cbn [fst snd] in *.
    split.
    + intros id H. destruct best_match as [best | ]; [ | discriminate ].
      destruct (threshold <=? best_score) eqn:Et; [ | discriminate ].
      apply Z.leb_le in Et. injection H as <-.
      destruct Hbest as (Hin & Hbm & Hbs).
      exists best. repeat split; auto; try lia.
      intros x Hx Hxm. specialize (Hmax x Hx Hxm). lia.
    + intros x Hx Hxm Hpos Hth. specialize (Hmax x Hx Hxm).
      destruct best_match as [best | ]; [ | lia ].
      destruct (threshold <=? best_score) eqn:Et; [ eauto | ].
      apply Z.leb_gt in Et. lia.
Qed.

End IMDbBest.

(** *** Rotten Tomatoes *)

Lemma rt_consider_candidate title year st row :
  RottenTomatoes.consider title year st row
  = match rt_candidate title year row with
    | Some m =>
        if negb (Qle_bool (match_score_of m) (snd st))
        then (Some m, match_score_of m) else st
    | None => st
    end.
Proof.
  unfold RottenTomatoes.consider, rt_candidate. destruct st as [best_match best_score].
  destruct (RottenTomatoes.info_name row) as [[link_text result_url] | ];
    [ | reflexivity ].
  match goal with |- context [if ?tv then _ else _] => destruct tv end; [ reflexivity | ].
  destruct (Py.truthy_opt_int year && Py.truthy_opt_str (RottenTomatoes.startyear row));
    [ | reflexivity ].
  destruct year as [y | ]; [ | reflexivity ].
  destruct (RottenTomatoes.startyear row) as [ry | ]; [ | reflexivity ].
  destruct (Py.int_of_str ry) as [r | ]; [ | reflexivity ].
  destruct (Z.abs (r - y) <=? 2); reflexivity.
Qed.

Lemma rt_argmax_step title year seen st row :
  rt_argmax title year seen st ->
  rt_argmax title year (seen ++ [row])%list (RottenTomatoes.consider title year st row).
Proof.
  intros (H0 & Hmax & Hbest). rewrite rt_consider_candidate.
  assert (Hkeep : forall (Hnew : forall m, rt_candidate title year row = Some m ->
                                      (match_score_of m <= snd st)%Q),
             rt_argmax title year (seen ++ [row])%list st).
  { intro Hnew. split; [ exact H0 | split ].
    - intros row' m Hin Hc. apply in_app_or in Hin.
      destruct Hin as [Hin | [<- | []]]; [ now apply (Hmax row') | now apply Hnew ].
    - destruct (fst st) as [m | ]; [ | exact Hbest ].
      destruct Hbest as ((row' & Hin & Hc) & Hs). split; [ | exact Hs ].
      exists row'. split; [ apply in_or_app; now left | exact Hc ]. }
  destruct (rt_candidate title year row) as [m | ] eqn:Ec;
    [ | apply Hkeep; intros m Hm; discriminate ].
  destruct (Qle_bool (match_score_of m) (snd st)) eqn:Ele; cbn [negb].
  - apply Hkeep. intros m' Hm'. injection Hm' as <-. now apply Qle_bool_iff.
  - assert (Hlt : (snd st < match_score_of m)%Q).
    { apply Qnot_le_lt. intro Hle. apply Qle_bool_iff in Hle. congruence. }
    split; [ cbn [snd]; lra | split ]; cbn [fst snd].
    + intros row' m' Hin Hc. apply in_app_or in Hin.
      destruct Hin as [Hin | [<- | []]].
      * specialize (Hmax row' m' Hin Hc). lra.
      * rewrite Ec in Hc. injection Hc as <-. apply Qle_refl.
    + split; [ | reflexivity ].
      exists row. split; [ apply in_or_app; right; now left | exact Ec ].
Qed.

Lemma rt_argmax_fold title year rows :
  rt_argmax title year rows
    (fold_left (RottenTomatoes.consider title year) rows (None, 0%Q)).
Proof.
  apply (fold_left_snoc_invariant
           (RottenTomatoes.consider title year) (rt_argmax title year) rows
           (fun seen st x => rt_argmax_step title year seen st x) [] (None, 0%Q)).
  split; [ apply Qle_refl | split; [ intros row m [] | reflexivity ] ].
Qed.

(** X17.  The Rotten Tomatoes search returns the best candidate: a slug it
    returns is cut out of the link of an eligible row (with its link, not a
    TV entry, year within 2 when compared) whose score, year bonus included,
    reaches 0.7, and no eligible row scores higher.  When every row has a
    link address and an eligible row reaches 0.7, the search returns a
    slug. *)
Theorem rt_search_returns_best
        (title : string) (year : option Z) (rows : list RottenTomatoes.MediaRow) :
  (forall slug,
     RottenTomatoes._search_via_selenium title year (Return rows) = Return (Some slug) ->
     exists row result_title u ry score,
       In row rows /\
       rt_candidate title year row = Some (result_title, Some u, ry, score) /\
       slug = RottenTomatoes.slug_of_url u /\
       (7 # 10 <= score)%Q /\
       (Py.is_empty u = true \/ Py.contains "/tv/" u = false) /\
       forall row' m, In row' rows -> rt_candidate title year row' = Some m ->
                      (match_score_of m <= score)%Q)
  /\ (forall row m,
        In row rows -> rt_candidate title year row = Some m ->
        (7 # 10 <= match_score_of m)%Q ->
        (forall row' m', In row' rows -> rt_candidate title year row' = Some m' ->
                         match_url_of m' <> None) ->
        exists slug,
          RottenTomatoes._search_via_selenium title year (Return rows)
          = Return (Some slug)).
Proof.
  unfold RottenTomatoes._search_via_selenium, RottenTomatoes._search_via_selenium_body,
    try_except, bind.
  destruct rows as [ | row0 rows ].
  - split; [ intros slug H; discriminate | intros row m [] ].
  - pose proof (rt_argmax_fold title year (row0 :: rows)) as Hinv.
    destruct (fold_left (RottenTomatoes.consider title year) (row0 :: rows) (None, 0%Q))
      as [best_match best_score].
    destruct Hinv as (H0 & Hmax & Hbest). cbn [fst snd] in *.
    split.
    + intros slug H.
      destruct best_match as [[[[t url] ry] sc] | ]; [ | discriminate ].
      destruct (Qle_bool (7 # 10) best_score) eqn:Et; [ | discriminate ].
      destruct url as [u | ]; [ | discriminate ].
      injection H as <-.
      destruct Hbest as ((row & Hin & Hc) & Hs). cbn [match_score_of snd] in Hs. subst sc.
      apply Qle_bool_iff in Et.
      exists row, t, u, ry, best_score. repeat split; auto.
      unfold rt_candidate in Hc.
      destruct (RottenTomatoes.info_name row) as [[link_text result_url] | ];
        [ | discriminate ].
      destruct result_url as [u' | ].
      * destruct (Py.truthy_str u' && Py.contains "/tv/" u') eqn:Etv; [ discriminate | ].
        assert (Hu : Some u' = Some u).
        { destruct (Py.truthy_opt_int year
                    && Py.truthy_opt_str (RottenTomatoes.startyear row));
            [ destruct year; [ destruct (RottenTomatoes.startyear row);
                               [ destruct (Py.int_of_str _);
                                 [ destruct (Z.abs _ <=? 2) | ] | ] | ] | ];
            congruence. }
        injection Hu as <-.
        apply andb_false_iff in Etv. destruct Etv as [Etv | Etv]; [ left | now right ].
        unfold Py.truthy_str in Etv. now apply negb_false_iff in Etv.
      * exfalso.
        destruct (Py.truthy_opt_int year
                  && Py.truthy_opt_str (RottenTomatoes.startyear row));
          [ destruct year; [ destruct (RottenTomatoes.startyear row);
                             [ destruct (Py.int_of_str _);
                               [ destruct (Z.abs _ <=? 2) | ] | ] | ] | ];
          congruence.
    + intros row m Hin Hc Hth Hurls.
      specialize (Hmax row m Hin Hc).
      destruct best_match as [[[[t url] ry] sc] | ].
      * destruct Hbest as ((row' & Hin' & Hc') & Hs).
        assert (Et : Qle_bool (7 # 10) best_score = true)
          by (apply Qle_bool_iff; lra).
        rewrite Et.
        destruct url as [u | ]; [ eauto | ].
        exfalso. now apply (Hurls row' _ Hin' Hc').
      * rewrite Hbest in Hmax. lra.
Qed.

End BestCandidate.

(** ** The text of an IMDb review *)

Section ReviewText.

Import Props.

Lemma collapse_blanks_collapsed (s : string) :
  forall in_blanks,
    blanks_collapsed (IMDb.collapse_blanks in_blanks s) = true
    /\ (in_blanks = true -> starts_blank (IMDb.collapse_blanks in_blanks s) = false).
Proof.
  induction s as [ | c s IH ]; intro in_blanks; cbn [IMDb.collapse_blanks].
  - split; reflexivity.
  - destruct (Py.is_space c) eqn:Ec.
    + destruct in_blanks.
      * apply IH.
      * destruct (IH true) as [Hc Hs]. split; [ | discriminate ].
        cbn [blanks_collapsed]. rewrite Hc, (Hs eq_refl). reflexivity.
    + destruct (IH false) as [Hc _]. split.
      * cbn [blanks_collapsed]. rewrite Ec, Hc. reflexivity.
      * intros _. cbn [starts_blank]. exact Ec.
Qed.

Lemma lstrip_collapsed (s : string) :
  blanks_collapsed s = true ->
  blanks_collapsed (Py.lstrip_with Py.is_space s) = true
  /\ starts_blank (Py.lstrip_with Py.is_space s) = false.
Proof.
  induction s as [ | c s IH ]; intro H; cbn [Py.lstrip_with].
  - split; reflexivity.
  - destruct (Py.is_space c) eqn:Ec.
    + apply IH. cbn [blanks_collapsed] in H. now apply andb_prop in H.
    + split; [ exact H | exact Ec ].
Qed.

Lemma rstrip_head (p : ascii -> bool) (s : string) d r :
  Py.rstrip_with p s = String d r -> exists s', s = String d s'.
Proof.
  destruct s as [ | c s ]; cbn [Py.rstrip_with]; [ discriminate | ].
  destruct (p c && Py.is_empty (Py.rstrip_with p s)); [ discriminate | ].
  intro H. injection H as -> _. eauto.
Qed.

Lemma rstrip_single_spaced (s : string) :
  blanks_collapsed s = true ->
  single_spaced (Py.rstrip_with Py.is_space s) = true.
Proof.
  induction s as [ | c s IH ]; intro H; cbn [Py.rstrip_with]; [ reflexivity | ].
  cbn [blanks_collapsed] in H. apply andb_prop in H. destruct H as [Hc Hs].
  specialize (IH Hs).
  destruct (Py.is_space c) eqn:Ec; cbn [andb negb orb] in *.
  - destruct (Py.rstrip_with Py.is_space s) as [ | d r ] eqn:Er; cbn [Py.is_empty];
      [ reflexivity | ].
    destruct (rstrip_head _ _ _ _ Er) as [s' ->].
    cbn [single_spaced starts_word]. rewrite Ec. cbn [negb orb].
    cbn [starts_blank] in Hc. rewrite Hc. exact IH.
  - cbn [single_spaced]. rewrite Ec. exact IH.
Qed.

Lemma rstrip_starts (s : string) :
  starts_blank s = false -> starts_blank (Py.rstrip_with Py.is_space s) = false.
Proof.
  intro H. destruct (Py.rstrip_with Py.is_space s) as [ | d r ] eqn:Er; [ reflexivity | ].
  destruct (rstrip_head _ _ _ _ Er) as [s' ->]. exact H.
Qed.

Lemma extracted_text_tidy (container : IMDb.Container) extracted :
  IMDb.extracted_text container = Some extracted ->
  single_spaced extracted = true /\ starts_blank extracted = false.
Proof.
  unfold IMDb.extracted_text. destruct (IMDb.content_text container) as [raw | ];
    [ | discriminate ].
  intro H. injection H as <-. unfold Py.strip.
  destruct (collapse_blanks_collapsed (IMDb.remove_spoiler None 0 raw) false) as [Hc _].
  destruct (lstrip_collapsed _ Hc) as [Hl Hs].
  split; [ now apply rstrip_single_spaced | now apply rstrip_starts ].
Qed.

Lemma single_spaced_tail c s :
  single_spaced (String c s) = true -> single_spaced s = true.
Proof. cbn [single_spaced]. intro H. now apply andb_prop in H. Qed.

Lemma single_spaced_drop (n : nat) :
  forall s, single_spaced s = true -> single_spaced (Py.drop n s) = true.
Proof.
  induction n as [ | n IH ]; intros s H; destruct s as [ | c s ]; cbn [Py.drop];
    try assumption.
  apply IH. now apply single_spaced_tail in H.
Qed.

Lemma single_spaced_lstrip (s : string) :
  single_spaced s = true ->
  single_spaced (Py.lstrip_with Py.is_space s) = true
  /\ starts_blank (Py.lstrip_with Py.is_space s) = false.
Proof.
  induction s as [ | c s IH ]; intro H; cbn [Py.lstrip_with].
  - split; reflexivity.
  - destruct (Py.is_space c) eqn:Ec.
    + apply IH. now apply single_spaced_tail in H.
    + split; [ exact H | exact Ec ].
Qed.

Lemma drop_suffix (n : nat) :
  forall s, exists p, s = p ++ Py.drop n s.
Proof.
  induction n as [ | n IH ]; intro s.
  - exists "". reflexivity.
  - destruct s as [ | c s ]; [ exists ""; reflexivity | ].
    destruct (IH s) as [p Hp]. exists (String c p). cbn [Py.drop append]. now f_equal.
Qed.

Lemma lstrip_suffix (f : ascii -> bool) (s : string) :
  exists p, s = p ++ Py.lstrip_with f s.
Proof.
  induction s as [ | c s [p Hp] ]; [ exists ""; reflexivity | ].
  cbn [Py.lstrip_with]. destruct (f c).
  - exists (String c p). cbn [append]. now f_equal.
  - exists "". reflexivity.
Qed.

Lemma append_assoc_string (a b c : string) : (a ++ b) ++ c = a ++ (b ++ c).
Proof. induction a as [ | x a IH ]; cbn [append]; [ reflexivity | now f_equal ]. Qed.

(** What [strip_rating_prefix] returns: its argument, or what follows a
    prefix of it, without the blanks in front. *)
Lemma strip_rating_prefix_cases (s : string) :
  IMDb.strip_rating_prefix s = s
  \/ exists n, IMDb.strip_rating_prefix s
               = Py.lstrip_with Py.is_space (Py.drop n s).
Proof.
  unfold IMDb.strip_rating_prefix.
  set (num := IMDb.take_while Py.is_digit s).
  destruct (drop_suffix (String.length num) s) as [p Hp].
  destruct (Py.drop (String.length num) s) as [ | ch rest ] eqn:Ed; [ now left | ].
  destruct (Ascii.eqb ch "/") eqn:Ech.
  - apply Ascii.eqb_eq in Ech. subst ch.
    destruct (Py.is_empty num || Py.is_empty (IMDb.take_while Py.is_digit rest));
      [ now left | right ].
    exists (String.length num + 1 + String.length (IMDb.take_while Py.is_digit rest))%nat.
    f_equal.
    assert (Hdrop : forall a b t, Py.drop (a + b) t = Py.drop b (Py.drop a t)).
    { induction a as [ | a IHa ]; intros b t; [ reflexivity | ].
      destruct t as [ | x t ]; cbn [Py.drop Nat.add].
      - destruct b; reflexivity.
      - apply IHa. }
    rewrite !Hdrop, Ed. reflexivity.
  - left.
    destruct ch as [[] [] [] [] [] [] [] []]; try reflexivity. discriminate.
Qed.

Lemma strip_rating_prefix_tidy (s : string) :
  single_spaced s = true -> starts_blank s = false ->
  single_spaced (IMDb.strip_rating_prefix s) = true
  /\ starts_blank (IMDb.strip_rating_prefix s) = false
  /\ exists p, s = p ++ IMDb.strip_rating_prefix s.
Proof.
  intros Hs Hb. destruct (strip_rating_prefix_cases s) as [-> | [n ->]].
  - split; [ exact Hs | split; [ exact Hb | exists ""; reflexivity ] ].
  - destruct (single_spaced_lstrip _ (single_spaced_drop n s Hs)) as [H1 H2].
    split; [ exact H1 | split; [ exact H2 | ] ].
    destruct (drop_suffix n s) as [p Hp].
    destruct (lstrip_suffix Py.is_space (Py.drop n s)) as [q Hq].
    exists (p ++ q). rewrite append_assoc_string, <- Hq. exact Hp.
Qed.

Lemma strip_rating_prefix_no_digit (c : ascii) (s : string) :
  Py.is_digit c = false -> IMDb.strip_rating_prefix (String c s) = String c s.
Proof.
  intro Hc. unfold IMDb.strip_rating_prefix. cbn [IMDb.take_while]. rewrite Hc.
  cbn [String.length Py.drop].
  destruct c as [[] [] [] [] [] [] [] []]; reflexivity.
Qed.

(** X18.  The text of a review that IMDb's [_parse_review] makes of ASCII
    content is normalised: the text extracted from the container has at
    least 20 characters, starts with no blank, and has blanks only as single
    spaces between other characters; the stored text is what is left of it
    after a leading rating is removed, so it is a suffix of the extracted
    text with the same properties, its recorded length is its own, and it
    is the extracted text itself when that does not start with a digit. *)
Theorem imdb_review_text_is_normalised
        (container : IMDb.Container) (imdb_id raw : string) (r : Review) :
  IMDb.content_text container = Some raw ->
  Py.is_ascii raw = true ->
  IMDb._parse_review container imdb_id = Some r ->
  exists extracted,
    IMDb.extracted_text container = Some extracted
    /\ (20 <= String.length extracted)%nat
    /\ single_spaced extracted = true /\ starts_blank extracted = false
    /\ (exists removed, extracted = removed ++ text r)
    /\ single_spaced (text r) = true /\ starts_blank (text r) = false
    /\ review_length r = Z.of_nat (String.length (text r))
    /\ (forall c rest, extracted = String c rest -> Py.is_digit c = false ->
                       text r = extracted).
Proof.
  intros _ _. unfold IMDb._parse_review.
  destruct (IMDb.extracted_text container) as [extracted | ] eqn:Ee; [ | discriminate ].
  destruct (negb (Py.truthy_str extracted)
            || (Z.of_nat (String.length extracted) <? 20)) eqn:Eshort;
    [ discriminate | ].
  destruct (IMDb.found_votes container) as [[helpful not_helpful] | e];
    [ | discriminate ].
  intro H. injection H as <-. cbn [text review_length].
  apply orb_false_iff in Eshort. destruct Eshort as [_ Elen].
  apply Z.ltb_ge in Elen.
  destruct (extracted_text_tidy container extracted Ee) as [Hs Hb].
  destruct (strip_rating_prefix_tidy extracted Hs Hb) as (H1 & H2 & H3).
  exists extracted. split; [ reflexivity | ].
  split; [ lia | ].
  split; [ exact Hs | split; [ exact Hb | ] ].
  split; [ exact H3 | split; [ exact H1 | split; [ exact H2 | ] ] ].
  split; [ reflexivity | ].
  intros c rest -> Hc. now apply strip_rating_prefix_no_digit.
Qed.

Lemma imdb_review_text_is_normalised_witness :
  exists r extracted,
    IMDb._parse_review (Sample.imdb_container "  Loved   this film,  wow ") "tt0000001"
    = Some r
    /\ IMDb.extracted_text (Sample.imdb_container "  Loved   this film,  wow ")
       = Some extracted
    /\ text r = "Loved this film, wow"
    /\ Props.single_spaced (text r) = true.
Proof.
  eexists. eexists.
  split; [ vm_compute; reflexivity | ].
  split; [ vm_compute; reflexivity | ].
  split; [ reflexivity | ].
  match goal with
  | |- Props.single_spaced (text ?r) = true =>
      destruct (imdb_review_text_is_normalised
                  (Sample.imdb_container "  Loved   this film,  wow ") "tt0000001"
                  "  Loved   this film,  wow " r eq_refl eq_refl eq_refl)
        as (extracted & _ & _ & _ & _ & _ & H & _)
  end.
  exact H.
Defined.

End ReviewText.
